(** * ai-web-agent: the analyzer and the prompt generator

    A shallow embedding of [src/analyzer.js] (class [CodebaseAnalyzer]),
    [src/promptGenerator.js] (class [PromptGenerator]) and the entry points of
    [index.js] (class [AIWebAgent]), with the properties of the analysis
    record and of the rendered prompt that the specification states; then
    of the walkers and tests of [src/utils/fileUtils.js], of the loading of
    the templates and of the configuration, of the saving of the prompt and
    of the command line of [index.js], with what the code itself shows of
    them.

    JavaScript strings are sequences of UTF-16 code units, and the regular
    expressions of the renderer work on code units; strings are therefore
    lists of code units, written in this file as UTF-8 literals through
    [js].  What Node provides ([path], [JSON.parse],
    [String.prototype.toLowerCase]) is an interface, [Runtime]; the file
    system is a tree of what [readdirSync], [statSync] and [readFileSync]
    answer. *)

From Stdlib Require Import Ascii String DecimalString PrimFloat.
From Stdlib Require Import NArith Arith Bool Lia List Permutation Sorted.
Import ListNotations.

Set Warnings "-register-all".
Open Scope string_scope.
Open Scope list_scope.

(** ** Strings *)

Definition code_unit := N.
Definition js_string := list code_unit.

(** UTF-8 bytes to code points. *)
Fixpoint utf8_decode (bs : list N) : list N :=
  match bs with
  | [] => []
  | b0 :: r0 =>
    if (b0 <? 128)%N then b0 :: utf8_decode r0 else
    match r0 with
    | [] => [b0]
    | b1 :: r1 =>
      if (b0 <? 224)%N
      then ((b0 - 192) * 64 + (b1 - 128))%N :: utf8_decode r1 else
      match r1 with
      | [] => [b0; b1]
      | b2 :: r2 =>
        if (b0 <? 240)%N
        then ((b0 - 224) * 4096 + (b1 - 128) * 64 + (b2 - 128))%N
               :: utf8_decode r2 else
        match r2 with
        | [] => [b0; b1; b2]
        | b3 :: r3 =>
          ((b0 - 240) * 262144 + (b1 - 128) * 4096
             + (b2 - 128) * 64 + (b3 - 128))%N :: utf8_decode r3
        end
      end
    end
  end.

(** A code point as one code unit or as a surrogate pair. *)
Definition utf16_encode (cp : N) : js_string :=
  if (cp <? 65536)%N then [cp]
  else [(55296 + (cp - 65536) / 1024)%N; (56320 + (cp - 65536) mod 1024)%N].

(** The JavaScript string denoted by a literal of this file. *)
Definition js (s : string) : js_string :=
  flat_map utf16_encode (utf8_decode (map N_of_ascii (list_ascii_of_string s))).

Definition unit_eqb : code_unit -> code_unit -> bool := N.eqb.

Fixpoint str_eqb (a b : js_string) : bool :=
  match a, b with
  | [], [] => true
  | x :: a', y :: b' => unit_eqb x y && str_eqb a' b'
  | _, _ => false
  end.

(** [s.startsWith(p)] *)
Fixpoint startsWith (p s : js_string) : bool :=
  match p, s with
  | [], _ => true
  | x :: p', y :: s' => unit_eqb x y && startsWith p' s'
  | _ :: _, [] => false
  end.

(** [s.endsWith(p)] *)
Definition endsWith (p s : js_string) : bool :=
  startsWith (rev p) (rev s).

(** [s.includes(p)] on strings. *)
Fixpoint includes (p s : js_string) : bool :=
  startsWith p s ||
  match s with
  | [] => false
  | _ :: s' => includes p s'
  end.

(** [arr.includes(x)] on an array of strings (strict equality). *)
Definition arr_includes (arr : list js_string) (x : js_string) : bool :=
  existsb (str_eqb x) arr.

(** [arr.join(sep)] *)
Fixpoint join (sep : js_string) (arr : list js_string) : js_string :=
  match arr with
  | [] => []
  | [x] => x
  | x :: rest => x ++ sep ++ join sep rest
  end.

(** [arr.slice(0, n)] *)
Definition slice0 {A} (n : nat) (arr : list A) : list A := firstn n arr.

(** [String(n)] for a non-negative integer (an array length). *)
Definition ToString_nat (n : nat) : js_string :=
  js (NilZero.string_of_uint (Nat.to_uint n)).

(** [a || b] on strings: the empty string is the only falsy string. *)
Definition str_or (a b : js_string) : js_string :=
  match a with [] => b | _ => a end.

(** Line terminators, which the regular-expression dot does not match. *)
Definition is_line_terminator (c : code_unit) : bool :=
  (c =? 10)%N || (c =? 13)%N || (c =? 8232)%N || (c =? 8233)%N.

(** ** Values, exceptions and the runtime *)

(** What a [throw] carries. *)
Inductive js_error : Type :=
| Error (message : js_string)
| TypeError
| SyntaxError
| SystemError (code : js_string).

(** The outcome of a call: a value, or an exception on its way up. *)
Inductive completion (A : Type) : Type :=
| Normal (a : A)
| Throw (e : js_error).
Arguments Normal {A} a.
Arguments Throw {A} e.

Definition bind {A B} (c : completion A) (k : A -> completion B) : completion B :=
  match c with
  | Normal a => k a
  | Throw e => Throw e
  end.

Notation "x <- c ;; k" := (bind c (fun x => k))
  (at level 61, c at next level, right associativity).

(** [try { body } catch (error) { handler }] *)
Definition try_catch {A} (body : completion A) (handler : js_error -> completion A)
  : completion A :=
  match body with
  | Normal a => Normal a
  | Throw e => handler e
  end.

(** The values a parsed manifest is made of, and [undefined].  An object
    holds its own properties in the order JavaScript enumerates them. *)
Inductive value : Type :=
| VUndefined
| VNull
| VBool (b : bool)
| VNum (d : float)
| VStr (s : js_string)
| VArr (elems : list value)
| VObj (props : list (js_string * value)).

(** [ToBoolean] *)
Definition truthy (v : value) : bool :=
  match v with
  | VUndefined | VNull => false
  | VBool b => b
  | VNum d => negb (PrimFloat.eqb d 0%float || PrimFloat.is_nan d)
  | VStr s => match s with [] => false | _ => true end
  | VArr _ | VObj _ => true
  end.

(** [a || b] *)
Definition value_or (a b : value) : value := if truthy a then a else b.

Fixpoint assoc (k : js_string) (props : list (js_string * value)) : option value :=
  match props with
  | [] => None
  | (k', v) :: rest => if str_eqb k k' then Some v else assoc k rest
  end.

(** [index_props 0 [v0; v1; ...]]: the properties ["0"], ["1"], ... of an
    array or of a string. *)
Fixpoint index_props (i : nat) (elems : list value) : list (js_string * value) :=
  match elems with
  | [] => []
  | v :: rest => (ToString_nat i, v) :: index_props (S i) rest
  end.

(** The own enumerable properties of a value, as [{...v}] and [Object.keys(v)]
    see them: those of an object, the indices of an array or of a string,
    none for the other primitives. *)
Definition own_props (v : value) : list (js_string * value) :=
  match v with
  | VObj props => props
  | VArr elems => index_props 0 elems
  | VStr s => index_props 0 (map (fun c => VStr [c]) s)
  | _ => []
  end.

(** [Object.keys(v)] *)
Definition Object_keys (v : value) : list js_string := map fst (own_props v).

(** The names that every object inherits from [Object.prototype]. *)
Definition Object_prototype_names : list js_string :=
  map js ["constructor"; "__defineGetter__"; "__defineSetter__"; "hasOwnProperty";
          "__lookupGetter__"; "__lookupSetter__"; "isPrototypeOf";
          "propertyIsEnumerable"; "toString"; "valueOf"; "__proto__";
          "toLocaleString"].

(** [obj[name]] where [obj] is an ordinary object built from [props] and
    [name] is none of the inherited names: the own property, or [undefined]. *)
Definition get (props : list (js_string * value)) (name : js_string) : value :=
  match assoc name props with
  | Some v => v
  | None => VUndefined
  end.

(** [v.name] on a parsed manifest value, for the names this program reads
    ([dependencies], [devDependencies], [scripts], [type]), which no prototype
    defines: a [TypeError] on [null], the own property of an object, and
    [undefined] on everything else. *)
Definition get_member (v : value) (name : js_string) : completion value :=
  match v with
  | VNull | VUndefined => Throw TypeError
  | VObj props => Normal (get props name)
  | _ => Normal VUndefined
  end.

(** [target[k] = v] while copying properties: an existing key keeps its
    place, a new one goes last. *)
Fixpoint define_prop (target : list (js_string * value)) (k : js_string) (v : value)
  : list (js_string * value) :=
  match target with
  | [] => [(k, v)]
  | (k', v') :: rest =>
      if str_eqb k k' then (k', v) :: rest else (k', v') :: define_prop rest k v
  end.

(** [{ ...a, ...b }] *)
Definition spread2 (a b : value) : list (js_string * value) :=
  fold_left (fun o kv => define_prop o (fst kv) (snd kv)) (own_props b)
    (fold_left (fun o kv => define_prop o (fst kv) (snd kv)) (own_props a) []).

(** What Node gives the program: the [path] module, [JSON.parse] and
    [String.prototype.toLowerCase]. *)
Class Runtime : Type := {
  path_basename : js_string -> js_string;
  path_extname : js_string -> js_string;
  path_dirname : js_string -> js_string;
  path_join : js_string -> js_string -> js_string;
  path_relative : js_string -> js_string -> js_string;
  toLowerCase : js_string -> js_string;
  JSON_parse : js_string -> completion value
}.

(** ** The file system *)

(** What is found at a path: nothing that [stat] can reach, a file with the
    text [readFileSync] returns ([None] when the read fails), or a directory
    with its entries in the order [readdirSync] lists them ([listable] is
    false when the listing fails). *)
Inductive fsnode : Type :=
| Missing
| File (content : option js_string)
| Dir (listable : bool) (entries : list (js_string * fsnode)).

(** [fs.existsSync(path)] *)
Definition existsSync (node : fsnode) : bool :=
  match node with Missing => false | _ => true end.

(** [fs.readdirSync(path)] *)
Definition readdirSync (node : fsnode) : completion (list (js_string * fsnode)) :=
  match node with
  | Dir true entries => Normal entries
  | Dir false _ => Throw (SystemError (js "EACCES"))
  | File _ => Throw (SystemError (js "ENOTDIR"))
  | Missing => Throw (SystemError (js "ENOENT"))
  end.

(** [fs.statSync(path).isDirectory()] *)
Definition statSync_isDirectory (node : fsnode) : completion bool :=
  match node with
  | Dir _ _ => Normal true
  | File _ => Normal false
  | Missing => Throw (SystemError (js "ENOENT"))
  end.

(** [fs.readFileSync(path, 'utf8')] *)
Definition readFileSync (node : fsnode) : completion js_string :=
  match node with
  | File (Some text) => Normal text
  | File None => Throw (SystemError (js "EACCES"))
  | Dir _ _ => Throw (SystemError (js "EISDIR"))
  | Missing => Throw (SystemError (js "ENOENT"))
  end.

(** The node that [path.join(dir, name)] names, [dir] being at [node]. *)
Fixpoint lookup_entry (name : js_string) (entries : list (js_string * fsnode)) : fsnode :=
  match entries with
  | [] => Missing
  | (n, child) :: rest => if str_eqb name n then child else lookup_entry name rest
  end.

Definition child_of (node : fsnode) (name : js_string) : fsnode :=
  match node with
  | Dir _ entries => lookup_entry name entries
  | _ => Missing
  end.

(** ** The analysis record *)

(** The keys of the [categories] object of [categorizeFiles], in the order
    the object literal declares them. *)
Module Category.
Inductive t : Type :=
| javascript | typescript | react | vue | angular | styles
| html | images | config | documentation | tests | other.

Definition eqb (a b : t) : bool :=
  match a, b with
  | javascript, javascript | typescript, typescript | react, react
  | vue, vue | angular, angular | styles, styles | html, html
  | images, images | config, config | documentation, documentation
  | tests, tests | other, other => true
  | _, _ => false
  end.

(** [Object.keys(categories)] *)
Definition keys : list t :=
  [javascript; typescript; react; vue; angular; styles;
   html; images; config; documentation; tests; other].

Definition name (k : t) : js_string :=
  match k with
  | javascript => js "javascript" | typescript => js "typescript"
  | react => js "react" | vue => js "vue" | angular => js "angular"
  | styles => js "styles" | html => js "html" | images => js "images"
  | config => js "config" | documentation => js "documentation"
  | tests => js "tests" | other => js "other"
  end.
End Category.

(** The keys of the [important] object of [identifyImportantFiles]. *)
Module Role.
Inductive t : Type :=
| entryPoints | components | pages | api | config | styles.

Definition eqb (a b : t) : bool :=
  match a, b with
  | entryPoints, entryPoints | components, components | pages, pages
  | api, api | config, config | styles, styles => true
  | _, _ => false
  end.

(** [Object.keys(important)] *)
Definition keys : list t := [entryPoints; components; pages; api; config; styles].

Definition name (k : t) : js_string :=
  match k with
  | entryPoints => js "entryPoints" | components => js "components"
  | pages => js "pages" | api => js "api" | config => js "config"
  | styles => js "styles"
  end.
End Role.

(** An object whose properties are arrays of paths: [fileTypes] is one over
    [Category.t], [importantFiles] one over [Role.t]. *)
Definition buckets (K : Type) : Type := K -> list js_string.

Definition no_buckets {K} : buckets K := fun _ => [].

(** [obj.k.push(file)] *)
Definition push {K} (eqb : K -> K -> bool) (k : K) (file : js_string) (obj : buckets K)
  : buckets K :=
  fun k' => if eqb k k' then obj k' ++ [file] else obj k'.

Module Dependencies.
Record t : Type := mk {
  dependencies : value;
  devDependencies : value;
  scripts : value;
  type : value
}.
End Dependencies.

Module Technology.
Record t : Type := mk {
  framework : js_string;
  language : js_string;
  styling : js_string;
  bundler : js_string;
  testing : js_string;
  hasTypeScript : value;
  hasReact : value;
  hasVue : value;
  hasAngular : value
}.
End Technology.

Module Structure.
Record t : Type := mk {
  directories : list js_string;
  hasSrcFolder : bool;
  hasPublicFolder : bool;
  hasComponentsFolder : bool;
  hasPagesFolder : bool;
  hasApiFolder : bool
}.
End Structure.

(** The object [analyzeCodebase] returns.  The renderer tests each of the
    five sections before it reads it, so a section may be absent. *)
Module Analysis.
Record t : Type := mk {
  projectName : js_string;
  totalFiles : nat;
  fileTypes : option (buckets Category.t);
  importantFiles : option (buckets Role.t);
  dependencies : option Dependencies.t;
  technology : option Technology.t;
  structure : option Structure.t
}.
End Analysis.

(** ** analyzer.js *)

Section CodebaseAnalyzer.

Context {rt : Runtime}.

(** [this.ignoreList] *)
Definition ignoreList : list js_string :=
  map js ["node_modules"; ".git"; "dist"; "build"; ".next"; ".nuxt"].

(** The loop of [findAllFiles] over the items of a directory, [visit] being
    the call of [findAllFiles] on a subdirectory.  The loop runs inside
    [try]: when [statSync] throws on an item, what was collected so far is
    returned. *)
Fixpoint walk (visit : js_string -> fsnode -> list js_string) (folderPath : js_string)
    (items : list (js_string * fsnode)) (allFiles : list js_string) : list js_string :=
  match items with
  | [] => allFiles
  | (item, child) :: rest =>
      if arr_includes ignoreList item then walk visit folderPath rest allFiles
      else
        let fullPath := path_join folderPath item in
        match statSync_isDirectory child with
        | Throw _ => allFiles
        | Normal true => walk visit folderPath rest (allFiles ++ visit fullPath child)
        | Normal false => walk visit folderPath rest (allFiles ++ [fullPath])
        end
  end.

(** [findAllFiles(folderPath)], [node] being what is at [folderPath]: the
    items are those [readdirSync] returns, and nothing is collected when it
    throws, which it does on anything but a listable directory (see
    [findAllFiles_readdirSync]). *)
Fixpoint findAllFiles (folderPath : js_string) (node : fsnode) : list js_string :=
  match node with
  | Dir true items => walk findAllFiles folderPath items []
  | _ => []
  end.

(** The chain of tests of [categorizeFiles] on one file: the bucket it is
    pushed to. *)
Definition category_of (file : js_string) : Category.t :=
  let fileName := path_basename file in
  let extension := toLowerCase (path_extname file) in
  let ext_is (e : string) := str_eqb extension (js e) in
  let name_has (m : string) := includes (js m) fileName in
  if ext_is ".js" && negb (name_has ".test.") && negb (name_has ".spec.")
  then Category.javascript
  else if ext_is ".ts" && negb (name_has ".test.") && negb (name_has ".spec.")
  then Category.typescript
  else if ext_is ".jsx" || ext_is ".tsx" then Category.react
  else if ext_is ".vue" then Category.vue
  else if ext_is ".css" || ext_is ".scss" || ext_is ".sass" || ext_is ".less"
  then Category.styles
  else if ext_is ".html" then Category.html
  else if arr_includes (map js [".png"; ".jpg"; ".jpeg"; ".gif"; ".svg"; ".webp"])
            extension
  then Category.images
  else if arr_includes (map js ["package.json"; "package-lock.json"; ".env";
                                "tsconfig.json"; "webpack.config.js"]) fileName
  then Category.config
  else if arr_includes (map js [".md"; ".txt"; ".rst"]) extension
  then Category.documentation
  else if name_has ".test." || name_has ".spec."
          || ext_is ".test.js" || ext_is ".spec.js"
  then Category.tests
  else Category.other.

(** [categorizeFiles(files)] *)
Definition categorizeFiles (files : list js_string) : buckets Category.t :=
  fold_left (fun categories file => push Category.eqb (category_of file) file categories)
    files no_buckets.

Definition is_upper (c : code_unit) : bool := (65 <=? c)%N && (c <=? 90)%N.

(** [fileName.match(/^[A-Z].*\.(jsx|tsx)$/)]: a capital, then characters
    other than line terminators up to a final [.jsx] or [.tsx]. *)
Definition component_name (fileName : js_string) : bool :=
  match fileName with
  | [] => false
  | c :: rest =>
      is_upper c && forallb (fun x => negb (is_line_terminator x)) rest
      && (endsWith (js ".jsx") rest || endsWith (js ".tsx") rest)
  end.

(** [fileName.match(/^page\.(js|ts|jsx|tsx)$/)] *)
Definition page_name (fileName : js_string) : bool :=
  arr_includes (map js ["page.js"; "page.ts"; "page.jsx"; "page.tsx"]) fileName.

(** [identifyImportantFiles(files)]: six tests on every file, each with a
    [push] of its own. *)
Definition identifyImportantFiles (files : list js_string) : buckets Role.t :=
  fold_left
    (fun important file =>
       let fileName := path_basename file in
       let filePath := toLowerCase file in
       let add (test : bool) (k : Role.t) (o : buckets Role.t) :=
         if test then push Role.eqb k file o else o in
       let important :=
         add (arr_includes (map js ["index.html"; "index.js"; "index.ts"; "App.js";
                                    "App.tsx"; "main.js"; "main.ts"]) fileName)
           Role.entryPoints important in
       let important := add (component_name fileName) Role.components important in
       let important :=
         add (includes (js "/pages/") filePath || includes (js "/views/") filePath
              || page_name fileName) Role.pages important in
       let important :=
         add (includes (js "/api/") filePath || includes (js "/routes/") filePath
              || includes (js "route") fileName) Role.api important in
       let important :=
         add (arr_includes (map js ["package.json"; ".env"; "tsconfig.json";
                                    "next.config.js"; "vite.config.js"]) fileName)
           Role.config important in
       add (str_eqb fileName (js "index.css") || str_eqb fileName (js "App.css")
            || str_eqb fileName (js "globals.css")) Role.styles important)
    files no_buckets.

(** The record the [catch] of [analyzeDependencies] returns. *)
Definition no_dependencies : Dependencies.t :=
  Dependencies.mk (VObj []) (VObj []) (VObj []) (VStr (js "commonjs")).

(** [analyzeDependencies(projectPath)], [root] being what is at
    [projectPath]: [packageJsonPath] names the entry [package.json] of it. *)
Definition analyzeDependencies (projectPath : js_string) (root : fsnode)
  : completion Dependencies.t :=
  let packageJsonPath := path_join projectPath (js "package.json") in
  try_catch
    (text <- readFileSync (child_of root (js "package.json")) ;;
     packageJson <- JSON_parse text ;;
     dependencies <- get_member packageJson (js "dependencies") ;;
     devDependencies <- get_member packageJson (js "devDependencies") ;;
     scripts <- get_member packageJson (js "scripts") ;;
     type <- get_member packageJson (js "type") ;;
     Normal (Dependencies.mk
               (value_or dependencies (VObj []))
               (value_or devDependencies (VObj []))
               (value_or scripts (VObj []))
               (value_or type (VStr (js "commonjs")))))
    (fun error => Normal no_dependencies).

(** [if (dependencies.name)] *)
Definition has (dependencies : list (js_string * value)) (name : string) : bool :=
  truthy (get dependencies (js name)).

(** [detectFramework(dependencies)] *)
Definition detectFramework (dependencies : list (js_string * value)) : js_string :=
  if has dependencies "next" then js "Next.js"
  else if has dependencies "nuxt" then js "Nuxt.js"
  else if has dependencies "vue" then js "Vue.js"
  else if has dependencies "@angular/core" then js "Angular"
  else if has dependencies "react" then js "React"
  else if has dependencies "express" then js "Express.js"
  else js "Vanilla JavaScript".

Definition nonempty {A} (l : list A) : bool :=
  match l with [] => false | _ => true end.

(** [detectLanguage(fileTypes)] *)
Definition detectLanguage (fileTypes : buckets Category.t) : js_string :=
  if nonempty (fileTypes Category.typescript) then js "TypeScript"
  else if nonempty (fileTypes Category.javascript) then js "JavaScript"
  else js "Unknown".

(** [detectStyling(fileTypes, dependencies)] *)
Definition detectStyling (fileTypes : buckets Category.t)
    (dependencies : list (js_string * value)) : js_string :=
  if has dependencies "tailwindcss" then js "Tailwind CSS"
  else if has dependencies "styled-components" then js "Styled Components"
  else if has dependencies "@emotion/react" then js "Emotion"
  else if nonempty (fileTypes Category.styles) then js "CSS/SCSS"
  else js "Unknown".

(** [detectBundler(dependencies)] *)
Definition detectBundler (dependencies : list (js_string * value)) : js_string :=
  if has dependencies "vite" then js "Vite"
  else if has dependencies "webpack" then js "Webpack"
  else if has dependencies "parcel" then js "Parcel"
  else js "Unknown".

(** [detectTesting(dependencies)] *)
Definition detectTesting (dependencies : list (js_string * value)) : js_string :=
  if has dependencies "jest" then js "Jest"
  else if has dependencies "vitest" then js "Vitest"
  else if has dependencies "cypress" then js "Cypress"
  else if has dependencies "@testing-library/react" then js "Testing Library"
  else js "None detected".

(** [detectTechnology(fileTypes, dependencies)] *)
Definition detectTechnology (fileTypes : buckets Category.t)
    (dependencies : Dependencies.t) : Technology.t :=
  let deps := spread2 (Dependencies.dependencies dependencies)
                      (Dependencies.devDependencies dependencies) in
  Technology.mk
    (detectFramework deps)
    (detectLanguage fileTypes)
    (detectStyling fileTypes deps)
    (detectBundler deps)
    (detectTesting deps)
    (VBool (nonempty (fileTypes Category.typescript)
            || existsb (endsWith (js ".tsx")) (fileTypes Category.react)))
    (if nonempty (fileTypes Category.react) then VBool true else get deps (js "react"))
    (if nonempty (fileTypes Category.vue) then VBool true else get deps (js "vue"))
    (get deps (js "@angular/core")).

(** [set.add(x)]: a [Set] keeps its elements in insertion order. *)
Definition set_add (x : js_string) (set : list js_string) : list js_string :=
  if arr_includes set x then set else set ++ [x].

(** [a <= b] as [Array.prototype.sort] compares strings with no comparator:
    code unit by code unit. *)
Fixpoint str_leb (a b : js_string) : bool :=
  match a, b with
  | [], _ => true
  | _ :: _, [] => false
  | x :: a', y :: b' => (x <? y)%N || ((x =? y)%N && str_leb a' b')
  end.

Fixpoint sort_insert (x : js_string) (sorted : list js_string) : list js_string :=
  match sorted with
  | [] => [x]
  | y :: rest => if str_leb x y then x :: sorted else y :: sort_insert x rest
  end.

(** [arr.sort()] *)
Definition sort (arr : list js_string) : list js_string :=
  fold_right sort_insert [] arr.

(** [analyzeStructure(files, projectPath)] *)
Definition analyzeStructure (files : list js_string) (projectPath : js_string)
  : Structure.t :=
  let directories :=
    fold_left
      (fun directories file =>
         let relativePath := path_relative projectPath file in
         let dir := path_dirname relativePath in
         if negb (str_eqb dir (js ".")) then set_add dir directories else directories)
      files [] in
  Structure.mk
    (sort directories)
    (arr_includes directories (js "src"))
    (arr_includes directories (js "public"))
    (existsb (includes (js "components")) directories)
    (existsb (includes (js "pages")) directories)
    (existsb (includes (js "api")) directories).

(** [analyzeCodebase(projectPath)], [root] being what is at [projectPath]. *)
Definition analyzeCodebase (projectPath : js_string) (root : fsnode)
  : completion Analysis.t :=
  let allFiles := findAllFiles projectPath root in
  let fileTypes := categorizeFiles allFiles in
  let importantFiles := identifyImportantFiles allFiles in
  dependencies <- analyzeDependencies projectPath root ;;
  Normal (Analysis.mk
            (path_basename projectPath)
            (length allFiles)
            (Some fileTypes)
            (Some importantFiles)
            (Some dependencies)
            (Some (detectTechnology fileTypes dependencies))
            (Some (analyzeStructure allFiles projectPath))).

End CodebaseAnalyzer.

(** ** Node's [path] on POSIX

    An instance of [Runtime] to run the program on: [path.posix] after
    Node's [lib/path.js], a working directory for [path.relative], lower
    case on the ASCII letters, and a parser given by the documents it knows
    (every other text is a syntax error). *)

Definition slash : code_unit := 47%N.
Definition dot : code_unit := 46%N.

Definition is_slash (c : code_unit) : bool := unit_eqb c slash.

Fixpoint drop_while {A} (p : A -> bool) (l : list A) : list A :=
  match l with
  | [] => []
  | x :: rest => if p x then drop_while p rest else l
  end.

Fixpoint take_while {A} (p : A -> bool) (l : list A) : list A :=
  match l with
  | [] => []
  | x :: rest => if p x then x :: take_while p rest else []
  end.

(** [path.basename(p)]: the trailing slashes dropped, what follows the last
    slash left. *)
Definition posix_basename (p : js_string) : js_string :=
  rev (take_while (fun c => negb (is_slash c)) (drop_while is_slash (rev p))).

(** [path.extname(p)]: from the last dot of the base name on, unless there is
    none, the base name starts with it, or the base name is [..]. *)
Definition posix_extname (p : js_string) : js_string :=
  let base := posix_basename p in
  let after := take_while (fun c => negb (unit_eqb c dot)) (rev base) in
  let upto := drop_while (fun c => negb (unit_eqb c dot)) (rev base) in
  match upto with
  | [] => []
  | _ :: [] => []
  | _ :: _ :: _ => if str_eqb base (js "..") then [] else dot :: rev after
  end.

(** [path.dirname(p)] *)
Definition posix_dirname (p : js_string) : js_string :=
  match p with
  | [] => js "."
  | c0 :: rest =>
      let hasRoot := is_slash c0 in
      let before :=
        drop_while (fun c => negb (is_slash c)) (drop_while is_slash (rev rest)) in
      match before with
      | [] => if hasRoot then js "/" else js "."
      | _ :: [] => if hasRoot then js "//" else [c0]
      | _ :: kept => c0 :: rev kept
      end
  end.

(** The segments between the slashes of a path. *)
Fixpoint split_slash (p : js_string) (segment : js_string) : list js_string :=
  match p with
  | [] => [rev segment]
  | c :: rest =>
      if is_slash c then rev segment :: split_slash rest []
      else split_slash rest (c :: segment)
  end.

(** [normalizeString]: empty segments and [.] vanish, [..] removes the
    segment before it, or stays when there is none and the path is
    relative. *)
Fixpoint normalize_segments (allowAboveRoot : bool) (segments : list js_string)
    (res : list js_string) : list js_string :=
  match segments with
  | [] => rev res
  | s :: rest =>
      if nonempty s && negb (str_eqb s (js ".")) then
        if str_eqb s (js "..") then
          match res with
          | top :: below =>
              if str_eqb top (js "..")
              then normalize_segments allowAboveRoot rest (s :: res)
              else normalize_segments allowAboveRoot rest below
          | [] =>
              normalize_segments allowAboveRoot rest
                (if allowAboveRoot then [s] else [])
          end
        else normalize_segments allowAboveRoot rest (s :: res)
      else normalize_segments allowAboveRoot rest res
  end.

(** [path.normalize(p)] *)
Definition posix_normalize (p : js_string) : js_string :=
  match p with
  | [] => js "."
  | c0 :: _ =>
      let isAbsolute := is_slash c0 in
      let trailingSeparator := endsWith [slash] p in
      let body := join [slash]
                    (normalize_segments (negb isAbsolute) (split_slash p []) []) in
      match body with
      | [] => if isAbsolute then js "/" else if trailingSeparator then js "./" else js "."
      | _ => (if isAbsolute then [slash] else [])
             ++ body ++ (if trailingSeparator then [slash] else [])
      end
  end.

(** [path.join(a, b)] *)
Definition posix_join (a b : js_string) : js_string :=
  match a, b with
  | [], [] => js "."
  | [], _ => posix_normalize b
  | _, [] => posix_normalize a
  | _, _ => posix_normalize (a ++ [slash] ++ b)
  end.

(** The segments of [path.resolve(p)]. *)
Definition resolve_segments (cwd p : js_string) : list js_string :=
  normalize_segments false
    (split_slash (if startsWith [slash] p then p else cwd ++ [slash] ++ p) []) [].

Fixpoint strip_common (a b : list js_string) : list js_string * list js_string :=
  match a, b with
  | x :: a', y :: b' => if str_eqb x y then strip_common a' b' else (a, b)
  | _, _ => (a, b)
  end.

(** [path.relative(from, to)] *)
Definition posix_relative (cwd from to : js_string) : js_string :=
  let (up, down) := strip_common (resolve_segments cwd from) (resolve_segments cwd to) in
  join [slash] (map (fun _ => js "..") up ++ down).

Definition ascii_toLowerCase (s : js_string) : js_string :=
  map (fun c => if is_upper c then (c + 32)%N else c) s.

(** A parser that knows the documents of [table]. *)
Fixpoint parse_table (table : list (js_string * value)) (text : js_string)
  : completion value :=
  match table with
  | [] => Throw SyntaxError
  | (document, v) :: rest =>
      if str_eqb text document then Normal v else parse_table rest text
  end.

Definition posix (cwd : js_string) (documents : list (js_string * value)) : Runtime := {|
  path_basename := posix_basename;
  path_extname := posix_extname;
  path_dirname := posix_dirname;
  path_join := posix_join;
  path_relative := posix_relative cwd;
  toLowerCase := ascii_toLowerCase;
  JSON_parse := parse_table documents
|}.

(** ** promptGenerator.js *)

(** *** Regular expressions and [String.prototype.replace]

    Every pattern of the renderer is a sequence of literal characters and
    dots, and every one carries the [g] flag. *)

Inductive atom : Type :=
| Lit (c : code_unit)
| AnyChar.

Definition regex : Type := list atom.

Definition accepts (a : atom) (c : code_unit) : bool :=
  match a with
  | Lit x => unit_eqb x c
  | AnyChar => negb (is_line_terminator c)
  end.

(** Whether the pattern matches at the start of [s]. *)
Fixpoint match_here (re : regex) (s : js_string) : bool :=
  match re, s with
  | [], _ => true
  | a :: re', c :: s' => accepts a c && match_here re' s'
  | _ :: _, [] => false
  end.

(** A regular-expression literal in which every character that is not a
    letter, a digit, a blank, a comma or a quote is escaped: the text
    itself. *)
Definition escaped (text : string) : regex := map Lit (js text).

(** [new RegExp(source, 'g')] for a source made of letters, dots and
    braces that form no quantifier (the braces then stand for themselves):
    a dot is the wildcard, every other character is itself. *)
Definition RegExp (source : js_string) : regex :=
  map (fun c => if unit_eqb c dot then AnyChar else Lit c) source.

Definition dollar : code_unit := 36%N.

(** [GetSubstitution] for a pattern without groups: [$$], [$&], [$`] and
    [$'] are replacement patterns, every other character is itself. *)
Fixpoint GetSubstitution (matched before after replacement : js_string) : js_string :=
  match replacement with
  | [] => []
  | c :: rest =>
      if unit_eqb c dollar then
        match rest with
        | [] => [c]
        | d :: rest' =>
            if unit_eqb d dollar then dollar :: GetSubstitution matched before after rest'
            else if unit_eqb d 38%N
            then matched ++ GetSubstitution matched before after rest'
            else if unit_eqb d 96%N
            then before ++ GetSubstitution matched before after rest'
            else if unit_eqb d 39%N
            then after ++ GetSubstitution matched before after rest'
            else c :: GetSubstitution matched before after rest
        end
      else c :: GetSubstitution matched before after rest
  end.

(** The scan of [replace] with a global pattern: the matches are found from
    left to right, each search starting where the match before ended, and
    every match is replaced by its substitution; [skip] counts what remains
    of the match being stepped over, [before] holds (reversed) what was
    read. *)
Fixpoint replace_scan (re : regex) (replacement : js_string) (skip : nat)
    (before s : js_string) : js_string :=
  match s with
  | [] =>
      if match_here re []
      then GetSubstitution [] (rev before) [] replacement
      else []
  | c :: s' =>
      match skip with
      | S k => replace_scan re replacement k (c :: before) s'
      | O =>
          if match_here re s then
            GetSubstitution (firstn (List.length re) s) (rev before)
              (skipn (List.length re) s) replacement
            ++ match List.length re with
               | O => c :: replace_scan re replacement 0 (c :: before) s'
               | S k => replace_scan re replacement k (c :: before) s'
               end
          else c :: replace_scan re replacement 0 (c :: before) s'
      end
  end.

(** [s.replace(re, replacement)] *)
Definition replace (re : regex) (replacement : js_string) (s : js_string) : js_string :=
  replace_scan re replacement 0 [] s.

(** *** The templates *)

(** [getDefaultTemplate()] *)
Definition getDefaultTemplate : js_string := js "# 🤖 AI CODEBASE ANALYSIS

## 📊 PROJECT OVERVIEW
- **Project Name**: {{projectName}}
- **Total Files**: {{totalFiles}}
- **Main Framework**: {{technology.framework}}
- **Language**: {{technology.language}}
- **Styling**: {{technology.styling}}
- **Bundler**: {{technology.bundler}}
- **Testing**: {{technology.testing}}

## 🏗️ TECHNOLOGY STACK
- **TypeScript**: {{technology.hasTypeScript ? 'Yes' : 'No'}}
- **React**: {{technology.hasReact ? 'Yes' : 'No'}}
- **Vue**: {{technology.hasVue ? 'Yes' : 'No'}}
- **Angular**: {{technology.hasAngular ? 'Yes' : 'No'}}

## 📁 PROJECT STRUCTURE
- **Has src/ folder**: {{structure.hasSrcFolder ? 'Yes' : 'No'}}
- **Has public/ folder**: {{structure.hasPublicFolder ? 'Yes' : 'No'}}
- **Has components/ folder**: {{structure.hasComponentsFolder ? 'Yes' : 'No'}}
- **Has pages/ folder**: {{structure.hasPagesFolder ? 'Yes' : 'No'}}
- **Has api/ folder**: {{structure.hasApiFolder ? 'Yes' : 'No'}}

## 📂 FILE BREAKDOWN
- **JavaScript Files**: {{fileTypes.javascript.length}}
- **TypeScript Files**: {{fileTypes.typescript.length}}
- **React Components**: {{fileTypes.react.length}}
- **Vue Components**: {{fileTypes.vue.length}}
- **Style Files**: {{fileTypes.styles.length}}
- **HTML Files**: {{fileTypes.html.length}}
- **Images**: {{fileTypes.images.length}}
- **Config Files**: {{fileTypes.config.length}}
- **Documentation**: {{fileTypes.documentation.length}}
- **Tests**: {{fileTypes.tests.length}}

## 🔑 IMPORTANT FILES
**Entry Points**: {{importantFiles.entryPoints.join(', ') || 'None found'}}
**Components**: {{importantFiles.components.slice(0, 10).join(', ') || 'None found'}}
**Pages**: {{importantFiles.pages.slice(0, 10).join(', ') || 'None found'}}
**API Files**: {{importantFiles.api.slice(0, 10).join(', ') || 'None found'}}
**Config Files**: {{importantFiles.config.join(', ') || 'None found'}}

## 📦 DEPENDENCIES
**Main Dependencies**: {{Object.keys(dependencies.dependencies).slice(0, 10).join(', ') || 'None'}}
**Dev Dependencies**: {{Object.keys(dependencies.devDependencies).slice(0, 10).join(', ') || 'None'}}

## 💡 USER REQUEST
{{userQuestion || '[Please specify what you need help with]'}}

## 🎯 WHAT I NEED HELP WITH
Please analyze the codebase structure above and help me with the requested task. Consider the technology stack and project structure when providing solutions.

**Examples of what you can help with:**
- Adding new features or components
- Fixing bugs or issues
- Optimizing performance
- Improving code structure
- Adding tests
- Setting up new tools or libraries
- Code refactoring
- Documentation improvements
".

(** The text of [src/templates/default.md]: the same, and one more section. *)
Definition default_md : js_string := getDefaultTemplate ++ js "
## 📋 GUIDELINES
- Provide specific, actionable code examples
- Consider the existing code patterns and conventions
- Suggest improvements that align with the current technology stack
- Include error handling and edge cases where appropriate
- Mention any additional dependencies that might be needed
- Consider performance implications of your suggestions".

(** The values of [taskSpecificInstructions] in [generateSpecializedPrompt]. *)
Definition feature_instructions : js_string := js "
## 🚀 FEATURE DEVELOPMENT INSTRUCTIONS
- Consider the existing component structure and patterns
- Follow the established coding conventions
- Ensure compatibility with the current technology stack
- Add appropriate tests if testing framework is available
- Update documentation if needed
".

Definition bugfix_instructions : js_string := js "
## 🐛 BUG FIXING INSTRUCTIONS
- Analyze the error or issue carefully
- Check for similar patterns in existing code
- Ensure the fix doesn't break existing functionality
- Consider edge cases and error handling
- Test the fix thoroughly
".

Definition optimization_instructions : js_string := js "
## ⚡ OPTIMIZATION INSTRUCTIONS
- Focus on performance bottlenecks
- Consider bundle size and loading times
- Look for code duplication and refactoring opportunities
- Optimize for the detected bundler and framework
- Maintain code readability and maintainability
".

Definition refactor_instructions : js_string := js "
## 🔧 REFACTORING INSTRUCTIONS
- Maintain existing functionality
- Improve code structure and organization
- Follow best practices for the technology stack
- Ensure backward compatibility
- Update related documentation
".

(** *** The class [PromptGenerator] *)

(** A generator and its [this.templates]: the templates [loadTemplates]
    found, by name. *)
Record PromptGenerator : Type := {
  templates : list (js_string * js_string)
}.

Fixpoint assoc_template (name : js_string) (templates : list (js_string * js_string))
  : option js_string :=
  match templates with
  | [] => None
  | (n, text) :: rest => if str_eqb name n then Some text else assoc_template name rest
  end.

(** [flag ? 'Yes' : 'No'] *)
Definition yes_no (flag : bool) : js_string := if flag then js "Yes" else js "No".

Section Renderer.

Context {rt : Runtime}.

(** [populateTemplate(template, analysis, userQuestion)].  A number given
    as the replacement is converted to a string ([totalFiles || 0] is the
    number itself, [0] being the only falsy count); the arrays of
    [fileTypes] and [importantFiles] are objects, hence truthy. *)
Definition populateTemplate (template : js_string) (analysis : Analysis.t)
    (userQuestion : js_string) : js_string :=
  let populatedTemplate := template in
  let populatedTemplate :=
    replace (escaped "{{projectName}}")
      (str_or (Analysis.projectName analysis) (js "Unknown")) populatedTemplate in
  let populatedTemplate :=
    replace (escaped "{{totalFiles}}")
      (ToString_nat (Analysis.totalFiles analysis)) populatedTemplate in
  let populatedTemplate :=
    replace (escaped "{{userQuestion}}") (str_or userQuestion []) populatedTemplate in
  let populatedTemplate :=
    match Analysis.technology analysis with
    | Some technology =>
        let populatedTemplate :=
          replace (escaped "{{technology.framework}}")
            (str_or (Technology.framework technology) (js "Unknown")) populatedTemplate in
        let populatedTemplate :=
          replace (escaped "{{technology.language}}")
            (str_or (Technology.language technology) (js "Unknown")) populatedTemplate in
        let populatedTemplate :=
          replace (escaped "{{technology.styling}}")
            (str_or (Technology.styling technology) (js "Unknown")) populatedTemplate in
        let populatedTemplate :=
          replace (escaped "{{technology.bundler}}")
            (str_or (Technology.bundler technology) (js "Unknown")) populatedTemplate in
        let populatedTemplate :=
          replace (escaped "{{technology.testing}}")
            (str_or (Technology.testing technology) (js "Unknown")) populatedTemplate in
        let populatedTemplate :=
          replace (escaped "{{technology.hasTypeScript}}")
            (yes_no (truthy (Technology.hasTypeScript technology))) populatedTemplate in
        let populatedTemplate :=
          replace (escaped "{{technology.hasReact}}")
            (yes_no (truthy (Technology.hasReact technology))) populatedTemplate in
        let populatedTemplate :=
          replace (escaped "{{technology.hasVue}}")
            (yes_no (truthy (Technology.hasVue technology))) populatedTemplate in
        replace (escaped "{{technology.hasAngular}}")
          (yes_no (truthy (Technology.hasAngular technology))) populatedTemplate
    | None => populatedTemplate
    end in
  let populatedTemplate :=
    match Analysis.structure analysis with
    | Some structure =>
        let populatedTemplate :=
          replace (escaped "{{structure.hasSrcFolder}}")
            (yes_no (Structure.hasSrcFolder structure)) populatedTemplate in
        let populatedTemplate :=
          replace (escaped "{{structure.hasPublicFolder}}")
            (yes_no (Structure.hasPublicFolder structure)) populatedTemplate in
        let populatedTemplate :=
          replace (escaped "{{structure.hasComponentsFolder}}")
            (yes_no (Structure.hasComponentsFolder structure)) populatedTemplate in
        let populatedTemplate :=
          replace (escaped "{{structure.hasPagesFolder}}")
            (yes_no (Structure.hasPagesFolder structure)) populatedTemplate in
        replace (escaped "{{structure.hasApiFolder}}")
          (yes_no (Structure.hasApiFolder structure)) populatedTemplate
    | None => populatedTemplate
    end in
  let populatedTemplate :=
    match Analysis.fileTypes analysis with
    | Some fileTypes =>
        fold_left
          (fun populatedTemplate type =>
             let placeholder := js "{{fileTypes." ++ Category.name type ++ js ".length}}" in
             let value := List.length (fileTypes type) in
             replace (RegExp placeholder) (ToString_nat value) populatedTemplate)
          Category.keys populatedTemplate
    | None => populatedTemplate
    end in
  let populatedTemplate :=
    match Analysis.importantFiles analysis with
    | Some importantFiles =>
        fold_left
          (fun populatedTemplate category =>
             let placeholder := js "{{importantFiles." ++ Role.name category ++ js "}}" in
             let files := importantFiles category in
             let fileNames := map path_basename files in
             replace (RegExp placeholder)
               (str_or (join (js ", ") fileNames) (js "None found")) populatedTemplate)
          Role.keys populatedTemplate
    | None => populatedTemplate
    end in
  let populatedTemplate :=
    match Analysis.dependencies analysis with
    | Some dependencies =>
        let deps := value_or (Dependencies.dependencies dependencies) (VObj []) in
        let devDeps := value_or (Dependencies.devDependencies dependencies) (VObj []) in
        let populatedTemplate :=
          replace
            (escaped "{{Object.keys(dependencies.dependencies).slice(0, 10).join('', '') || 'None'}}")
            (str_or (join (js ", ") (slice0 10 (Object_keys deps))) (js "None"))
            populatedTemplate in
        replace
          (escaped "{{Object.keys(dependencies.devDependencies).slice(0, 10).join('', '') || 'None'}}")
          (str_or (join (js ", ") (slice0 10 (Object_keys devDeps))) (js "None"))
          populatedTemplate
    | None => populatedTemplate
    end in
  populatedTemplate.

(** [this.templates[templateType] || this.getDefaultTemplate()], then
    [populateTemplate].  A name that [this.templates] inherits from
    [Object.prototype] selects a function, which has no [replace]: a
    [TypeError]. *)
Definition generatePrompt (this : PromptGenerator) (analysis : Analysis.t)
    (userQuestion templateType : js_string) : completion js_string :=
  match assoc_template templateType (templates this) with
  | Some template =>
      Normal (populateTemplate (str_or template getDefaultTemplate) analysis userQuestion)
  | None =>
      if arr_includes Object_prototype_names templateType then Throw TypeError
      else Normal (populateTemplate getDefaultTemplate analysis userQuestion)
  end.

End Renderer.

Section Specialized.

Context {rt : Runtime}.

(** [taskSpecificInstructions]: the own properties of the object literal. *)
Definition taskSpecificInstructions : list (js_string * js_string) :=
  [(js "feature", feature_instructions);
   (js "bugfix", bugfix_instructions);
   (js "optimization", optimization_instructions);
   (js "refactor", refactor_instructions)].

(** What [basePrompt + v] appends when [v] is the value of a name inherited
    from [Object.prototype], as V8 prints it: a native function's source,
    and [[object Object]] for the prototype itself. *)
Definition inherited_text (name : js_string) : js_string :=
  if str_eqb name (js "__proto__") then js "[object Object]"
  else js "function "
       ++ (if str_eqb name (js "constructor") then js "Object" else name)
       ++ js "() { [native code] }".

(** [taskSpecificInstructions[taskType] || ''], as a string to append. *)
Definition instructions_for (taskType : js_string) : js_string :=
  match assoc_template taskType taskSpecificInstructions with
  | Some text => text
  | None =>
      if arr_includes Object_prototype_names taskType then inherited_text taskType
      else []
  end.

(** [generateSpecializedPrompt(analysis, taskType, description)] of
    [PromptGenerator] *)
Definition generateSpecializedPrompt (this : PromptGenerator) (analysis : Analysis.t)
    (taskType description : js_string) : completion js_string :=
  basePrompt <- generatePrompt this analysis description (js "default") ;;
  let instructions := instructions_for taskType in
  Normal (basePrompt ++ instructions).

End Specialized.

(** ** index.js *)

Section AIWebAgent.

Context {rt : Runtime}.

(** An agent: [this.promptGenerator]; its analyzer has no state besides
    [ignoreList]. *)
Record AIWebAgent : Type := {
  promptGenerator : PromptGenerator
}.

(** What [analyzeAndGeneratePrompt] returns, without the path the prompt
    was saved under and the time stamp. *)
Record Results : Type := {
  analysis : Analysis.t;
  prompt : js_string
}.

(** [analyzeAndGeneratePrompt(projectPath, userQuestion, options)], [root]
    being what is at [projectPath] and [templateType] the template the
    options name, if any.  The promise is the completion: rejected when the
    body throws ([catch] logs and throws again).  [savePrompt] catches its
    own errors and does not change the results kept here. *)
Definition analyzeAndGeneratePrompt (this : AIWebAgent) (projectPath : js_string)
    (root : fsnode) (userQuestion : js_string) (templateType : option js_string)
  : completion Results :=
  try_catch
    (_ <- (if negb (existsSync root)
           then Throw (Error (js "Project path does not exist: " ++ projectPath))
           else Normal tt) ;;
     analysis <- analyzeCodebase projectPath root ;;
     prompt <- generatePrompt (promptGenerator this) analysis userQuestion
                 (match templateType with Some t => t | None => js "default" end) ;;
     Normal {| analysis := analysis; prompt := prompt |})
    (fun error => Throw error).

(** [generateSpecializedPrompt(projectPath, taskType, description, options)]
    of [AIWebAgent] *)
Definition agent_generateSpecializedPrompt (this : AIWebAgent) (projectPath : js_string)
    (root : fsnode) (taskType description : js_string) : completion Results :=
  analysis <- analyzeCodebase projectPath root ;;
  prompt <- generateSpecializedPrompt (promptGenerator this) analysis taskType description ;;
  Normal {| analysis := analysis; prompt := prompt |}.


End AIWebAgent.

(** ** utils/fileUtils.js *)

Section FileUtils.

Context {rt : Runtime}.

(** [pathExists(filePath)], [node] being what is at [filePath]. *)
Definition pathExists (node : fsnode) : completion bool :=
  try_catch (Normal (existsSync node)) (fun error => Normal false).

(** [getFileExtension(filePath)]: [slice(1)] drops the dot. *)
Definition getFileExtension (filePath : js_string) : js_string :=
  tl (toLowerCase (path_extname filePath)).

(** [getRelativePath(filePath, projectRoot)] *)
Definition getRelativePath (filePath projectRoot : js_string) : js_string :=
  path_relative projectRoot filePath.

(** [binaryExtensions] of [isBinaryFile] *)
Definition binaryExtensions : list js_string :=
  map js ["png"; "jpg"; "jpeg"; "gif"; "svg"; "webp"; "ico";
          "pdf"; "doc"; "docx"; "xls"; "xlsx";
          "zip"; "rar"; "7z"; "tar"; "gz";
          "exe"; "dll"; "so"; "dylib";
          "mp3"; "mp4"; "avi"; "mov"; "wav";
          "ttf"; "otf"; "woff"; "woff2"].

(** [isBinaryFile(filePath)] *)
Definition isBinaryFile (filePath : js_string) : bool :=
  let extension := getFileExtension filePath in
  arr_includes binaryExtensions extension.



End FileUtils.

(** ** Template files *)

Section TemplateFiles.

(** [path.basename(file, ext)], the base name without the suffix [ext]. *)
Variable path_basename_ext : js_string -> js_string -> js_string.

(** [templates[templateName] = text] on the object [loadTemplates] fills:
    the name [__proto__] is the accessor of [Object.prototype], which ignores
    a string; any other name becomes an own property, or changes the one
    there is. *)
Fixpoint assign_template (templateName text : js_string)
    (templates : list (js_string * js_string)) : list (js_string * js_string) :=
  match templates with
  | [] => [(templateName, text)]
  | (n, t) :: rest =>
      if str_eqb templateName n then (n, text) :: rest
      else (n, t) :: assign_template templateName text rest
  end.

Definition set_template (templateName text : js_string)
    (templates : list (js_string * js_string)) : list (js_string * js_string) :=
  if str_eqb templateName (js "__proto__") then templates
  else assign_template templateName text templates.

(** The [forEach] of [loadTemplates]; it runs inside [try], so that the
    first file that cannot be read ends it, the templates read before it
    kept. *)
Fixpoint load_each (templateFiles : list (js_string * fsnode))
    (templates : list (js_string * js_string)) : list (js_string * js_string) :=
  match templateFiles with
  | [] => templates
  | (file, node) :: rest =>
      if endsWith (js ".md") file then
        let templateName := path_basename_ext file (js ".md") in
        match readFileSync node with
        | Normal text => load_each rest (set_template templateName text templates)
        | Throw _ => templates
        end
      else load_each rest templates
  end.

(** [loadTemplates()], [templatesDir] being what is at [src/templates]. *)
Definition loadTemplates (templatesDir : fsnode) : list (js_string * js_string) :=
  match readdirSync templatesDir with
  | Normal templateFiles => load_each templateFiles []
  | Throw _ => []
  end.

(** [new PromptGenerator()] *)
Definition new_PromptGenerator (templatesDir : fsnode) : PromptGenerator :=
  {| templates := loadTemplates templatesDir |}.

(** [listTemplates()] of [AIWebAgent]: only [readdirSync] can throw. *)
Definition listTemplates (templatesDir : fsnode) : list js_string :=
  match readdirSync templatesDir with
  | Normal files =>
      fold_left
        (fun templates file =>
           if endsWith (js ".md") (fst file)
           then templates ++ [path_basename_ext (fst file) (js ".md")]
           else templates)
        files []
  | Throw _ => []
  end.

End TemplateFiles.

(** ** The command line

    The script at the end of [index.js], which runs when the file is the
    main module, on [args = process.argv.slice(2)]. *)

(** The [options] object: the two properties the script sets. *)
Module Options.
Record t : Type := mk {
  templateType : option js_string;
  outputPath : option js_string
}.
End Options.

(** What the script does: it prints the usage text and exits, or it calls
    one method of the agent. *)
Inductive invocation : Type :=
| print_usage
| call_quickAnalysis (projectPath : js_string)
| call_generateSpecializedPrompt (projectPath taskType description : js_string)
    (options : Options.t)
| call_analyzeAndGeneratePrompt (projectPath : js_string) (question : option js_string)
    (options : Options.t).

(** [args[i]] as a condition: there, and not the empty string. *)
Definition given (arg : option js_string) : bool :=
  match arg with
  | Some (_ :: _) => true
  | _ => false
  end.

(** The loop over [args] from [i = 2] on, [args] being here what is left
    from [args[i]] on: [--quick] and [--specialized] return from the script,
    [--template] and [--output] set an option and the loop goes on with the
    next argument, the value of the option. *)
Fixpoint parse_options (projectPath : js_string) (question : option js_string)
    (args : list js_string) (options : Options.t) : invocation :=
  match args with
  | [] => call_analyzeAndGeneratePrompt projectPath question options
  | arg :: rest =>
      if str_eqb arg (js "--quick") then call_quickAnalysis projectPath
      else if str_eqb arg (js "--specialized") && given (nth_error rest 0) then
        let taskType := nth 0 rest [] in
        let description := str_or (nth 1 rest []) [] in
        call_generateSpecializedPrompt projectPath taskType description options
      else if str_eqb arg (js "--template") && given (nth_error rest 0) then
        parse_options projectPath question rest
          (Options.mk (nth_error rest 0) (Options.outputPath options))
      else if str_eqb arg (js "--output") && given (nth_error rest 0) then
        parse_options projectPath question rest
          (Options.mk (Options.templateType options) (nth_error rest 0))
      else parse_options projectPath question rest options
  end.

(** The script. *)
Definition cli (args : list js_string) : invocation :=
  if Nat.eqb (List.length args) 0 || arr_includes args (js "--help")
     || arr_includes args (js "-h")
  then print_usage
  else
    let projectPath := nth 0 args [] in
    let question := nth_error args 1 in
    parse_options projectPath question (skipn 2 args) (Options.mk None None).

(** ** The configuration and the saving of the prompt *)


(** [String(n)] for a non-negative integer given in binary (a time in
    milliseconds). *)
Definition ToString_N (n : N) : js_string :=
  js (NilZero.string_of_uint (N.to_uint n)).

Section Saving.

Context {rt : Runtime}.



(** What [fs] answers to [savePrompt]: whether the output directory exists,
    and how making it and writing the file end. *)
Variable dir_exists : js_string -> bool.
Variable mkdirSync : js_string -> completion unit.
Variable writeFileSync : js_string -> js_string -> completion unit.

(** [savePrompt(prompt, outputPath = 'output')] at the time [now]
    ([Date.now()]): the saved path, [None] for [null].  [path.join] is
    called before the [try] and throws on what is not a string. *)
Definition savePrompt (now : N) (prompt : js_string) (outputPath : value)
  : completion (option js_string) :=
  let outputPath := match outputPath with VUndefined => VStr (js "output") | v => v end in
  let timestamp := now in
  let filename := js "ai-prompt-" ++ ToString_N timestamp ++ js ".md" in
  match outputPath with
  | VStr outputPath =>
      let filepath := path_join outputPath filename in
      try_catch
        (_ <- (if negb (dir_exists outputPath) then mkdirSync outputPath else Normal tt) ;;
         _ <- writeFileSync filepath prompt ;;
         Normal (Some filepath))
        (fun error => Normal None)
  | _ => Throw TypeError
  end.


End Saving.

(** * The vocabulary of the properties *)

(** ** Buckets *)

(** The paths [key] sends to the bucket [k], in the order of the input. *)
Definition sent_to {K} (eqb : K -> K -> bool) (key : js_string -> K) (k : K)
    (files : list js_string) : list js_string :=
  filter (fun file => eqb (key file) k) files.

(** The eleven buckets [categorizeFiles] fills ([angular] is declared and
    never pushed to). *)
Definition filled_categories : list Category.t :=
  [Category.javascript; Category.typescript; Category.react; Category.vue;
   Category.styles; Category.html; Category.images; Category.config;
   Category.documentation; Category.tests; Category.other].

(** ** Projects in which nothing is found *)

(** The technology profile of a project with no files and no dependencies. *)
Definition empty_technology : Technology.t :=
  Technology.mk (js "Vanilla JavaScript") (js "Unknown") (js "Unknown") (js "Unknown")
    (js "None detected") (VBool false) VUndefined VUndefined VUndefined.

(** The structure summary of a project with no files. *)
Definition empty_structure : Structure.t :=
  Structure.mk [] false false false false false.

(** The analysis record of a project [name] in which nothing was found. *)
Definition empty_analysis (name : js_string) : Analysis.t :=
  Analysis.mk name 0 (Some no_buckets) (Some no_buckets) (Some no_dependencies)
    (Some empty_technology) (Some empty_structure).

Section ManifestReading.

Context {rt : Runtime}.

(** The manifest as [analyzeDependencies] obtains it: read, then parsed. *)
Definition read_manifest (root : fsnode) : completion value :=
  text <- readFileSync (child_of root (js "package.json")) ;;
  JSON_parse text.

End ManifestReading.

(** ** The order of the frameworks *)


(** The label of the first name of [order] that is present, [fallback] when
    none is. *)
Fixpoint first_present (present : string -> bool) (order : list (string * string))
    (fallback : string) : string :=
  match order with
  | [] => fallback
  | (name, label) :: rest =>
      if present name then label else first_present present rest fallback
  end.

(** ** Replacement, piece by piece *)

(** Whether the pattern matches somewhere in [s]. *)
Fixpoint matches_somewhere (re : regex) (s : js_string) : bool :=
  match_here re s ||
  match s with
  | [] => false
  | _ :: s' => matches_somewhere re s'
  end.

(** No atom of the pattern accepts [c]: no match contains it. *)
Definition refuses (re : regex) (c : code_unit) : bool :=
  forallb (fun a => negb (accepts a c)) re.

(** The character the pattern starts with, when it starts with one. *)
Definition head_lit (re : regex) : option code_unit :=
  match re with
  | Lit h :: _ => Some h
  | _ => None
  end.

(** The character [h] does not occur in [s]. *)
Definition free_of (h : code_unit) (s : js_string) : bool :=
  forallb (fun c => negb (unit_eqb h c)) s.

(** The opening brace, with which every pattern of the renderer starts, and
    the line feed, which none of them has a place for. *)
Definition lbrace : code_unit := 123%N.
Definition newline : code_unit := 10%N.

(** A name that [replace] inserts as it is and that no later pattern
    matches in: no dollar sign, no opening brace. *)
Definition plain (name : js_string) : bool :=
  free_of dollar name && free_of lbrace name.

(** ** The renderer as a list of replacements *)

(** One [populatedTemplate = populatedTemplate.replace(pattern, text)]. *)
Definition step : Type := (regex * js_string)%type.

Definition apply_step (s : js_string) (st : step) : js_string :=
  replace (fst st) (snd st) s.

(** The assignments one after the other. *)
Definition run (steps : list step) (s : js_string) : js_string :=
  fold_left apply_step steps s.

Section Steps.

Context {rt : Runtime}.

Definition technology_steps (technology : Technology.t) : list step :=
  [(escaped "{{technology.framework}}",
    str_or (Technology.framework technology) (js "Unknown"));
   (escaped "{{technology.language}}",
    str_or (Technology.language technology) (js "Unknown"));
   (escaped "{{technology.styling}}",
    str_or (Technology.styling technology) (js "Unknown"));
   (escaped "{{technology.bundler}}",
    str_or (Technology.bundler technology) (js "Unknown"));
   (escaped "{{technology.testing}}",
    str_or (Technology.testing technology) (js "Unknown"));
   (escaped "{{technology.hasTypeScript}}",
    yes_no (truthy (Technology.hasTypeScript technology)));
   (escaped "{{technology.hasReact}}", yes_no (truthy (Technology.hasReact technology)));
   (escaped "{{technology.hasVue}}", yes_no (truthy (Technology.hasVue technology)));
   (escaped "{{technology.hasAngular}}",
    yes_no (truthy (Technology.hasAngular technology)))].

Definition structure_steps (structure : Structure.t) : list step :=
  [(escaped "{{structure.hasSrcFolder}}", yes_no (Structure.hasSrcFolder structure));
   (escaped "{{structure.hasPublicFolder}}", yes_no (Structure.hasPublicFolder structure));
   (escaped "{{structure.hasComponentsFolder}}",
    yes_no (Structure.hasComponentsFolder structure));
   (escaped "{{structure.hasPagesFolder}}", yes_no (Structure.hasPagesFolder structure));
   (escaped "{{structure.hasApiFolder}}", yes_no (Structure.hasApiFolder structure))].

Definition fileTypes_steps (fileTypes : buckets Category.t) : list step :=
  map (fun type =>
         (RegExp (js "{{fileTypes." ++ Category.name type ++ js ".length}}"),
          ToString_nat (List.length (fileTypes type))))
    Category.keys.

Definition importantFiles_steps (importantFiles : buckets Role.t) : list step :=
  map (fun category =>
         (RegExp (js "{{importantFiles." ++ Role.name category ++ js "}}"),
          str_or (join (js ", ") (map path_basename (importantFiles category)))
            (js "None found")))
    Role.keys.

Definition dependencies_steps (dependencies : Dependencies.t) : list step :=
  [(escaped "{{Object.keys(dependencies.dependencies).slice(0, 10).join('', '') || 'None'}}",
    str_or (join (js ", ")
              (slice0 10 (Object_keys
                            (value_or (Dependencies.dependencies dependencies) (VObj [])))))
      (js "None"));
   (escaped "{{Object.keys(dependencies.devDependencies).slice(0, 10).join('', '') || 'None'}}",
    str_or (join (js ", ")
              (slice0 10 (Object_keys
                            (value_or (Dependencies.devDependencies dependencies)
                               (VObj [])))))
      (js "None"))].

Definition section_steps {A} (steps_of : A -> list step) (section : option A) : list step :=
  match section with
  | Some x => steps_of x
  | None => []
  end.

(** The replacements of [populateTemplate], in the order it makes them. *)
Definition steps (analysis : Analysis.t) (userQuestion : js_string) : list step :=
  [(escaped "{{projectName}}", str_or (Analysis.projectName analysis) (js "Unknown"));
   (escaped "{{totalFiles}}", ToString_nat (Analysis.totalFiles analysis));
   (escaped "{{userQuestion}}", str_or userQuestion [])]
  ++ section_steps technology_steps (Analysis.technology analysis)
  ++ section_steps structure_steps (Analysis.structure analysis)
  ++ section_steps fileTypes_steps (Analysis.fileTypes analysis)
  ++ section_steps importantFiles_steps (Analysis.importantFiles analysis)
  ++ section_steps dependencies_steps (Analysis.dependencies analysis).

End Steps.

(** Every replacement of [steps] is by a pattern that starts with a brace
    and has no place for a line feed, and either inserts a text without
    dollar sign or finds no match in [b], [b] being rewritten on the way. *)
Fixpoint frames (steps : list step) (b : js_string) : Prop :=
  match steps with
  | [] => True
  | st :: rest =>
      head_lit (fst st) = Some lbrace
      /\ refuses (fst st) newline = true
      /\ (free_of dollar (snd st) = true \/ matches_somewhere (fst st) b = false)
      /\ frames rest (apply_step b st)
  end.

(** ** The prompt of an empty project *)

(** The built-in template up to the project name. *)
Definition prompt_head : js_string := js "# 🤖 AI CODEBASE ANALYSIS

## 📊 PROJECT OVERVIEW
- **Project Name**: ".

(** The built-in template after the placeholder of the project name and
    the line feed that follows it. *)
Definition template_tail : js_string :=
  skipn (List.length (prompt_head ++ js "{{projectName}}") + 1) getDefaultTemplate.

(** The overview of a project in which nothing was found, after the project
    name. *)
Definition empty_project_overview : js_string := js "
- **Total Files**: 0
- **Main Framework**: Vanilla JavaScript
- **Language**: Unknown
- **Styling**: Unknown
- **Bundler**: Unknown
- **Testing**: None detected
".

(** The built-in template after the overview, the ten counts filled in with
    [0] and every other placeholder as the template has it. *)
Definition empty_project_rest : js_string := js "
## 🏗️ TECHNOLOGY STACK
- **TypeScript**: {{technology.hasTypeScript ? 'Yes' : 'No'}}
- **React**: {{technology.hasReact ? 'Yes' : 'No'}}
- **Vue**: {{technology.hasVue ? 'Yes' : 'No'}}
- **Angular**: {{technology.hasAngular ? 'Yes' : 'No'}}

## 📁 PROJECT STRUCTURE
- **Has src/ folder**: {{structure.hasSrcFolder ? 'Yes' : 'No'}}
- **Has public/ folder**: {{structure.hasPublicFolder ? 'Yes' : 'No'}}
- **Has components/ folder**: {{structure.hasComponentsFolder ? 'Yes' : 'No'}}
- **Has pages/ folder**: {{structure.hasPagesFolder ? 'Yes' : 'No'}}
- **Has api/ folder**: {{structure.hasApiFolder ? 'Yes' : 'No'}}

## 📂 FILE BREAKDOWN
- **JavaScript Files**: 0
- **TypeScript Files**: 0
- **React Components**: 0
- **Vue Components**: 0
- **Style Files**: 0
- **HTML Files**: 0
- **Images**: 0
- **Config Files**: 0
- **Documentation**: 0
- **Tests**: 0

## 🔑 IMPORTANT FILES
**Entry Points**: {{importantFiles.entryPoints.join(', ') || 'None found'}}
**Components**: {{importantFiles.components.slice(0, 10).join(', ') || 'None found'}}
**Pages**: {{importantFiles.pages.slice(0, 10).join(', ') || 'None found'}}
**API Files**: {{importantFiles.api.slice(0, 10).join(', ') || 'None found'}}
**Config Files**: {{importantFiles.config.join(', ') || 'None found'}}

## 📦 DEPENDENCIES
**Main Dependencies**: {{Object.keys(dependencies.dependencies).slice(0, 10).join(', ') || 'None'}}
**Dev Dependencies**: {{Object.keys(dependencies.devDependencies).slice(0, 10).join(', ') || 'None'}}

## 💡 USER REQUEST
{{userQuestion || '[Please specify what you need help with]'}}

## 🎯 WHAT I NEED HELP WITH
Please analyze the codebase structure above and help me with the requested task. Consider the technology stack and project structure when providing solutions.

**Examples of what you can help with:**
- Adding new features or components
- Fixing bugs or issues
- Optimizing performance
- Improving code structure
- Adding tests
- Setting up new tools or libraries
- Code refactoring
- Documentation improvements
".

(** ** Projects to run the program on *)

(** A runtime that knows no manifest. *)
Definition plain_runtime : Runtime := posix (js "/home/dev") [].

(** A JSON text written with the apostrophe for the double quote. *)
Definition json (text : string) : js_string :=
  map (fun c => if unit_eqb c 39%N then 34%N else c) (js text).




Definition shop_manifest : js_string :=
  json "{'name': 'shop', 'dependencies': {'react': '^18.2.0', 'express': '^4.18.2'}, 'devDependencies': {'typescript': '^5.4.0', 'jest': '^29.7.0'}}".

Definition shop_runtime : Runtime :=
  posix (js "/home/dev")
    [(shop_manifest,
      VObj [(js "name", VStr (js "shop"));
            (js "dependencies",
             VObj [(js "react", VStr (js "^18.2.0"));
                   (js "express", VStr (js "^4.18.2"))]);
            (js "devDependencies",
             VObj [(js "typescript", VStr (js "^5.4.0"));
                   (js "jest", VStr (js "^29.7.0"))])])].

(** [/work/shop-frontend]: the manifest, two components and a style sheet
    under [src], and a [node_modules]. *)
Definition shop : fsnode :=
  Dir true
    [(js "package.json", File (Some shop_manifest));
     (js "node_modules", Dir true [(js "react", Dir true [(js "index.js", File (Some []))])]);
     (js "src",
      Dir true [(js "App.tsx", File (Some []));
                (js "index.css", File (Some []));
                (js "components",
                 Dir true [(js "Cart.tsx", File (Some []));
                           (js "Price$$.jsx", File (Some []))])])].

(** An agent as [index.js] builds it in the repository, where
    [loadTemplates] finds [default.md], with two templates of a user's
    beside it. *)
Definition shop_agent : AIWebAgent :=
  {| promptGenerator :=
       {| templates :=
            [(js "default", default_md);
             (js "flags", js "TypeScript: {{technology.hasTypeScript}}, Vue: {{technology.hasVue}}");
             (js "roles", js "Components: {{importantFiles.components}}; pages: {{importantFiles.pages}}");
             (js "deps", js "{{Object.keys(dependencies.dependencies).slice(0, 10).join('', '') || 'None'}}")] |} |}.

(** The same agent where no template file was found: [generatePrompt]
    falls back on [getDefaultTemplate]. *)
Definition bare_agent : AIWebAgent := {| promptGenerator := {| templates := [] |} |}.

(** The prompt of a run, empty when the run threw. *)
Definition prompt_of (run : completion Results) : js_string :=
  match run with
  | Normal results => prompt results
  | Throw _ => []
  end.

Definition shop_prompt (this : AIWebAgent) (templateType : option js_string) : js_string :=
  prompt_of (@analyzeAndGeneratePrompt shop_runtime this (js "/work/shop-frontend") shop
               (js "Add a wishlist") templateType).

(** ** Induction on what is under a directory *)


(** ** Roles, directories and words *)

Section RolesAndDirectories.

Context {rt : Runtime}.

(** The test of [identifyImportantFiles] for each role. *)
Definition has_role (k : Role.t) (file : js_string) : bool :=
  let fileName := path_basename file in
  let filePath := toLowerCase file in
  match k with
  | Role.entryPoints =>
      arr_includes (map js ["index.html"; "index.js"; "index.ts"; "App.js";
                            "App.tsx"; "main.js"; "main.ts"]) fileName
  | Role.components => component_name fileName
  | Role.pages =>
      includes (js "/pages/") filePath || includes (js "/views/") filePath
      || page_name fileName
  | Role.api =>
      includes (js "/api/") filePath || includes (js "/routes/") filePath
      || includes (js "route") fileName
  | Role.config =>
      arr_includes (map js ["package.json"; ".env"; "tsconfig.json";
                            "next.config.js"; "vite.config.js"]) fileName
  | Role.styles =>
      str_eqb fileName (js "index.css") || str_eqb fileName (js "App.css")
      || str_eqb fileName (js "globals.css")
  end.

(** The directory of a file as [analyzeStructure] names it. *)
Definition directory_of (projectPath file : js_string) : js_string :=
  path_dirname (path_relative projectPath file).

End RolesAndDirectories.

(** [a <= b], code unit by code unit. *)
Definition str_le (a b : js_string) : Prop := str_leb a b = true.

(** The option words of the command line. *)
Definition option_words : list js_string :=
  map js ["--quick"; "--specialized"; "--template"; "--output"].

(** Whether [--help] or [-h] is among the arguments. *)
Definition asks_usage (args : list js_string) : bool :=
  arr_includes args (js "--help") || arr_includes args (js "-h").

(** A pattern that starts with two opening braces. *)
Definition opens_placeholder (re : regex) : bool :=
  match re with
  | Lit a :: Lit b :: _ => unit_eqb a lbrace && unit_eqb b lbrace
  | _ => false
  end.

(** The orders of the other detectors: dependency name, label. *)
Definition styling_precedence : list (string * string) :=
  [("tailwindcss", "Tailwind CSS"); ("styled-components", "Styled Components");
   ("@emotion/react", "Emotion")].

Definition bundler_precedence : list (string * string) :=
  [("vite", "Vite"); ("webpack", "Webpack"); ("parcel", "Parcel")].

Definition testing_precedence : list (string * string) :=
  [("jest", "Jest"); ("vitest", "Vitest"); ("cypress", "Cypress");
   ("@testing-library/react", "Testing Library")].

(** [path.basename(name, ext)] for the name of a directory entry, in which
    there is no slash: the name without [ext] when it ends with it. *)
Definition entry_basename_ext (name ext : js_string) : js_string :=
  if endsWith ext name then firstn (List.length name - List.length ext) name else name.

(** The names under which the template files of a listing are known: the
    files that end with [.md], without it. *)
Definition template_names (path_basename_ext : js_string -> js_string -> js_string)
    (files : list (js_string * fsnode)) : list js_string :=
  map (fun file => path_basename_ext file (js ".md"))
    (filter (endsWith (js ".md")) (map fst files)).

(** A directory of templates: the default one, a note that is a directory,
    and two short templates. *)
Definition templates_dir : fsnode :=
  Dir true
    [(js "README.txt", File (Some (js "Templates live here.")));
     (js "default.md", File (Some default_md));
     (js "short.md", File (Some (js "{{projectName}}: {{totalFiles}} files")));
     (js "notes.md", Dir true []);
     (js "zen.md", File (Some (js "{{technology.framework}}")))].

(** A decimal digit. *)
Definition is_digit (c : code_unit) : bool := (48 <=? c)%N && (c <=? 57)%N.

(** The second line of the overview of the built-in template, up to its
    placeholder. *)
Definition total_line : js_string := js "- **Total Files**: ".

(** What a template that starts as the built-in one has after the line of
    the number of files. *)
Definition after_total (template : js_string) : js_string :=
  skipn (List.length (prompt_head ++ js "{{projectName}}" ++ newline :: total_line
                        ++ js "{{totalFiles}}") + 1) template.

(** ** Lines of a template *)

(** The patterns of [populateTemplate], in the order it uses them. *)
Definition renderer_patterns : list regex :=
  [escaped "{{projectName}}"; escaped "{{totalFiles}}"; escaped "{{userQuestion}}"]
  ++ map fst (technology_steps empty_technology)
  ++ map fst (structure_steps empty_structure)
  ++ map fst (fileTypes_steps no_buckets)
  ++ map (fun category => RegExp (js "{{importantFiles." ++ Role.name category ++ js "}}"))
       Role.keys
  ++ map fst (dependencies_steps no_dependencies).

(** No pattern of the renderer matches in [line], and none has a place for
    the line feed. *)
Definition spared (line : js_string) : bool :=
  forallb (fun re => nonempty re && refuses re newline && negb (matches_somewhere re line))
    renderer_patterns.

(** A line as it stands in a text, between two line feeds. *)
Definition framed (line : js_string) : js_string := newline :: line ++ [newline].

(** The lines of the built-in template, and of [default.md], whose
    placeholder is an expression. *)
Definition expression_lines : list js_string :=
  map js
    ["- **TypeScript**: {{technology.hasTypeScript ? 'Yes' : 'No'}}";
     "- **React**: {{technology.hasReact ? 'Yes' : 'No'}}";
     "- **Vue**: {{technology.hasVue ? 'Yes' : 'No'}}";
     "- **Angular**: {{technology.hasAngular ? 'Yes' : 'No'}}";
     "- **Has src/ folder**: {{structure.hasSrcFolder ? 'Yes' : 'No'}}";
     "- **Has public/ folder**: {{structure.hasPublicFolder ? 'Yes' : 'No'}}";
     "- **Has components/ folder**: {{structure.hasComponentsFolder ? 'Yes' : 'No'}}";
     "- **Has pages/ folder**: {{structure.hasPagesFolder ? 'Yes' : 'No'}}";
     "- **Has api/ folder**: {{structure.hasApiFolder ? 'Yes' : 'No'}}";
     "**Entry Points**: {{importantFiles.entryPoints.join(', ') || 'None found'}}";
     "**Components**: {{importantFiles.components.slice(0, 10).join(', ') || 'None found'}}";
     "**Pages**: {{importantFiles.pages.slice(0, 10).join(', ') || 'None found'}}";
     "**API Files**: {{importantFiles.api.slice(0, 10).join(', ') || 'None found'}}";
     "**Config Files**: {{importantFiles.config.join(', ') || 'None found'}}";
     "**Main Dependencies**: {{Object.keys(dependencies.dependencies).slice(0, 10).join(', ') || 'None'}}";
     "**Dev Dependencies**: {{Object.keys(dependencies.devDependencies).slice(0, 10).join(', ') || 'None'}}";
     "{{userQuestion || '[Please specify what you need help with]'}}"].

(** The two templates the program comes with. *)
Definition shipped_templates : list js_string := [getDefaultTemplate; default_md].

(** The lines of the file breakdown of these templates: bucket, and the
    line up to its placeholder. *)
Definition breakdown_lines : list (Category.t * string) :=
  [(Category.javascript, "- **JavaScript Files**: ");
   (Category.typescript, "- **TypeScript Files**: ");
   (Category.react, "- **React Components**: ");
   (Category.vue, "- **Vue Components**: ");
   (Category.styles, "- **Style Files**: ");
   (Category.html, "- **HTML Files**: ");
   (Category.images, "- **Images**: ");
   (Category.config, "- **Config Files**: ");
   (Category.documentation, "- **Documentation**: ");
   (Category.tests, "- **Tests**: ")].

(** The lines of their overview that show a label of the technology: the
    line up to its placeholder, and the label. *)
Definition overview_lines : list (string * (Technology.t -> js_string)) :=
  [("- **Main Framework**: ", Technology.framework);
   ("- **Language**: ", Technology.language);
   ("- **Styling**: ", Technology.styling);
   ("- **Bundler**: ", Technology.bundler);
   ("- **Testing**: ", Technology.testing)].

(** Every pattern of the renderer starts with an opening brace and has no
    place for the line feed. *)
Definition braced (re : regex) : bool :=
  match head_lit re with
  | Some h => unit_eqb h lbrace
  | None => false
  end && refuses re newline.



(** The two lists of dependencies: the name the placeholder has for them,
    and the field. *)
Definition dependency_lists : list (string * (Dependencies.t -> value)) :=
  [("dependencies", Dependencies.dependencies);
   ("devDependencies", Dependencies.devDependencies)].

(** The placeholder of a list of dependencies as the pattern of the renderer
    spells it, with two apostrophes on each side of the separator. *)
Definition dependencies_placeholder (name : string) : js_string :=
  js "{{Object.keys(dependencies." ++ js name
  ++ js ").slice(0, 10).join('', '') || 'None'}}".

(** * Properties *)

Ltac frames_steps :=
  cbv beta iota zeta delta
    [steps section_steps technology_steps structure_steps fileTypes_steps
     importantFiles_steps dependencies_steps map app Category.keys Role.keys
     empty_analysis empty_technology empty_structure
     Analysis.projectName Analysis.totalFiles Analysis.fileTypes
     Analysis.importantFiles Analysis.dependencies Analysis.technology
     Analysis.structure frames fst snd];
  repeat (split;
          [vm_compute; reflexivity
          |split;
           [vm_compute; reflexivity
           |split;
            [first [left; vm_compute; reflexivity | right; vm_compute; reflexivity]
            |]]]);
  exact I.

(** ** Strings, paths and keys *)

Example js_ascii : js "a.b" = [97; 46; 98]%N.
Proof. reflexivity. Qed.

Example js_surrogates : js "🤖⚡" = [55358; 56598; 9889]%N.
Proof. vm_compute. reflexivity. Qed.

Example ToString_nat_12 : ToString_nat 12 = js "12" /\ ToString_nat 0 = js "0".
Proof. split; reflexivity. Qed.

Example posix_basename_examples :
  map posix_basename (map js ["/a/b/App.tsx"; "/a/b/"; "proj"; "/"; ""; "./"])
  = map js ["App.tsx"; "b"; "proj"; ""; ""; "."].
Proof. vm_compute. reflexivity. Qed.

Example posix_extname_examples :
  map posix_extname
    (map js ["a/index.html"; ".env"; "x.test.js"; "noext"; ".."; "a.b/"; "a."; "..."])
  = map js [".html"; ""; ".js"; ""; ""; ".b"; "."; "."].
Proof. vm_compute. reflexivity. Qed.

Example posix_dirname_examples :
  map posix_dirname (map js ["src/a/b.js"; "b.js"; "/b.js"; "/a/b/"; "a//b"; "//a"; ""])
  = map js ["src/a"; "."; "/"; "/a"; "a/"; "//"; "."].
Proof. vm_compute. reflexivity. Qed.

Example posix_join_examples :
  posix_join (js "/work/app") (js "package.json") = js "/work/app/package.json"
  /\ posix_join (js "./app/") (js "src") = js "app/src"
  /\ posix_join (js "a/../..") (js "b") = js "../b"
  /\ posix_join (js "/..") (js "b/") = js "/b/".
Proof. vm_compute. repeat split. Qed.

Example posix_relative_examples :
  posix_relative (js "/home") (js "/work/app") (js "/work/app/src/a.js") = js "src/a.js"
  /\ posix_relative (js "/home") (js "app") (js "app/src/a.js") = js "src/a.js"
  /\ posix_relative (js "/home") (js "/a/bc") (js "/a/bd") = js "../bd"
  /\ posix_relative (js "/home") (js "/a/b") (js "/a") = js "..".
Proof. vm_compute. repeat split. Qed.

Example replace_examples :
  replace (escaped "{{a}}") (js "x") (js "1 {{a}} 2 {{a}}{{a}}") = js "1 x 2 xx"
  /\ replace (RegExp (js "{{f.a}}")) (js "x") (js "{{f.a}} {{f-a}} {{fa}}")
      = js "x x {{fa}}"
  /\ replace (escaped "b") (js "[$&$&|$$|$1|$`|$']") (js "abc") = js "a[bb|$|$1|a|c]c".
Proof. vm_compute. repeat split. Qed.

Lemma str_eqb_refl (a : js_string) : str_eqb a a = true.
Proof.
  induction a as [|x a IH]; simpl; [reflexivity|].
  unfold unit_eqb. rewrite N.eqb_refl. exact IH.
Qed.

Lemma str_eqb_eq (a b : js_string) : str_eqb a b = true <-> a = b.
Proof.
  split.
  - revert b. induction a as [|x a IH]; intros [|y b] H; simpl in H;
      try discriminate; [reflexivity|].
    apply andb_true_iff in H. destruct H as [Hx Hr].
    apply N.eqb_eq in Hx. subst y. f_equal. apply IH, Hr.
  - intros ->. apply str_eqb_refl.
Qed.

Lemma category_eqb_eq (a b : Category.t) : Category.eqb a b = true <-> a = b.
Proof. split; [destruct a, b; simpl; congruence | intros ->; destruct b; reflexivity]. Qed.

Lemma role_eqb_eq (a b : Role.t) : Role.eqb a b = true <-> a = b.
Proof. split; [destruct a, b; simpl; congruence | intros ->; destruct b; reflexivity]. Qed.

Lemma take_while_app_stop {A} (p : A -> bool) (l r : list A) (x : A) :
  forallb p l = true -> p x = false -> take_while p (l ++ x :: r) = l.
Proof.
  intros Hl Hx. induction l as [|y l IH]; simpl.
  - rewrite Hx. reflexivity.
  - simpl in Hl. apply andb_true_iff in Hl. destruct Hl as [Hy Hl].
    rewrite Hy, IH by exact Hl. reflexivity.
Qed.

(** On POSIX the base name of a path that ends in a slash and a name is
    the name. *)
Lemma posix_basename_last (dir name : js_string) :
  name <> [] -> forallb (fun c => negb (is_slash c)) name = true ->
  posix_basename (dir ++ slash :: name) = name.
Proof.
  intros Hne Hname. unfold posix_basename.
  assert (Hrev : forallb (fun c => negb (is_slash c)) (rev name) = true).
  { apply forallb_forall. intros c Hc. apply in_rev in Hc.
    exact (proj1 (forallb_forall _ _) Hname c Hc). }
  rewrite rev_app_distr. cbn [rev]. rewrite <- !app_assoc. cbn [app].
  destruct (rev name) as [|y l] eqn:E.
  - apply (f_equal (@rev _)) in E. rewrite rev_involutive in E. contradiction.
  - cbn [app drop_while]. simpl in Hrev. apply andb_true_iff in Hrev.
    destruct Hrev as [Hy Hl]. apply negb_true_iff in Hy. rewrite Hy.
    change (y :: l ++ slash :: rev dir) with ((y :: l) ++ slash :: rev dir).
    rewrite take_while_app_stop.
    + rewrite <- E. apply rev_involutive.
    + simpl. rewrite Hy, Hl. reflexivity.
    + reflexivity.
Qed.

(** ** Buckets filled by a loop of [push] *)

Section Buckets.

Variables (K : Type) (eqb : K -> K -> bool).
Hypothesis eqb_eq : forall a b, eqb a b = true <-> a = b.

Lemma push_loop (key : js_string -> K) (files : list js_string) :
  forall (start : buckets K) (k : K),
    fold_left (fun o file => push eqb (key file) file o) files start k
    = start k ++ sent_to eqb key k files.
Proof.
  induction files as [|file files IH]; intros start k; simpl.
  - symmetry. apply app_nil_r.
  - rewrite IH. unfold push, sent_to. simpl.
    destruct (eqb (key file) k); [rewrite <- app_assoc|]; reflexivity.
Qed.

Lemma sent_to_cons_other (key : js_string -> K) (file : js_string) (files : list js_string)
    (ks : list K) :
  ~ In (key file) ks ->
  flat_map (fun k => sent_to eqb key k (file :: files)) ks
  = flat_map (fun k => sent_to eqb key k files) ks.
Proof.
  induction ks as [|k ks IH]; intros Hnot; cbn [flat_map]; [reflexivity|].
  rewrite IH by (intros H; apply Hnot; right; exact H).
  unfold sent_to at 1. cbn [filter].
  destruct (eqb (key file) k) eqn:E; [|reflexivity].
  exfalso. apply Hnot. left. symmetry. apply eqb_eq, E.
Qed.

Lemma sent_to_cons_one (key : js_string -> K) (file : js_string) (files : list js_string)
    (ks : list K) :
  NoDup ks -> In (key file) ks ->
  Permutation (flat_map (fun k => sent_to eqb key k (file :: files)) ks)
              (file :: flat_map (fun k => sent_to eqb key k files) ks).
Proof.
  induction ks as [|k ks IH]; intros Hnd Hin; [contradiction|].
  inversion Hnd as [|? ? Hk Hnd']; subst. cbn [flat_map].
  unfold sent_to at 1. cbn [filter].
  destruct (eqb (key file) k) eqn:E.
  - apply eqb_eq in E. subst k.
    rewrite sent_to_cons_other by exact Hk. reflexivity.
  - destruct Hin as [Heq|Hin].
    + subst k. assert (eqb (key file) (key file) = true) by (apply eqb_eq; reflexivity).
      congruence.
    + rewrite (IH Hnd' Hin). symmetry. apply Permutation_middle.
Qed.

(** The buckets of keys that are all different and that [key] only takes
    values among hold the input between them, each path once. *)
Lemma sent_to_partition (key : js_string -> K) (ks : list K) (files : list js_string) :
  NoDup ks -> (forall file, In (key file) ks) ->
  Permutation (flat_map (fun k => sent_to eqb key k files) ks) files.
Proof.
  intros Hnd Hall. induction files as [|file files IH].
  - clear Hnd Hall. induction ks as [|k ks IHk]; simpl; [constructor | exact IHk].
  - rewrite sent_to_cons_one by auto. constructor. exact IH.
Qed.

Lemma sent_to_key (key : js_string -> K) (k : K) (files : list js_string) (file : js_string) :
  In file (sent_to eqb key k files) <-> In file files /\ key file = k.
Proof.
  unfold sent_to. rewrite filter_In. rewrite eqb_eq. reflexivity.
Qed.

End Buckets.

(** ** The categorizer *)

Section CategorizerProperties.

Context {rt : Runtime}.

Lemma categorizeFiles_bucket (files : list js_string) (k : Category.t) :
  categorizeFiles files k = sent_to Category.eqb category_of k files.
Proof. unfold categorizeFiles. rewrite push_loop. reflexivity. Qed.

Lemma category_of_filled (file : js_string) : In (category_of file) filled_categories.
Proof.
  unfold category_of, filled_categories.
  repeat match goal with
         | |- In (if ?c then _ else _) _ => destruct c
         end; simpl; tauto.
Qed.

Lemma filled_categories_NoDup : NoDup filled_categories.
Proof.
  unfold filled_categories.
  repeat (constructor; [simpl; intuition discriminate|]). constructor.
Qed.

(** C2: for every list of paths, the eleven buckets of [categorizeFiles]
    hold the input between them: their contents, bucket after bucket, are a
    permutation of the input, so that every path is in the buckets as many
    times as it is in the input.  Each bucket holds, in input order, the
    paths that the chain of tests [category_of] sends to it; a path in a
    bucket is a path of the input; no path is in two different buckets; and
    the twelfth bucket of the object, [angular], is empty. *)
Theorem categorizeFiles_partition (files : list js_string) :
  Permutation (flat_map (categorizeFiles files) filled_categories) files
  /\ (forall k, categorizeFiles files k
                = filter (fun file => Category.eqb (category_of file) k) files)
  /\ (forall file k, In file (categorizeFiles files k)
                     <-> In file files /\ category_of file = k)
  /\ (forall file k1 k2, In file (categorizeFiles files k1) ->
                         In file (categorizeFiles files k2) -> k1 = k2)
  /\ categorizeFiles files Category.angular = [].
Proof.
  assert (Hin : forall file k, In file (categorizeFiles files k)
                               <-> In file files /\ category_of file = k).
  { intros file k. rewrite categorizeFiles_bucket.
    apply sent_to_key, category_eqb_eq. }
  split; [|split; [exact (categorizeFiles_bucket files)|split; [exact Hin|split]]].
  - rewrite (flat_map_ext (categorizeFiles files)
               (fun k => sent_to Category.eqb category_of k files))
      by (intros k; apply categorizeFiles_bucket).
    apply sent_to_partition.
    + apply category_eqb_eq.
    + apply filled_categories_NoDup.
    + apply category_of_filled.
  - intros file k1 k2 H1 H2. apply Hin in H1. apply Hin in H2.
    destruct H1 as [_ H1], H2 as [_ H2]. congruence.
  - destruct (categorizeFiles files Category.angular) as [|file rest] eqn:E;
      [reflexivity|].
    assert (H : In file (categorizeFiles files Category.angular))
      by (rewrite E; left; reflexivity).
    apply Hin in H. destruct H as [_ H].
    pose proof (category_of_filled file) as Hf. rewrite H in Hf.
    simpl in Hf. intuition discriminate.
Qed.

End CategorizerProperties.

Example category_of_examples :
  map (@category_of plain_runtime)
    (map js ["/p/src/a.js"; "/p/src/a.test.js"; "/p/src/a.spec.ts"; "/p/App.test.tsx";
             "/p/README.md"; "/p/package.json"; "/p/logo.SVG"; "/p/.env"; "/p/Makefile"])
  = [Category.javascript; Category.tests; Category.tests; Category.react;
     Category.documentation; Category.config; Category.images; Category.config;
     Category.other].
Proof. vm_compute. reflexivity. Qed.

(** ** The analyzer *)

Section AnalyzerProperties.

Context {rt : Runtime}.

(** What [analyzeDependencies] returns, by what the manifest is. *)
Lemma analyzeDependencies_result (projectPath : js_string) (root : fsnode) :
  analyzeDependencies projectPath root
  = Normal
      match read_manifest root with
      | Throw _ => no_dependencies
      | Normal (VObj props) =>
          Dependencies.mk
            (value_or (get props (js "dependencies")) (VObj []))
            (value_or (get props (js "devDependencies")) (VObj []))
            (value_or (get props (js "scripts")) (VObj []))
            (value_or (get props (js "type")) (VStr (js "commonjs")))
      | Normal _ => no_dependencies
      end.
Proof.
  unfold analyzeDependencies, read_manifest.
  destruct (readFileSync (child_of root (js "package.json"))) as [text|e];
    [|reflexivity].
  cbn [bind]. destruct (JSON_parse text) as [v|e]; [|reflexivity].
  destruct v; reflexivity.
Qed.

(** C4: [analyzeDependencies] never throws.  For every root it returns a
    record; whenever the manifest cannot be read (missing, unreadable, a
    directory) or cannot be parsed, whatever the error, the record is the
    default one: [dependencies], [devDependencies] and [scripts] empty
    objects, [type] the tag [commonjs].  (So is it for a manifest that
    parses to something that is not an object; an object gives its four
    fields, each with its default when falsy.) *)
Theorem analyzeDependencies_never_throws (projectPath : js_string) (root : fsnode) :
  analyzeDependencies projectPath root
  = Normal
      match read_manifest root with
      | Throw _ => no_dependencies
      | Normal (VObj props) =>
          Dependencies.mk
            (value_or (get props (js "dependencies")) (VObj []))
            (value_or (get props (js "devDependencies")) (VObj []))
            (value_or (get props (js "scripts")) (VObj []))
            (value_or (get props (js "type")) (VStr (js "commonjs")))
      | Normal _ => no_dependencies
      end
  /\ no_dependencies
     = Dependencies.mk (VObj []) (VObj []) (VObj []) (VStr (js "commonjs")).
Proof. split; [apply analyzeDependencies_result | reflexivity]. Qed.

Lemma analyzeDependencies_returns (projectPath : js_string) (root : fsnode) :
  exists dependencies, analyzeDependencies projectPath root = Normal dependencies.
Proof. eexists. apply analyzeDependencies_result. Qed.

(** C10: for every project path and whatever is found there (any files, any
    manifest, any parser), [analyzeCodebase] returns a record whose
    [projectName] is [path.basename(projectPath)]: nothing of the manifest
    enters it. *)
Theorem analyzeCodebase_projectName (projectPath : js_string) (root : fsnode) :
  exists a,
    analyzeCodebase projectPath root = Normal a
    /\ Analysis.projectName a = path_basename projectPath.
Proof.
  unfold analyzeCodebase.
  destruct (analyzeDependencies_returns projectPath root) as [d Hd].
  rewrite Hd. cbn [bind]. eexists. split; reflexivity.
Qed.

(** [findAllFiles] in the words of the source: [readdirSync], then the
    loop, nothing when the listing throws. *)
Lemma findAllFiles_readdirSync (folderPath : js_string) (node : fsnode) :
  findAllFiles folderPath node
  = match readdirSync node with
    | Normal items => walk findAllFiles folderPath items []
    | Throw _ => []
    end.
Proof. destruct node as [|c|[|] entries]; reflexivity. Qed.

Lemma analyzeCodebase_empty (projectPath : js_string) (root : fsnode) :
  findAllFiles projectPath root = [] ->
  child_of root (js "package.json") = Missing ->
  analyzeCodebase projectPath root = Normal (empty_analysis (path_basename projectPath)).
Proof.
  intros Hfiles Hmanifest.
  unfold analyzeCodebase, analyzeDependencies. rewrite Hfiles, Hmanifest.
  reflexivity.
Qed.


End AnalyzerProperties.

(** On POSIX the project is named after the last component of its path,
    whatever the manifest says: [shop] declares the name [shop] and is
    analysed as [shop-frontend] (see [shop_analysis]). *)
Lemma analyzeCodebase_projectName_posix (cwd : js_string)
    (documents : list (js_string * value)) (dir name : js_string) (root : fsnode) :
  name <> [] -> forallb (fun c => negb (is_slash c)) name = true ->
  exists a,
    @analyzeCodebase (posix cwd documents) (dir ++ slash :: name) root = Normal a
    /\ Analysis.projectName a = name.
Proof.
  intros Hne Hname. unfold analyzeCodebase.
  destruct (@analyzeDependencies_returns (posix cwd documents) (dir ++ slash :: name) root)
    as [d Hd].
  rewrite Hd. cbn [bind]. eexists. split; [reflexivity|].
  exact (posix_basename_last dir name Hne Hname).
Qed.

(** What [findAllFiles] skips and where it stops: the ignored directory is
    not entered, and the entry that cannot be examined ends the walk of its
    directory, the entries after it unseen. *)
Example findAllFiles_examples :
  @findAllFiles plain_runtime (js "/p")
    (Dir true [(js "a.js", File None);
               (js "dist", Dir true [(js "bundle.js", File None)]);
               (js "lib", Dir true [(js "b.js", File None); (js "gone", Missing);
                                    (js "c.js", File None)]);
               (js "locked", Dir false [(js "d.js", File None)]);
               (js "z.css", File None)])
  = map js ["/p/a.js"; "/p/lib/b.js"; "/p/z.css"].
Proof. vm_compute. reflexivity. Qed.

(** The ways a manifest fails, and a manifest that does not: no file, a
    file that cannot be read, a directory of that name, a text that is not
    JSON, the text [null]; and the manifest of [shop]. *)
Example analyzeDependencies_examples :
  let broken := js "{ dependencies: " in
  let rt := posix (js "/home/dev") [(js "null", VNull)] in
  map (fun manifest =>
         @analyzeDependencies rt (js "/work/app")
           (Dir true [(js "package.json", manifest)]))
      [Missing; File None; Dir true []; File (Some broken); File (Some (js "null"))]
  = [Normal no_dependencies; Normal no_dependencies; Normal no_dependencies;
     Normal no_dependencies; Normal no_dependencies]
  /\ @analyzeDependencies rt (js "/work/app") (Dir true []) = Normal no_dependencies
  /\ @analyzeDependencies shop_runtime (js "/work/shop-frontend") shop
     = Normal (Dependencies.mk
                 (VObj [(js "react", VStr (js "^18.2.0"));
                        (js "express", VStr (js "^4.18.2"))])
                 (VObj [(js "typescript", VStr (js "^5.4.0"));
                        (js "jest", VStr (js "^29.7.0"))])
                 (VObj []) (VStr (js "commonjs"))).
Proof. vm_compute. repeat split. Qed.


(** ** The technology detector *)




Lemma define_prop_same (target : list (js_string * value)) (k : js_string) (v : value) :
  assoc k (define_prop target k v) = Some v.
Proof.
  induction target as [|[k' v'] rest IH]; simpl.
  - rewrite str_eqb_refl. reflexivity.
  - destruct (str_eqb k k') eqn:E; simpl; rewrite E; [reflexivity | exact IH].
Qed.

Lemma define_prop_other (target : list (js_string * value)) (k k' : js_string) (v : value) :
  str_eqb k k' = false -> assoc k (define_prop target k' v) = assoc k target.
Proof.
  intros Hk. induction target as [|[k0 v0] rest IH]; simpl.
  - rewrite Hk. reflexivity.
  - destruct (str_eqb k' k0) eqn:E; simpl.
    + apply str_eqb_eq in E. subst k0. rewrite Hk. reflexivity.
    + destruct (str_eqb k k0); [reflexivity | exact IH].
Qed.

Lemma assoc_absent (k : js_string) (props : list (js_string * value)) :
  ~ In k (map fst props) -> assoc k props = None.
Proof.
  induction props as [|[k' v] rest IH]; simpl; intros H; [reflexivity|].
  destruct (str_eqb k k') eqn:E.
  - apply str_eqb_eq in E. exfalso. apply H. left. symmetry. exact E.
  - apply IH. intros Hin. apply H. right. exact Hin.
Qed.

Lemma copy_props_assoc (props : list (js_string * value)) :
  NoDup (map fst props) ->
  forall (target : list (js_string * value)) (k : js_string),
    assoc k (fold_left (fun o kv => define_prop o (fst kv) (snd kv)) props target)
    = match assoc k props with
      | Some v => Some v
      | None => assoc k target
      end.
Proof.
  induction props as [|[k1 v1] rest IH]; intros Hnd target k; [reflexivity|].
  simpl in Hnd. inversion Hnd as [|? ? Hk1 Hrest]; subst.
  cbn [fold_left fst snd assoc]. rewrite (IH Hrest).
  destruct (str_eqb k k1) eqn:E.
  - apply str_eqb_eq in E. subst k1.
    rewrite assoc_absent by exact Hk1. apply define_prop_same.
  - rewrite define_prop_other by exact E. reflexivity.
Qed.

(** In [{...dependencies, ...devDependencies}] a name has the value the
    development dependencies give it when they have it, and else the one
    the runtime dependencies give it. *)
Lemma spread2_get (runtime development : list (js_string * value)) (name : js_string) :
  NoDup (map fst runtime) -> NoDup (map fst development) ->
  get (spread2 (VObj runtime) (VObj development)) name
  = match assoc name development with
    | Some v => v
    | None => get runtime name
    end.
Proof.
  intros Hr Hd. unfold get, spread2. cbn [own_props].
  rewrite copy_props_assoc by exact Hd. rewrite copy_props_assoc by exact Hr.
  destruct (assoc name development); [reflexivity|].
  destruct (assoc name runtime); reflexivity.
Qed.

(** ** Replacement, piece by piece *)

Lemma free_of_app (h : code_unit) (a b : js_string) :
  free_of h (a ++ b) = free_of h a && free_of h b.
Proof. apply forallb_app. Qed.

Lemma GetSubstitution_plain (matched before after replacement : js_string) :
  free_of dollar replacement = true ->
  GetSubstitution matched before after replacement = replacement.
Proof.
  induction replacement as [|c rest IH]; intros H; [reflexivity|].
  simpl in H. apply andb_true_iff in H. destruct H as [Hc Hrest].
  cbn [GetSubstitution].
  replace (unit_eqb c dollar) with false.
  - f_equal. apply IH, Hrest.
  - unfold unit_eqb in *. rewrite N.eqb_sym. symmetry. apply negb_true_iff, Hc.
Qed.

Section Scan.

Variables (re : regex) (replacement : js_string).

Abbreviation scan := (replace_scan re replacement).

Lemma match_here_length (s : js_string) :
  match_here re s = true -> List.length re <= List.length s.
Proof.
  revert s. induction re as [|a re' IH]; intros s H; simpl; [lia|].
  destruct s as [|c s]; simpl in H; [discriminate|].
  apply andb_true_iff in H. destruct H as [_ H]. apply IH in H. simpl. lia.
Qed.

Lemma match_here_within (s1 s2 : js_string) :
  List.length re <= List.length s1 ->
  match_here re (s1 ++ s2) = match_here re s1.
Proof.
  revert s1. induction re as [|a re' IH]; intros s1 H; [reflexivity|].
  destruct s1 as [|c s1]; simpl in H; [lia|].
  simpl. rewrite IH by lia. reflexivity.
Qed.

Lemma match_here_refused (e s : js_string) (c : code_unit) :
  refuses re c = true ->
  match_here re (e ++ c :: s) = true -> List.length re <= List.length e.
Proof.
  unfold refuses. revert e. induction re as [|a re' IH]; intros e Hr H; simpl; [lia|].
  simpl in Hr. apply andb_true_iff in Hr. destruct Hr as [Ha Hr].
  destruct e as [|x e]; simpl in H; apply andb_true_iff in H; destruct H as [Hx H].
  - rewrite Hx in Ha. discriminate.
  - apply IH in H; [simpl; lia | exact Hr].
Qed.

Hypothesis re_nonempty : re <> [].

Lemma scan_end (skip : nat) (before : js_string) : scan skip before [] = [].
Proof.
  destruct re as [|a re']; [contradiction|]. destruct skip; reflexivity.
Qed.

Lemma scan_no_match_here (before : js_string) (c : code_unit) (s : js_string) :
  match_here re (c :: s) = false ->
  scan 0 before (c :: s) = c :: scan 0 (c :: before) s.
Proof. intros H. cbn [replace_scan]. rewrite H. reflexivity. Qed.

Lemma scan_match_here (before : js_string) (c : code_unit) (s : js_string) :
  match_here re (c :: s) = true ->
  scan 0 before (c :: s)
  = GetSubstitution (firstn (List.length re) (c :: s)) (rev before)
      (skipn (List.length re) (c :: s)) replacement
    ++ scan (List.length re - 1) (c :: before) s.
Proof.
  intros H. cbn [replace_scan]. rewrite H.
  destruct re as [|a re']; [contradiction|].
  cbn [List.length]. rewrite Nat.sub_succ, Nat.sub_0_r. reflexivity.
Qed.

(** A match that starts in [e] ends in [e] when the character after [e] is
    one the pattern refuses: the scan of [e] is done when it gets there. *)
Lemma scan_segment (c : code_unit) (s : js_string) :
  refuses re c = true ->
  forall (e : js_string) (skip : nat) (before : js_string),
    skip <= List.length e ->
    exists e',
      scan skip before (e ++ c :: s) = e' ++ c :: scan 0 (c :: rev e ++ before) s.
Proof.
  intros Hc. induction e as [|x e IH]; intros skip before Hskip.
  - simpl in Hskip. assert (skip = 0) by lia. subst skip. exists [].
    cbn [app rev]. apply scan_no_match_here.
    destruct (match_here re (c :: s)) eqn:E; [|reflexivity].
    apply (match_here_refused [] s c Hc) in E. simpl in E.
    destruct re; [contradiction | simpl in E; lia].
  - cbn [rev]. rewrite <- app_assoc. cbn [app].
    destruct skip as [|skip].
    + destruct (match_here re (x :: e ++ c :: s)) eqn:E.
      * rewrite (scan_match_here _ _ _ E).
        pose proof (match_here_refused (x :: e) s c Hc E) as Hlen. simpl in Hlen.
        destruct (IH (List.length re - 1) (x :: before)) as [e' He']; [lia|].
        rewrite He'. eexists. rewrite app_assoc. reflexivity.
      * rewrite (scan_no_match_here _ _ _ E).
        destruct (IH 0 (x :: before)) as [e' He']; [lia|].
        rewrite He'. exists (x :: e'). reflexivity.
    + cbn [replace_scan]. simpl in Hskip.
      destruct (IH skip (x :: before)) as [e' He']; [lia|].
      rewrite He'. exists e'. reflexivity.
Qed.

(** Where the pattern matches nowhere the scan changes nothing. *)
Lemma scan_no_match (s : js_string) :
  matches_somewhere re s = false ->
  forall before, scan 0 before s = s.
Proof.
  induction s as [|c s IH]; intros H before; [apply scan_end|].
  simpl in H. apply orb_false_iff in H. destruct H as [Hhere Hrest].
  rewrite (scan_no_match_here _ _ _ Hhere). f_equal. apply IH, Hrest.
Qed.

(** A piece in which the pattern matches nowhere, followed by a character
    the pattern refuses, is left as it is. *)
Lemma scan_protected (c : code_unit) (s : js_string) :
  refuses re c = true ->
  forall (m : js_string) (before : js_string),
    matches_somewhere re m = false ->
    scan 0 before (m ++ c :: s) = m ++ c :: scan 0 (c :: rev m ++ before) s.
Proof.
  intros Hc. induction m as [|x m IH]; intros before Hm.
  - cbn [app rev]. rewrite scan_no_match_here; [reflexivity|].
    destruct (match_here re (c :: s)) eqn:E; [|reflexivity].
    apply (match_here_refused [] s c Hc) in E. simpl in E.
    destruct re; [contradiction | simpl in E; lia].
  - simpl in Hm. apply orb_false_iff in Hm. destruct Hm as [Hhere Hrest].
    cbn [rev]. rewrite <- app_assoc. cbn [app].
    rewrite scan_no_match_here.
    + f_equal. apply IH, Hrest.
    + destruct (match_here re (x :: m ++ c :: s)) eqn:E; [|reflexivity].
      pose proof (match_here_refused (x :: m) s c Hc E) as Hlen.
      change (x :: m ++ c :: s) with ((x :: m) ++ c :: s) in E.
      rewrite (match_here_within _ _ Hlen) in E. congruence.
Qed.

Lemma scan_refused (c : code_unit) (s before : js_string) :
  refuses re c = true -> scan 0 before (c :: s) = c :: scan 0 (c :: before) s.
Proof.
  intros Hc. apply (scan_protected c s Hc [] before).
  destruct re; [contradiction | reflexivity].
Qed.

(** A pattern that starts with a character steps over a piece without it. *)
Lemma scan_prefix (h : code_unit) (a : js_string) (s : js_string) :
  head_lit re = Some h -> free_of h a = true ->
  forall before, scan 0 before (a ++ s) = a ++ scan 0 (rev a ++ before) s.
Proof.
  intros Hh. induction a as [|x a IH]; intros Ha before; [reflexivity|].
  simpl in Ha. apply andb_true_iff in Ha. destruct Ha as [Hx Ha].
  cbn [rev app]. rewrite <- app_assoc. cbn [app].
  rewrite scan_no_match_here.
  - f_equal. apply IH, Ha.
  - destruct re as [|[h'|] re']; try discriminate. inversion Hh; subst h'.
    simpl. apply negb_true_iff in Hx. rewrite Hx. reflexivity.
Qed.

(** A replacement without dollar sign is the same wherever the match is. *)
Lemma scan_plain :
  free_of dollar replacement = true ->
  forall (s : js_string) (skip : nat) (before : js_string),
    scan skip before s = scan skip [] s.
Proof.
  intros Hplain. induction s as [|c s IH]; intros skip before.
  - rewrite !scan_end. reflexivity.
  - destruct skip as [|skip].
    + destruct (match_here re (c :: s)) eqn:E.
      * rewrite !(scan_match_here _ _ _ E), !GetSubstitution_plain by exact Hplain.
        f_equal. rewrite IH. symmetry. apply IH.
      * rewrite !(scan_no_match_here _ _ _ E). f_equal.
        rewrite IH. symmetry. apply IH.
    + cbn [replace_scan]. rewrite IH. symmetry. apply IH.
Qed.

End Scan.

(** A match is stepped over. *)
Lemma scan_skip (re : regex) (replacement : js_string) (e s : js_string) :
  forall before,
    replace_scan re replacement (List.length e) before (e ++ s)
    = replace_scan re replacement 0 (rev e ++ before) s.
Proof.
  induction e as [|x e IH]; intros before; [reflexivity|].
  cbn [List.length app replace_scan rev]. rewrite IH, <- app_assoc. reflexivity.
Qed.

(** ** The renderer as a list of replacements *)

Lemma run_app (s1 s2 : list step) (s : js_string) : run (s1 ++ s2) s = run s2 (run s1 s).
Proof. apply fold_left_app. Qed.

Lemma run_cons (st : step) (rest : list step) (s : js_string) :
  run (st :: rest) s = run rest (apply_step s st).
Proof. reflexivity. Qed.

Section StepsProperties.

Context {rt : Runtime}.

Lemma populateTemplate_steps (template : js_string) (analysis : Analysis.t)
    (userQuestion : js_string) :
  populateTemplate template analysis userQuestion
  = run (steps analysis userQuestion) template.
Proof.
  destruct analysis as [name total [ft|] [imp|] [d|] [t|] [st|]];
    cbv beta iota zeta delta
      [populateTemplate steps run apply_step fold_left fst snd section_steps
       technology_steps structure_steps fileTypes_steps importantFiles_steps
       dependencies_steps map app Category.keys Role.keys
       Analysis.projectName Analysis.totalFiles Analysis.fileTypes
       Analysis.importantFiles Analysis.dependencies Analysis.technology
       Analysis.structure];
    reflexivity.
Qed.

Lemma steps_first (analysis : Analysis.t) (userQuestion : js_string) :
  steps analysis userQuestion
  = (escaped "{{projectName}}", str_or (Analysis.projectName analysis) (js "Unknown"))
      :: tl (steps analysis userQuestion).
Proof. unfold steps. cbn [app tl]. reflexivity. Qed.

End StepsProperties.

(** ** Pieces of a template that the renderer leaves alone *)

Lemma head_lit_nonempty (re : regex) (h : code_unit) : head_lit re = Some h -> re <> [].
Proof. destruct re; [discriminate | intros _ H; discriminate]. Qed.

Lemma scan_tail (st : step) (b : js_string) :
  fst st <> [] ->
  free_of dollar (snd st) = true \/ matches_somewhere (fst st) b = false ->
  forall before, replace_scan (fst st) (snd st) 0 before b = apply_step b st.
Proof.
  intros Hne [Hplain|Hnone] before; unfold apply_step, replace.
  - apply scan_plain; assumption.
  - rewrite !scan_no_match by assumption. reflexivity.
Qed.

(** Under [frames], what stands between a head without brace and a line
    feed stays there, and what follows the line feed is rendered by
    itself. *)
Lemma run_framed (steps : list step) :
  forall b : js_string, frames steps b ->
  forall head e : js_string, free_of lbrace head = true ->
  exists e', run steps (head ++ e ++ newline :: b) = head ++ e' ++ newline :: run steps b.
Proof.
  induction steps as [|st rest IH]; intros b Hf head e Hhead.
  - exists e. reflexivity.
  - destruct Hf as (Hlit & Hnl & Htail & Hrest).
    pose proof (head_lit_nonempty _ _ Hlit) as Hne.
    cbn [run fold_left]. fold (run rest).
    unfold apply_step at 2. unfold replace.
    rewrite scan_prefix with (h := lbrace) by assumption.
    destruct (scan_segment (fst st) (snd st) Hne newline b Hnl e 0
                (rev head ++ []) (Nat.le_0_l _)) as [e' He'].
    rewrite He', (scan_tail st b Hne Htail).
    apply IH; assumption.
Qed.

Lemma run_exact (steps : list step) :
  forall b : js_string, frames steps b ->
  forall a : js_string, free_of lbrace a = true ->
  run steps (a ++ newline :: b) = a ++ newline :: run steps b.
Proof.
  induction steps as [|st rest IH]; intros b Hf a Ha; [reflexivity|].
  destruct Hf as (Hlit & Hnl & Htail & Hrest).
  pose proof (head_lit_nonempty _ _ Hlit) as Hne.
  cbn [run fold_left]. fold (run rest).
  unfold apply_step at 2. unfold replace.
  rewrite scan_prefix with (h := lbrace) by assumption.
  rewrite scan_refused by assumption.
  rewrite (scan_tail st b Hne Htail).
  apply IH; assumption.
Qed.

(** The one occurrence of a placeholder, a line feed after it, is replaced
    by the text when the text has no dollar sign. *)
Lemma replace_placeholder (st : step) (head p b : js_string) :
  head_lit (fst st) = Some lbrace -> refuses (fst st) newline = true ->
  free_of lbrace head = true ->
  match_here (fst st) p = true -> List.length p = List.length (fst st) ->
  free_of dollar (snd st) = true ->
  apply_step (head ++ p ++ newline :: b) st
  = head ++ snd st ++ newline :: apply_step b st.
Proof.
  intros Hlit Hnl Hhead Hp Hlen Hplain.
  pose proof (head_lit_nonempty _ _ Hlit) as Hne.
  unfold apply_step at 1. unfold replace.
  rewrite scan_prefix with (h := lbrace) by assumption. f_equal.
  destruct p as [|c p]; [destruct (fst st); [contradiction | discriminate]|].
  cbn [app]. rewrite scan_match_here; [|exact Hne|].
  - rewrite GetSubstitution_plain by exact Hplain. f_equal.
    replace (List.length (fst st) - 1) with (List.length p) by (simpl in Hlen; lia).
    rewrite scan_skip.
    rewrite scan_refused by assumption.
    f_equal. apply scan_tail; [exact Hne | left; exact Hplain].
  - change (c :: p ++ newline :: b) with ((c :: p) ++ newline :: b).
    rewrite match_here_within by lia. exact Hp.
Qed.

(** The first replacement fills in its placeholder and the others leave
    the text alone. *)
Lemma run_placeholder (st : step) (rest : list step) (head p b : js_string) :
  frames (st :: rest) b ->
  free_of lbrace head = true -> free_of lbrace (snd st) = true ->
  free_of dollar (snd st) = true ->
  match_here (fst st) p = true -> List.length p = List.length (fst st) ->
  run (st :: rest) (head ++ p ++ newline :: b)
  = head ++ snd st ++ newline :: run (st :: rest) b.
Proof.
  intros (Hlit & Hnl & Htail & Hrest) Hhead Hb Hd Hp Hlen.
  rewrite !run_cons, replace_placeholder by assumption.
  rewrite app_assoc, run_exact.
  - rewrite <- app_assoc. reflexivity.
  - exact Hrest.
  - rewrite free_of_app, Hhead, Hb. reflexivity.
Qed.

(** ** The prompt of an empty project *)

Lemma getDefaultTemplate_split :
  getDefaultTemplate = prompt_head ++ js "{{projectName}}" ++ newline :: template_tail.
Proof. vm_compute. reflexivity. Qed.

Section EmptyProject.

Context {rt : Runtime}.

Lemma empty_project_frames (name userQuestion : js_string) :
  frames (steps (empty_analysis name) userQuestion) template_tail.
Proof. frames_steps. Qed.

Lemma empty_project_rendered (name userQuestion shown : js_string) :
  prompt_head ++ shown ++ newline :: run (steps (empty_analysis name) userQuestion) template_tail
  = prompt_head ++ shown ++ empty_project_overview ++ empty_project_rest.
Proof.
  apply (f_equal (app prompt_head)), (f_equal (app shown)).
  vm_compute. reflexivity.
Qed.

Lemma plain_str_or (name : js_string) :
  plain name = true ->
  free_of dollar (str_or name (js "Unknown")) = true
  /\ free_of lbrace (str_or name (js "Unknown")) = true.
Proof.
  unfold plain. intros H. apply andb_true_iff in H.
  destruct name; [split; vm_compute; reflexivity | exact H].
Qed.

(** What the built-in template becomes for a project in which nothing was
    found. *)
Lemma empty_project_populate (name userQuestion : js_string) :
  exists shown,
    populateTemplate getDefaultTemplate (empty_analysis name) userQuestion
    = prompt_head ++ shown ++ empty_project_overview ++ empty_project_rest
    /\ (plain name = true -> shown = str_or name (js "Unknown")).
Proof.
  rewrite populateTemplate_steps, getDefaultTemplate_split.
  pose proof (empty_project_frames name userQuestion) as Hf.
  assert (Hh : free_of lbrace prompt_head = true) by (vm_compute; reflexivity).
  destruct (plain name) eqn:Hplain.
  - exists (str_or name (js "Unknown")). split; [|reflexivity].
    destruct (plain_str_or name Hplain) as [Hd Hb].
    rewrite steps_first in Hf |- *.
    etransitivity;
      [apply (run_placeholder _ _ prompt_head (js "{{projectName}}") _ Hf Hh Hb Hd);
       vm_compute; reflexivity|].
    rewrite <- steps_first. cbn [snd].
    change (Analysis.projectName (empty_analysis name)) with name.
    apply empty_project_rendered.
  - destruct (run_framed _ _ Hf prompt_head (js "{{projectName}}") Hh) as [e' He'].
    exists e'. split; [|discriminate].
    rewrite He'. apply empty_project_rendered.
Qed.

(** C1, amended: for an empty project directory the analysis is the one of
    a project in which nothing was found: no file, every bucket empty, the
    framework the fallback label [Vanilla JavaScript], the language
    [Unknown].  The built-in template rendered against it starts as the
    template does, then has the overview of [empty_project_overview]: [0]
    for the number of files, [Vanilla JavaScript] where the template has
    the framework, [Unknown] where it has the language, the styling and the
    bundler, [None detected] for the testing tool.  Where the template has
    the project name the prompt has the base name of the path when that
    name has no dollar sign and no brace ([Unknown] when it is empty). *)
Theorem empty_directory_prompt (projectPath userQuestion : js_string) :
  exists a fileTypes technology shown rest,
    analyzeCodebase projectPath (Dir true []) = Normal a
    /\ Analysis.totalFiles a = 0
    /\ Analysis.fileTypes a = Some fileTypes
    /\ (forall k, fileTypes k = [])
    /\ Analysis.technology a = Some technology
    /\ Technology.framework technology = js "Vanilla JavaScript"
    /\ Technology.language technology = js "Unknown"
    /\ populateTemplate getDefaultTemplate a userQuestion
       = prompt_head ++ shown ++ empty_project_overview ++ rest
    /\ (plain (path_basename projectPath) = true ->
        shown = str_or (path_basename projectPath) (js "Unknown")).
Proof.
  destruct (empty_project_populate (path_basename projectPath) userQuestion)
    as (shown & Hprompt & Hshown).
  exists (empty_analysis (path_basename projectPath)), no_buckets, empty_technology,
    shown, empty_project_rest.
  split; [apply analyzeCodebase_empty; reflexivity|].
  do 6 (split; [reflexivity|]).
  split; [exact Hprompt | exact Hshown].
Qed.

End EmptyProject.

(** C1 as stated fails on the empty directory [/tmp/empty]: the prompt has
    the fallback label and not [Unknown] for the framework, and the
    placeholders of the roles, which are not of the shape the renderer
    replaces, stand in it as the template has them. *)
Lemma empty_directory_prompt_not_unknown :
  exists a,
    @analyzeCodebase plain_runtime (js "/tmp/empty") (Dir true []) = Normal a
    /\ let document := @populateTemplate plain_runtime getDefaultTemplate a [] in
       includes (js "- **Main Framework**: Vanilla JavaScript") document = true
       /\ includes (js "**Main Framework**: Unknown") document = false
       /\ includes (js "- **Language**: Unknown") document = true
       /\ includes (js "**Pages**: {{importantFiles.pages.slice(0, 10).join(', ') || 'None found'}}")
            document = true
       /\ includes (js "**Pages**: None found") document = false
       /\ includes (js "**Entry Points**: None found") document = false.
Proof.
  eexists. split; [vm_compute; reflexivity|].
  repeat split; vm_compute; reflexivity.
Qed.

(** The hypothesis of the last part of [empty_directory_prompt] is met. *)
Lemma empty_directory_prompt_witness :
  plain (@path_basename plain_runtime (js "/tmp/empty")) = true
  /\ exists a shown rest,
       @analyzeCodebase plain_runtime (js "/tmp/empty") (Dir true []) = Normal a
       /\ @populateTemplate plain_runtime getDefaultTemplate a (js "What is this?")
          = prompt_head ++ shown ++ empty_project_overview ++ rest
       /\ shown = js "empty".
Proof.
  split; [vm_compute; reflexivity|].
  destruct (@empty_directory_prompt plain_runtime (js "/tmp/empty") (js "What is this?"))
    as (a & ft & t & shown & rest & Ha & _ & _ & _ & _ & _ & _ & Hp & Hs).
  exists a, shown, rest. split; [exact Ha|]. split; [exact Hp|].
  rewrite Hs by (vm_compute; reflexivity). vm_compute. reflexivity.
Defined.

(** ** The prompt generator *)

Section SpecializedProperties.

Context {rt : Runtime}.

(** C8, at the keys where it fails: for [security] and for [testing], which
    the usage text of [index.js] lists among the specialized types,
    [generateSpecializedPrompt] returns what [generatePrompt] returns,
    nothing appended; for [feature], [bugfix], [optimization] and
    [refactor] it appends the block of the key.  (A key that the object
    literal inherits, such as [constructor], is not one of the six and has
    something appended.) *)
Theorem generateSpecializedPrompt_security_testing (this : PromptGenerator)
    (analysis : Analysis.t) (description : js_string) :
  generateSpecializedPrompt this analysis (js "security") description
  = generatePrompt this analysis description (js "default")
  /\ generateSpecializedPrompt this analysis (js "testing") description
     = generatePrompt this analysis description (js "default")
  /\ (forall key block,
        In (key, block) [("feature", feature_instructions);
                         ("bugfix", bugfix_instructions);
                         ("optimization", optimization_instructions);
                         ("refactor", refactor_instructions)] ->
        block <> []
        /\ generateSpecializedPrompt this analysis (js key) description
           = (basePrompt <- generatePrompt this analysis description (js "default") ;;
              Normal (basePrompt ++ block)))
  /\ instructions_for (js "constructor") = js "function Object() { [native code] }".
Proof.
  assert (Hnone : forall taskType, instructions_for taskType = [] ->
            generateSpecializedPrompt this analysis taskType description
            = generatePrompt this analysis description (js "default")).
  { intros taskType H. unfold generateSpecializedPrompt. rewrite H.
    destruct (generatePrompt this analysis description (js "default")) as [base|e];
      cbn [bind]; [rewrite app_nil_r|]; reflexivity. }
  split; [apply Hnone; vm_compute; reflexivity|].
  split; [apply Hnone; vm_compute; reflexivity|].
  split; [|vm_compute; reflexivity].
  intros key block Hin. simpl in Hin.
  unfold generateSpecializedPrompt.
  destruct Hin as [H|[H|[H|[H|[]]]]]; inversion H; subst key block;
    (split; [vm_compute; discriminate|]);
    match goal with
    | |- context [instructions_for ?k] =>
        replace (instructions_for k) with
          (match assoc_template k taskSpecificInstructions with
           | Some text => text | None => [] end)
          by (vm_compute; reflexivity)
    end; reflexivity.
Qed.

End SpecializedProperties.

Example shop_analysis :
  exists a ft imp t,
    @analyzeCodebase shop_runtime (js "/work/shop-frontend") shop = Normal a
    /\ Analysis.projectName a = js "shop-frontend"
    /\ Analysis.totalFiles a = 5
    /\ Analysis.fileTypes a = Some ft
    /\ ft Category.react
       = map js ["/work/shop-frontend/src/App.tsx";
                 "/work/shop-frontend/src/components/Cart.tsx";
                 "/work/shop-frontend/src/components/Price$$.jsx"]
    /\ ft Category.config = [js "/work/shop-frontend/package.json"]
    /\ Analysis.importantFiles a = Some imp
    /\ imp Role.entryPoints = [js "/work/shop-frontend/src/App.tsx"]
    /\ imp Role.pages = []
    /\ Analysis.technology a = Some t
    /\ Technology.framework t = js "React"
    /\ Technology.language t = js "Unknown"
    /\ Technology.testing t = js "Jest"
    /\ Technology.hasTypeScript t = VBool true
    /\ Technology.hasVue t = VUndefined.
Proof.
  do 4 eexists. split; [vm_compute; reflexivity|].
  repeat (split; [vm_compute; reflexivity|]). vm_compute. reflexivity.
Qed.

(** C5, where it fails: on the default template (the file [default.md]
    and the built-in one alike) the two dependency lines of the prompt are
    the placeholders themselves and not the names.  The patterns of
    [populateTemplate] spell the separator of [join] with two apostrophes on
    each side; a template that spells it so is substituted. *)
Theorem default_template_dependency_lines :
  includes
    (js "**Main Dependencies**: {{Object.keys(dependencies.dependencies).slice(0, 10).join(', ') || 'None'}}
**Dev Dependencies**: {{Object.keys(dependencies.devDependencies).slice(0, 10).join(', ') || 'None'}}
") (shop_prompt shop_agent None) = true
  /\ includes (js "**Main Dependencies**: react, express") (shop_prompt shop_agent None)
     = false
  /\ includes
       (js "**Main Dependencies**: {{Object.keys(dependencies.dependencies).slice(0, 10).join(', ') || 'None'}}
**Dev Dependencies**: {{Object.keys(dependencies.devDependencies).slice(0, 10).join(', ') || 'None'}}
") (shop_prompt bare_agent None) = true
  /\ includes (js "**Main Dependencies**: react, express") (shop_prompt bare_agent None)
     = false
  /\ shop_prompt shop_agent (Some (js "deps")) = js "react, express".
Proof. repeat split; vm_compute; reflexivity. Qed.

(** C6, where it fails: on the default template the four technology lines
    of the prompt are the ternary placeholders themselves, whatever the
    flags are (here [hasTypeScript] and [hasReact] are true, the other two
    undefined); the placeholder of the bare field name is rendered [Yes] or
    [No]. *)
Theorem default_template_technology_lines :
  includes
    (js "- **TypeScript**: {{technology.hasTypeScript ? 'Yes' : 'No'}}
- **React**: {{technology.hasReact ? 'Yes' : 'No'}}
- **Vue**: {{technology.hasVue ? 'Yes' : 'No'}}
- **Angular**: {{technology.hasAngular ? 'Yes' : 'No'}}
") (shop_prompt shop_agent None) = true
  /\ includes (js "**TypeScript**: Yes") (shop_prompt shop_agent None) = false
  /\ includes (js "**Vue**: No") (shop_prompt shop_agent None) = false
  /\ includes
       (js "- **TypeScript**: {{technology.hasTypeScript ? 'Yes' : 'No'}}
- **React**: {{technology.hasReact ? 'Yes' : 'No'}}
- **Vue**: {{technology.hasVue ? 'Yes' : 'No'}}
- **Angular**: {{technology.hasAngular ? 'Yes' : 'No'}}
") (shop_prompt bare_agent None) = true
  /\ includes (js "**TypeScript**: Yes") (shop_prompt bare_agent None) = false
  /\ shop_prompt shop_agent (Some (js "flags")) = js "TypeScript: Yes, Vue: No".
Proof. repeat split; vm_compute; reflexivity. Qed.

(** C7, where it fails: the joined base names are handed to [replace] as a
    replacement pattern, in which [$$] stands for one dollar sign (and [$&],
    [$`], [$'] for the match and what surrounds it).  The component
    [Price$$.jsx] is rendered [Price$.jsx].  The role with no file is
    rendered [None found]. *)
Theorem importantFiles_placeholder_dollar :
  exists a imp,
    @analyzeCodebase shop_runtime (js "/work/shop-frontend") shop = Normal a
    /\ Analysis.importantFiles a = Some imp
    /\ join (js ", ") (map posix_basename (imp Role.components))
       = js "App.tsx, Cart.tsx, Price$$.jsx"
    /\ imp Role.pages = []
    /\ shop_prompt shop_agent (Some (js "roles"))
       = js "Components: App.tsx, Cart.tsx, Price$.jsx; pages: None found".
Proof.
  do 2 eexists. split; [vm_compute; reflexivity|].
  repeat (split; [vm_compute; reflexivity|]). vm_compute. reflexivity.
Qed.

(** ** The walk of the project tree *)

Section WalkProperties.

Context {rt : Runtime}.

Lemma walk_ignored (visit : js_string -> fsnode -> list js_string)
    (folderPath name : js_string) (child : fsnode) (after : list (js_string * fsnode)) :
  arr_includes ignoreList name = true ->
  forall (before : list (js_string * fsnode)) (allFiles : list js_string),
    walk visit folderPath (before ++ (name, child) :: after) allFiles
    = walk visit folderPath (before ++ after) allFiles.
Proof.
  intros Hname. induction before as [|[item node] before IH]; intros allFiles.
  - cbn [app walk]. rewrite Hname. reflexivity.
  - cbn [app walk]. destruct (arr_includes ignoreList item); [apply IH|].
    destruct (statSync_isDirectory node) as [[|]|e]; [apply IH | apply IH | reflexivity].
Qed.

Lemma walk_stops (visit : js_string -> fsnode -> list js_string)
    (folderPath name : js_string) (after : list (js_string * fsnode)) :
  arr_includes ignoreList name = false ->
  forall (before : list (js_string * fsnode)) (allFiles : list js_string),
    walk visit folderPath (before ++ (name, Missing) :: after) allFiles
    = walk visit folderPath before allFiles.
Proof.
  intros Hname. induction before as [|[item node] before IH]; intros allFiles.
  - cbn [app walk statSync_isDirectory]. rewrite Hname. reflexivity.
  - cbn [app walk]. destruct (arr_includes ignoreList item); [apply IH|].
    destruct (statSync_isDirectory node) as [[|]|e]; [apply IH | apply IH | reflexivity].
Qed.

(** X1: an entry whose name is on the ignore list is as good as absent,
    whatever it is (a directory, a file, a name that cannot be examined) and
    wherever it stands among the entries of its directory: [findAllFiles]
    returns what it returns for the directory without the entry. *)
Theorem findAllFiles_ignored (folderPath name : js_string) (child : fsnode)
    (before after : list (js_string * fsnode)) :
  arr_includes ignoreList name = true ->
  findAllFiles folderPath (Dir true (before ++ (name, child) :: after))
  = findAllFiles folderPath (Dir true (before ++ after)).
Proof. intros Hname. cbn [findAllFiles]. apply walk_ignored, Hname. Qed.

(** X2: an entry that [statSync] cannot examine (a dangling link), and that
    is not ignored, ends the listing of its directory: the files that
    [readdirSync] lists after it are not found, and [findAllFiles] returns
    what it returns for the directory cut before the entry. *)
Theorem findAllFiles_stops_at_dangling (folderPath name : js_string)
    (before after : list (js_string * fsnode)) :
  arr_includes ignoreList name = false ->
  findAllFiles folderPath (Dir true (before ++ (name, Missing) :: after))
  = findAllFiles folderPath (Dir true before).
Proof. intros Hname. cbn [findAllFiles]. apply walk_stops, Hname. Qed.



End WalkProperties.

Lemma findAllFiles_ignored_witness :
  arr_includes ignoreList (js "dist") = true
  /\ @findAllFiles plain_runtime (js "/p")
       (Dir true ([(js "a.js", File None)] ++ (js "dist", File None)
                    :: [(js "b.js", File None)]))
     = map js ["/p/a.js"; "/p/b.js"].
Proof.
  split; [reflexivity|].
  etransitivity;
    [apply (@findAllFiles_ignored plain_runtime); reflexivity | vm_compute; reflexivity].
Defined.

Lemma findAllFiles_stops_at_dangling_witness :
  arr_includes ignoreList (js "latest") = false
  /\ @findAllFiles plain_runtime (js "/p")
       (Dir true ([(js "a.js", File None)] ++ (js "latest", Missing)
                    :: [(js "b.js", File None)]))
     = map js ["/p/a.js"].
Proof.
  split; [reflexivity|].
  etransitivity;
    [apply (@findAllFiles_stops_at_dangling plain_runtime); reflexivity
    |vm_compute; reflexivity].
Defined.

(** ** The important files *)

Section ImportantFilesProperties.

Context {rt : Runtime}.

Lemma role_pushes (b1 b2 b3 b4 b5 b6 : bool) (file : js_string) (o : buckets Role.t)
    (k : Role.t) :
  (let add (test : bool) (k : Role.t) (o : buckets Role.t) :=
     if test then push Role.eqb k file o else o in
   let important := add b1 Role.entryPoints o in
   let important := add b2 Role.components important in
   let important := add b3 Role.pages important in
   let important := add b4 Role.api important in
   let important := add b5 Role.config important in
   add b6 Role.styles important) k
  = o k ++ (if match k with
               | Role.entryPoints => b1 | Role.components => b2 | Role.pages => b3
               | Role.api => b4 | Role.config => b5 | Role.styles => b6
               end
            then [file] else []).
Proof.
  destruct k, b1, b2, b3, b4, b5, b6; cbv zeta; unfold push; cbn [Role.eqb];
    rewrite ?app_nil_r; reflexivity.
Qed.

Lemma identifyImportantFiles_bucket (files : list js_string) (k : Role.t) :
  identifyImportantFiles files k = filter (has_role k) files.
Proof.
  unfold identifyImportantFiles.
  change (filter (has_role k) files)
    with (@no_buckets Role.t k ++ filter (has_role k) files).
  generalize (@no_buckets Role.t) as start.
  induction files as [|file files IH]; intros start.
  - symmetry. apply app_nil_r.
  - cbn [fold_left]. rewrite IH.
    etransitivity;
      [apply (f_equal (fun l => l ++ filter (has_role k) files));
       exact (role_pushes _ _ _ _ _ _ file start k)|].
    rewrite <- app_assoc. apply (f_equal (app (start k))).
    cbn [filter]. unfold has_role at 2.
    destruct k;
      match goal with
      | |- (if ?c then _ else _) ++ _ = _ => destruct c
      end; reflexivity.
Qed.

(** X4: every role of [identifyImportantFiles] holds the paths of the input
    that pass the test of the role, in the order of the input and as many
    times as the input has them: a path may be in several roles or in none,
    and nothing is in a role that is not in the input. *)
Theorem identifyImportantFiles_roles (files : list js_string) :
  (forall k, identifyImportantFiles files k = filter (has_role k) files)
  /\ (forall k file, In file (identifyImportantFiles files k)
                     <-> In file files /\ has_role k file = true)
  /\ (forall k, List.length (identifyImportantFiles files k) <= List.length files).
Proof.
  split; [exact (identifyImportantFiles_bucket files)|]. split.
  - intros k file. rewrite identifyImportantFiles_bucket. apply filter_In.
  - intros k. rewrite identifyImportantFiles_bucket. apply filter_length_le.
Qed.

End ImportantFilesProperties.

(** A component that is an entry point and a page at once, a file with no
    role, and a file that is an API file by its name. *)
Example has_role_examples :
  map (fun k => @has_role plain_runtime k (js "/p/src/pages/App.tsx")) Role.keys
  = [true; true; true; false; false; false]
  /\ map (fun k => @has_role plain_runtime k (js "/p/src/util.js")) Role.keys
     = [false; false; false; false; false; false]
  /\ map (fun k => @has_role plain_runtime k (js "/p/server/router.js")) Role.keys
     = [false; false; false; true; false; false].
Proof. vm_compute. repeat split. Qed.

(** ** The structure summary *)

Lemma arr_includes_In (arr : list js_string) (x : js_string) :
  arr_includes arr x = true <-> In x arr.
Proof.
  unfold arr_includes. rewrite existsb_exists. split.
  - intros (y & Hy & Heq). apply str_eqb_eq in Heq. subst y. exact Hy.
  - intros H. exists x. split; [exact H | apply str_eqb_refl].
Qed.

Lemma set_add_In (x d : js_string) (set : list js_string) :
  In d (set_add x set) <-> In d set \/ d = x.
Proof.
  unfold set_add. destruct (arr_includes set x) eqn:E.
  - apply arr_includes_In in E. split; [auto|]. intros [H| ->]; assumption.
  - rewrite in_app_iff. simpl. intuition auto.
Qed.

Lemma set_add_NoDup (x : js_string) (set : list js_string) :
  NoDup set -> NoDup (set_add x set).
Proof.
  intros H. unfold set_add. destruct (arr_includes set x) eqn:E; [exact H|].
  assert (Hx : ~ In x set).
  { intros Hin. apply arr_includes_In in Hin. congruence. }
  clear E. induction H as [|y l Hy Hl IH]; simpl.
  - constructor; [intros [] | constructor].
  - constructor.
    + rewrite in_app_iff. simpl. intros [Hin|[Heq|[]]]; [contradiction|].
      apply Hx. left. symmetry. exact Heq.
    + apply IH. intros Hin. apply Hx. right. exact Hin.
Qed.

Lemma str_leb_total (a b : js_string) : str_leb a b = false -> str_leb b a = true.
Proof.
  revert b. induction a as [|x a IH]; intros [|y b]; simpl; try congruence.
  intros H. apply orb_false_iff in H. destruct H as [Hlt H].
  apply N.ltb_ge in Hlt. destruct (N.eqb_spec x y) as [->|Hne].
  - simpl in H. apply IH in H. rewrite H, N.eqb_refl. apply orb_true_r.
  - assert (Hyx : (y <? x)%N = true) by (apply N.ltb_lt; lia).
    rewrite Hyx. reflexivity.
Qed.

Lemma sort_insert_Permutation (x : js_string) (sorted : list js_string) :
  Permutation (sort_insert x sorted) (x :: sorted).
Proof.
  induction sorted as [|y rest IH]; simpl; [reflexivity|].
  destruct (str_leb x y); [reflexivity|].
  rewrite IH. apply perm_swap.
Qed.

Lemma sort_Permutation (arr : list js_string) : Permutation (sort arr) arr.
Proof.
  induction arr as [|x arr IH]; simpl; [constructor|].
  rewrite sort_insert_Permutation. constructor. exact IH.
Qed.

Lemma sort_insert_Sorted (x : js_string) (sorted : list js_string) :
  Sorted str_le sorted -> Sorted str_le (sort_insert x sorted).
Proof.
  induction 1 as [|y rest Hrest IH Hhd]; simpl.
  - repeat constructor.
  - destruct (str_leb x y) eqn:E.
    + constructor; [constructor; assumption | constructor; exact E].
    + constructor; [exact IH|].
      apply str_leb_total in E.
      destruct rest as [|z rest]; simpl.
      * constructor. exact E.
      * destruct (str_leb x z); constructor; [exact E|].
        inversion Hhd; assumption.
Qed.

Lemma sort_Sorted (arr : list js_string) : Sorted str_le (sort arr).
Proof.
  induction arr as [|x arr IH]; simpl; [constructor | apply sort_insert_Sorted, IH].
Qed.

Section StructureProperties.

Context {rt : Runtime}.

(** The set of directories that the loop of [analyzeStructure] builds. *)
Lemma directories_loop (projectPath : js_string) (files : list js_string) :
  forall directories : list js_string,
    NoDup directories ->
    let found :=
      fold_left
        (fun directories file =>
           if negb (str_eqb (directory_of projectPath file) (js "."))
           then set_add (directory_of projectPath file) directories
           else directories)
        files directories in
    NoDup found
    /\ forall d, In d found
                 <-> In d directories
                     \/ (d <> js "."
                         /\ exists file, In file files /\ directory_of projectPath file = d).
Proof.
  induction files as [|file files IH]; intros directories Hnd; cbn [fold_left].
  - split; [exact Hnd|]. intros d. split; [auto|].
    intros [H|(_ & file & [] & _)]. exact H.
  - destruct (str_eqb (directory_of projectPath file) (js ".")) eqn:E; cbn [negb].
    + apply str_eqb_eq in E.
      destruct (IH directories Hnd) as [Hnd' Hin]. split; [exact Hnd'|].
      intros d. rewrite Hin. split.
      * intros [H|(Hd & f & Hf & Heq)]; [auto|].
        right. split; [exact Hd|]. exists f. split; [right; exact Hf | exact Heq].
      * intros [H|(Hd & f & [Hf|Hf] & Heq)]; [auto| |].
        -- subst f. congruence.
        -- right. split; [exact Hd|]. exists f. split; assumption.
    + assert (Hne : directory_of projectPath file <> js ".").
      { intros Heq. rewrite Heq, str_eqb_refl in E. discriminate. }
      destruct (IH (set_add (directory_of projectPath file) directories)
                  (set_add_NoDup _ _ Hnd)) as [Hnd' Hin].
      split; [exact Hnd'|].
      intros d. rewrite Hin, set_add_In. split.
      * intros [[H| ->]|(Hd & f & Hf & Heq)]; [auto| |].
        -- right. split; [exact Hne|]. exists file. split; [left|]; reflexivity.
        -- right. split; [exact Hd|]. exists f. split; [right; exact Hf | exact Heq].
      * intros [H|(Hd & f & [Hf|Hf] & Heq)]; [auto| |].
        -- subst f. left. right. symmetry. exact Heq.
        -- right. split; [exact Hd|]. exists f. split; assumption.
Qed.

(** X5: the [directories] of the structure summary are the directories of
    the files, as [path.dirname] gives them for the path of the file relative
    to the project, [.] (the project directory itself) left out: each of them
    once, in ascending order of their code units. *)
Theorem analyzeStructure_directories (files : list js_string) (projectPath : js_string) :
  let directories := Structure.directories (analyzeStructure files projectPath) in
  Sorted str_le directories
  /\ NoDup directories
  /\ forall d, In d directories
               <-> d <> js "."
                   /\ exists file, In file files /\ directory_of projectPath file = d.
Proof.
  cbv zeta. unfold analyzeStructure. cbn [Structure.directories].
  destruct (directories_loop projectPath files [] (NoDup_nil _)) as [Hnd Hin].
  split; [apply sort_Sorted|]. split.
  - apply (Permutation_NoDup (Permutation_sym (sort_Permutation _))). exact Hnd.
  - intros d. rewrite (Permutation_in' (eq_refl d) (sort_Permutation _)).
    etransitivity; [apply Hin|]. simpl. tauto.
Qed.

(** X6: the flags of the structure summary, by the files.  [hasSrcFolder]
    and [hasPublicFolder] are true exactly when some file lies in the
    directory [src] (resp. [public]) itself, a file further down not
    counting; [hasComponentsFolder], [hasPagesFolder] and [hasApiFolder] are
    true exactly when the directory of some file has the word somewhere in
    it. *)
Theorem analyzeStructure_flags (files : list js_string) (projectPath : js_string) :
  let structure := analyzeStructure files projectPath in
  (Structure.hasSrcFolder structure = true
   <-> exists file, In file files /\ directory_of projectPath file = js "src")
  /\ (Structure.hasPublicFolder structure = true
      <-> exists file, In file files /\ directory_of projectPath file = js "public")
  /\ (Structure.hasComponentsFolder structure = true
      <-> exists file, In file files
                       /\ includes (js "components") (directory_of projectPath file) = true)
  /\ (Structure.hasPagesFolder structure = true
      <-> exists file, In file files
                       /\ includes (js "pages") (directory_of projectPath file) = true)
  /\ (Structure.hasApiFolder structure = true
      <-> exists file, In file files
                       /\ includes (js "api") (directory_of projectPath file) = true).
Proof.
  cbv zeta. unfold analyzeStructure.
  cbn [Structure.hasSrcFolder Structure.hasPublicFolder Structure.hasComponentsFolder
       Structure.hasPagesFolder Structure.hasApiFolder].
  destruct (directories_loop projectPath files [] (NoDup_nil _)) as [_ Hin].
  cbv zeta in Hin.
  assert (Hexact : forall name : js_string,
            name <> js "." ->
            forall dirs : list js_string,
              (forall d, In d dirs
                         <-> In d []
                             \/ (d <> js "."
                                 /\ exists file, In file files
                                                 /\ directory_of projectPath file = d)) ->
              arr_includes dirs name = true
              <-> exists file, In file files /\ directory_of projectPath file = name).
  { intros name Hname dirs Hdirs. rewrite arr_includes_In, Hdirs. split.
    - intros [[]|(_ & H)]. exact H.
    - intros H. right. split; assumption. }
  assert (Hword : forall word : js_string,
            includes word (js ".") = false ->
            forall dirs : list js_string,
              (forall d, In d dirs
                         <-> In d []
                             \/ (d <> js "."
                                 /\ exists file, In file files
                                                 /\ directory_of projectPath file = d)) ->
              existsb (includes word) dirs = true
              <-> exists file, In file files
                               /\ includes word (directory_of projectPath file) = true).
  { intros word Hword dirs Hdirs. rewrite existsb_exists. split.
    - intros (d & Hd & Hw). apply Hdirs in Hd.
      destruct Hd as [[]|(_ & file & Hfile & Heq)].
      exists file. split; [exact Hfile | rewrite Heq; exact Hw].
    - intros (file & Hfile & Hw). exists (directory_of projectPath file).
      split; [|exact Hw]. apply Hdirs. right. split.
      + intros Heq. rewrite Heq in Hw. congruence.
      + exists file. split; [exact Hfile | reflexivity]. }
  split; [apply Hexact; [vm_compute; discriminate | exact Hin]|].
  split; [apply Hexact; [vm_compute; discriminate | exact Hin]|].
  split; [apply Hword; [vm_compute; reflexivity | exact Hin]|].
  split; [apply Hword; [vm_compute; reflexivity | exact Hin]|].
  apply Hword; [vm_compute; reflexivity | exact Hin].
Qed.

End StructureProperties.

(** A project whose only file under [src] lies in [src/components] has no
    [src] folder for the summary, and one with [src/capital/a.js] has an
    [api] folder. *)
Example analyzeStructure_examples :
  @analyzeStructure plain_runtime
    (map js ["/p/src/components/Cart.jsx"; "/p/src/capital/a.js"; "/p/README.md"])
    (js "/p")
  = Structure.mk (map js ["src/capital"; "src/components"]) false false true false true.
Proof. vm_compute. reflexivity. Qed.

(** ** Counts and labels of the analysis *)

Section AnalysisProperties.

Context {rt : Runtime}.

Lemma categorizeFiles_angular (files : list js_string) :
  categorizeFiles files Category.angular = [].
Proof.
  rewrite categorizeFiles_bucket. unfold sent_to.
  induction files as [|file files IH]; [reflexivity|]. cbn [filter].
  destruct (Category.eqb (category_of file) Category.angular) eqn:E; [|exact IH].
  apply category_eqb_eq in E. pose proof (category_of_filled file) as H.
  rewrite E in H. simpl in H. intuition discriminate.
Qed.

(** X7: in the record of [analyzeCodebase], whatever the project is,
    [totalFiles] is the sum of the sizes of the twelve buckets of
    [fileTypes], and it is the number of paths [findAllFiles] returns. *)
Theorem analyzeCodebase_totalFiles (projectPath : js_string) (root : fsnode) :
  exists a fileTypes,
    analyzeCodebase projectPath root = Normal a
    /\ Analysis.fileTypes a = Some fileTypes
    /\ Analysis.totalFiles a
       = list_sum (map (fun k => List.length (fileTypes k)) Category.keys)
    /\ Analysis.totalFiles a = List.length (findAllFiles projectPath root).
Proof.
  unfold analyzeCodebase.
  destruct (analyzeDependencies_returns projectPath root) as [d Hd].
  rewrite Hd. cbn [bind]. do 2 eexists.
  split; [reflexivity|]. split; [reflexivity|]. split; [|reflexivity].
  cbn [Analysis.totalFiles].
  set (files := findAllFiles projectPath root).
  assert (Hperm : Permutation (flat_map (categorizeFiles files) filled_categories) files).
  { rewrite (flat_map_ext (categorizeFiles files)
               (fun k => sent_to Category.eqb category_of k files))
      by (intros k; apply categorizeFiles_bucket).
    apply sent_to_partition;
      [apply category_eqb_eq | apply filled_categories_NoDup | apply category_of_filled]. }
  apply Permutation_length in Hperm. rewrite <- Hperm, length_flat_map.
  unfold Category.keys, filled_categories. cbn [map list_sum].
  rewrite categorizeFiles_angular. cbn [List.length].
  unfold list_sum. cbn [fold_right]. lia.
Qed.


(** X9: the styling, the bundler and the testing tool are found as the
    framework is: each is the label of the first name of its order to which
    the merged dependencies give a truthy value.  When they give none of them
    one, the styling is [CSS/SCSS] if there is a style file and [Unknown]
    otherwise, the bundler is [Unknown] and the testing tool [None
    detected]. *)
Theorem detectTechnology_precedence (fileTypes : buckets Category.t)
    (dependencies : Dependencies.t) :
  let deps := spread2 (Dependencies.dependencies dependencies)
                      (Dependencies.devDependencies dependencies) in
  let technology := detectTechnology fileTypes dependencies in
  Technology.styling technology
  = js (first_present (has deps) styling_precedence
          (if nonempty (fileTypes Category.styles) then "CSS/SCSS" else "Unknown"))
  /\ Technology.bundler technology
     = js (first_present (has deps) bundler_precedence "Unknown")
  /\ Technology.testing technology
     = js (first_present (has deps) testing_precedence "None detected").
Proof.
  cbv zeta. unfold detectTechnology.
  cbn [Technology.styling Technology.bundler Technology.testing].
  unfold detectStyling, detectBundler, detectTesting,
    styling_precedence, bundler_precedence, testing_precedence.
  cbn [first_present].
  repeat split;
    repeat match goal with
           | |- (if ?c then _ else _) = js (if ?c then _ else _) =>
               destruct c; [reflexivity|]
           end;
    reflexivity.
Qed.

(** X10: every test [deps.name] of the detectors, on the merged
    dependencies of a manifest whose two objects have each name once, sees
    the value the development dependencies give the name when they have it,
    whatever it is, and the value the dependencies give it otherwise: a
    package that is only a development dependency is detected, and a package
    of the dependencies to which the development dependencies give the empty
    string is not. *)
Theorem has_merged_dependencies (runtime development : list (js_string * value))
    (name : string) :
  NoDup (map fst runtime) -> NoDup (map fst development) ->
  has (spread2 (VObj runtime) (VObj development)) name
  = match assoc (js name) development with
    | Some v => truthy v
    | None => has runtime name
    end.
Proof.
  intros Hr Hd. unfold has. rewrite spread2_get by assumption.
  destruct (assoc (js name) development); reflexivity.
Qed.

(** X11: a file that [categorizeFiles] puts into the bucket [images] is a
    binary file for [isBinaryFile]. *)
Theorem images_are_binary (file : js_string) :
  category_of file = Category.images -> isBinaryFile file = true.
Proof.
  unfold category_of, isBinaryFile, getFileExtension.
  set (extension := toLowerCase (path_extname file)).
  repeat match goal with
         | |- (if ?c then _ else _) = _ -> _ =>
             let E := fresh "E" in destruct c eqn:E; [try discriminate|]
         end;
    try discriminate.
  intros _.
  match goal with
  | H : arr_includes _ extension = true |- _ => apply arr_includes_In in H; simpl in H
  end.
  repeat match goal with
         | H : _ \/ _ |- _ => destruct H as [H|H]
         | H : js _ = extension |- _ => rewrite <- H; vm_compute; reflexivity
         | H : False |- _ => destruct H
         end.
Qed.

End AnalysisProperties.

Lemma has_merged_dependencies_witness :
  let runtime := [(js "react", VStr (js "^18.2.0")); (js "vue", VStr (js "^3.4.0"))] in
  let development := [(js "vite", VStr (js "^5.0.0")); (js "vue", VStr [])] in
  NoDup (map fst runtime) /\ NoDup (map fst development)
  /\ has (spread2 (VObj runtime) (VObj development)) "vite" = true
  /\ has (spread2 (VObj runtime) (VObj development)) "vue" = false
  /\ has (spread2 (VObj runtime) (VObj development)) "react" = true.
Proof.
  intros runtime development.
  assert (Hr : NoDup (map fst runtime)).
  { repeat constructor; simpl; intuition discriminate. }
  assert (Hd : NoDup (map fst development)).
  { repeat constructor; simpl; intuition discriminate. }
  split; [exact Hr|]. split; [exact Hd|].
  rewrite !(has_merged_dependencies runtime development _ Hr Hd).
  repeat split.
Defined.

Lemma images_are_binary_witness :
  @category_of plain_runtime (js "/p/public/Logo.SVG") = Category.images
  /\ @isBinaryFile plain_runtime (js "/p/public/Logo.SVG") = true.
Proof.
  assert (H : @category_of plain_runtime (js "/p/public/Logo.SVG") = Category.images)
    by (vm_compute; reflexivity).
  split; [exact H | exact (@images_are_binary plain_runtime _ H)].
Defined.


(** ** The command line *)

Lemma cli_parse (projectPath question : js_string) (rest : list js_string) :
  asks_usage (projectPath :: question :: rest) = false ->
  cli (projectPath :: question :: rest)
  = parse_options projectPath (Some question) rest (Options.mk None None).
Proof.
  unfold cli, asks_usage. cbn [List.length Nat.eqb orb nth nth_error skipn].
  intros ->. reflexivity.
Qed.

Lemma not_option_word (w : js_string) :
  arr_includes option_words w = false ->
  str_eqb w (js "--quick") = false /\ str_eqb w (js "--specialized") = false
  /\ str_eqb w (js "--template") = false /\ str_eqb w (js "--output") = false.
Proof.
  unfold arr_includes, option_words. cbn [map existsb]. intros H.
  repeat (apply orb_false_iff in H; destruct H as [? H]). auto.
Qed.

Lemma parse_options_words (projectPath : js_string) (question : option js_string)
    (options : Options.t) (args : list js_string) :
  (forall w, In w args -> arr_includes option_words w = false) ->
  parse_options projectPath question args options
  = call_analyzeAndGeneratePrompt projectPath question options.
Proof.
  induction args as [|arg rest IH]; intros Hwords; [reflexivity|].
  destruct (not_option_word arg (Hwords arg (or_introl eq_refl)))
    as (Hq & Hs & Ht & Ho).
  cbn [parse_options]. rewrite Hq, Hs, Ht, Ho. cbn [andb].
  apply IH. intros w Hw. apply Hwords. right. exact Hw.
Qed.

(** X12: the script reads options from the third argument on.  Whatever the
    second argument is, an option word included, it is the question; and
    when none of the arguments after it is an option word (and none of the
    arguments asks for the usage text), the script calls
    [analyzeAndGeneratePrompt] with the first argument as the project, the
    second as the question and no option set.  So [./my-project --quick]
    runs the whole generation with the question [--quick], and
    [./my-project --specialized feature "Add user authentication"] as
    well, with the question [--specialized]. *)
Theorem cli_second_argument (projectPath question : js_string) (rest : list js_string) :
  asks_usage (projectPath :: question :: rest) = false ->
  (forall w, In w rest -> arr_includes option_words w = false) ->
  cli (projectPath :: question :: rest)
  = call_analyzeAndGeneratePrompt projectPath (Some question) (Options.mk None None).
Proof.
  intros Husage Hwords. rewrite cli_parse by exact Husage.
  apply parse_options_words, Hwords.
Qed.

Lemma parse_options_quick (projectPath : js_string) (question : option js_string)
    (after : list js_string) :
  forall (before : list js_string) (options : Options.t),
    ~ In (js "--quick") before -> ~ In (js "--specialized") before ->
    parse_options projectPath question (before ++ js "--quick" :: after) options
    = call_quickAnalysis projectPath.
Proof.
  induction before as [|arg before IH]; intros options Hq Hs.
  - cbn [app parse_options]. rewrite str_eqb_refl. reflexivity.
  - cbn [app parse_options].
    assert (Eq : str_eqb arg (js "--quick") = false).
    { destruct (str_eqb arg (js "--quick")) eqn:E; [|reflexivity].
      apply str_eqb_eq in E. exfalso. apply Hq. left. exact E. }
    assert (Es : str_eqb arg (js "--specialized") = false).
    { destruct (str_eqb arg (js "--specialized")) eqn:E; [|reflexivity].
      apply str_eqb_eq in E. exfalso. apply Hs. left. exact E. }
    rewrite Eq, Es. cbn [andb].
    assert (Hq' : ~ In (js "--quick") before) by (intros H; apply Hq; right; exact H).
    assert (Hs' : ~ In (js "--specialized") before) by (intros H; apply Hs; right; exact H).
    repeat match goal with
           | |- (if ?c then _ else _) = _ => destruct c
           end; apply IH; assumption.
Qed.

(** X13: from the third argument on, the first [--quick] that no
    [--specialized] precedes decides: the script calls [quickAnalysis] on
    the project, and the question, the options set before ([--template],
    [--output]) and every argument after are dropped.  A [--quick] that
    follows [--template] or [--output] as its value decides as well. *)
Theorem cli_quick (projectPath question : js_string) (before after : list js_string) :
  asks_usage (projectPath :: question :: before ++ js "--quick" :: after) = false ->
  ~ In (js "--quick") before -> ~ In (js "--specialized") before ->
  cli (projectPath :: question :: before ++ js "--quick" :: after)
  = call_quickAnalysis projectPath.
Proof.
  intros Husage Hq Hs. rewrite cli_parse by exact Husage.
  apply parse_options_quick; assumption.
Qed.

(** The two command lines of the usage text that carry an option in second
    place. *)
Lemma cli_second_argument_witness :
  cli (map js ["./my-project"; "--quick"])
  = call_analyzeAndGeneratePrompt (js "./my-project") (Some (js "--quick"))
      (Options.mk None None)
  /\ cli (map js ["./my-project"; "--specialized"; "feature"; "Add user authentication"])
     = call_analyzeAndGeneratePrompt (js "./my-project") (Some (js "--specialized"))
         (Options.mk None None).
Proof.
  split.
  - apply (cli_second_argument (js "./my-project") (js "--quick") []).
    + vm_compute. reflexivity.
    + intros w [].
  - apply (cli_second_argument (js "./my-project") (js "--specialized")
             (map js ["feature"; "Add user authentication"])).
    + vm_compute. reflexivity.
    + intros w [<-|[<-|[]]]; vm_compute; reflexivity.
Defined.

Lemma cli_quick_witness :
  cli (map js ["./my-project"; "What is this?"; "--output"; "out"; "--template";
               "--quick"; "--specialized"; "feature"])
  = call_quickAnalysis (js "./my-project").
Proof.
  apply (cli_quick (js "./my-project") (js "What is this?")
           (map js ["--output"; "out"; "--template"])
           (map js ["--specialized"; "feature"])).
  - vm_compute. reflexivity.
  - simpl. intros [H|[H|[H|[]]]]; vm_compute in H; discriminate.
  - simpl. intros [H|[H|[H|[]]]]; vm_compute in H; discriminate.
Defined.

(** What the script does with the other command lines of the usage text,
    with options in third place, and with none. *)
Example cli_examples :
  cli (map js ["./my-react-app"; "Add a contact form"])
  = call_analyzeAndGeneratePrompt (js "./my-react-app") (Some (js "Add a contact form"))
      (Options.mk None None)
  /\ cli (map js ["./my-project"]) 
     = call_analyzeAndGeneratePrompt (js "./my-project") None (Options.mk None None)
  /\ cli (map js ["./my-project"; "x"; "--specialized"; "feature"; "Add login"])
     = call_generateSpecializedPrompt (js "./my-project") (js "feature") (js "Add login")
         (Options.mk None None)
  /\ cli (map js ["./my-project"; "x"; "--template"; "short"; "--output"; "out"])
     = call_analyzeAndGeneratePrompt (js "./my-project") (Some (js "x"))
         (Options.mk (Some (js "short")) (Some (js "out")))
  /\ cli (map js ["./my-project"; "x"; "--specialized"])
     = call_analyzeAndGeneratePrompt (js "./my-project") (Some (js "x"))
         (Options.mk None None)
  /\ cli (map js ["./my-project"; "How does -h work?"; "-h"]) = print_usage
  /\ cli [] = print_usage.
Proof. vm_compute. repeat split. Qed.

(** ** Template files *)

Section TemplateFilesProperties.

Variable path_basename_ext : js_string -> js_string -> js_string.

Abbreviation names := (template_names path_basename_ext).
Abbreviation load := (load_each path_basename_ext).

Lemma listTemplates_loop (files : list (js_string * fsnode)) :
  forall templates : list js_string,
    fold_left
      (fun templates file =>
         if endsWith (js ".md") (fst file)
         then templates ++ [path_basename_ext (fst file) (js ".md")]
         else templates)
      files templates
    = templates ++ names files.
Proof.
  unfold template_names.
  induction files as [|[file node] files IH]; intros templates; cbn [fold_left map filter fst].
  - symmetry. apply app_nil_r.
  - rewrite IH. destruct (endsWith (js ".md") file); [|reflexivity].
    rewrite <- app_assoc. reflexivity.
Qed.

Lemma listTemplates_names (files : list (js_string * fsnode)) :
  listTemplates path_basename_ext (Dir true files) = names files.
Proof. unfold listTemplates. cbn [readdirSync]. apply listTemplates_loop. Qed.

Lemma assoc_assign_same (name text : js_string) (templates : list (js_string * js_string)) :
  assoc_template name (assign_template name text templates) = Some text.
Proof.
  induction templates as [|[n t] rest IH]; simpl.
  - rewrite str_eqb_refl. reflexivity.
  - destruct (str_eqb name n) eqn:E; simpl; rewrite E; [reflexivity | exact IH].
Qed.

Lemma assoc_assign_other (name other text : js_string)
    (templates : list (js_string * js_string)) :
  name <> other ->
  assoc_template name (assign_template other text templates) = assoc_template name templates.
Proof.
  intros Hne.
  assert (E : str_eqb name other = false).
  { destruct (str_eqb name other) eqn:E; [|reflexivity].
    apply str_eqb_eq in E. contradiction. }
  induction templates as [|[n t] rest IH]; simpl.
  - rewrite E. reflexivity.
  - destruct (str_eqb other n) eqn:En; simpl.
    + apply str_eqb_eq in En. subst n. rewrite E. reflexivity.
    + destruct (str_eqb name n); [reflexivity | exact IH].
Qed.

Lemma assoc_set_other (name other text : js_string)
    (templates : list (js_string * js_string)) :
  name <> other ->
  assoc_template name (set_template other text templates) = assoc_template name templates.
Proof.
  intros Hne. unfold set_template.
  destruct (str_eqb other (js "__proto__")); [reflexivity|].
  apply assoc_assign_other, Hne.
Qed.

Lemma load_other (name : js_string) (files : list (js_string * fsnode)) :
  ~ In name (names files) ->
  forall templates, assoc_template name (load files templates) = assoc_template name templates.
Proof.
  unfold template_names.
  induction files as [|[file node] files IH]; intros Hname templates; [reflexivity|].
  cbn [load_each]. cbn [map filter fst] in Hname.
  destruct (endsWith (js ".md") file).
  - cbn [map] in Hname.
    destruct (readFileSync node) as [text|e]; [|reflexivity].
    rewrite IH by (intros H; apply Hname; right; exact H).
    apply assoc_set_other. intros Heq. apply Hname. left. symmetry. exact Heq.
  - apply IH, Hname.
Qed.

Lemma load_found (name text : js_string) (files : list (js_string * fsnode)) :
  forall templates,
    assoc_template name (load files templates) = Some text ->
    assoc_template name templates = Some text \/ In name (names files).
Proof.
  unfold template_names.
  induction files as [|[file node] files IH]; intros templates H; [left; exact H|].
  cbn [load_each] in H. cbn [map filter fst].
  destruct (endsWith (js ".md") file).
  - cbn [map].
    destruct (readFileSync node) as [t|e]; [|left; exact H].
    apply IH in H. destruct H as [H|H]; [|right; right; exact H].
    destruct (str_eqb name (path_basename_ext file (js ".md"))) eqn:E.
    + apply str_eqb_eq in E. right. left. symmetry. exact E.
    + rewrite assoc_set_other in H; [left; exact H|].
      intros Heq. rewrite Heq, str_eqb_refl in E. discriminate.
  - apply IH in H. exact H.
Qed.

(** X14: a template that [loadTemplates] has loaded is one that
    [listTemplates] lists: whatever is at the place of the templates
    directory, a name under which the generator holds a template is among
    the names the agent lists. *)
Theorem loadTemplates_listed (templatesDir : fsnode) (name text : js_string) :
  assoc_template name (loadTemplates path_basename_ext templatesDir) = Some text ->
  In name (listTemplates path_basename_ext templatesDir).
Proof.
  destruct templatesDir as [|content|[|] files]; try discriminate.
  rewrite listTemplates_names. unfold loadTemplates. cbn [readdirSync].
  intros H. apply load_found in H. destruct H as [H|H]; [discriminate | exact H].
Qed.

Lemma load_stops (file : js_string) (node : fsnode) (e : js_error)
    (after : list (js_string * fsnode)) :
  endsWith (js ".md") file = true -> readFileSync node = Throw e ->
  forall (before : list (js_string * fsnode)) (templates : list (js_string * js_string)),
    load (before ++ (file, node) :: after) templates = load before templates.
Proof.
  intros Hmd Hread. induction before as [|[f n] before IH]; intros templates.
  - cbn [app load_each]. rewrite Hmd, Hread. reflexivity.
  - cbn [app load_each]. destruct (endsWith (js ".md") f); [|apply IH].
    destruct (readFileSync n); [apply IH | reflexivity].
Qed.

(** X15: an entry of the templates directory that ends with [.md] and
    cannot be read as a file (a directory of that name, a file without read
    permission) ends the loading: the generator holds the templates of the
    entries listed before it and none of those listed after it, while
    [listTemplates] goes on listing them all. *)
Theorem loadTemplates_stops (file : js_string) (node : fsnode) (e : js_error)
    (before after : list (js_string * fsnode)) :
  endsWith (js ".md") file = true -> readFileSync node = Throw e ->
  loadTemplates path_basename_ext (Dir true (before ++ (file, node) :: after))
  = loadTemplates path_basename_ext (Dir true before)
  /\ listTemplates path_basename_ext (Dir true (before ++ (file, node) :: after))
     = listTemplates path_basename_ext (Dir true before)
       ++ path_basename_ext file (js ".md")
       :: listTemplates path_basename_ext (Dir true after).
Proof.
  intros Hmd Hread. split.
  - unfold loadTemplates. cbn [readdirSync]. apply (load_stops file node e after Hmd Hread).
  - rewrite !listTemplates_names. unfold template_names.
    rewrite map_app, filter_app, map_app. cbn [map filter fst]. rewrite Hmd. reflexivity.
Qed.

Lemma load_lookup (file text : js_string) (files : list (js_string * fsnode)) :
  (forall f n, In (f, n) files -> endsWith (js ".md") f = true ->
               exists t, readFileSync n = Normal t) ->
  NoDup (names files) ->
  In (file, File (Some text)) files -> endsWith (js ".md") file = true ->
  path_basename_ext file (js ".md") <> js "__proto__" ->
  forall templates,
    assoc_template (path_basename_ext file (js ".md")) (load files templates) = Some text.
Proof.
  intros Hread Hnd Hin Hmd Hproto.
  assert (Eproto : str_eqb (path_basename_ext file (js ".md")) (js "__proto__") = false).
  { destruct (str_eqb (path_basename_ext file (js ".md")) (js "__proto__")) eqn:E;
      [|reflexivity].
    apply str_eqb_eq in E. contradiction. }
  unfold template_names in *.
  induction files as [|[f n] files IH]; intros templates; [contradiction|].
  cbn [load_each]. cbn [map filter fst] in Hnd.
  assert (Hread' : forall f' n', In (f', n') files -> endsWith (js ".md") f' = true ->
                                 exists t, readFileSync n' = Normal t).
  { intros f' n' H. apply Hread. right. exact H. }
  destruct (endsWith (js ".md") f) eqn:Ef.
  - cbn [map] in Hnd. inversion Hnd as [|? ? Hfresh Hnd']; subst.
    destruct Hin as [Hhead|Hin].
    + inversion Hhead; subst f n. cbn [readFileSync].
      rewrite (load_other _ _ Hfresh). unfold set_template. rewrite Eproto.
      apply assoc_assign_same.
    + destruct (Hread f n (or_introl eq_refl) Ef) as [t Ht]. rewrite Ht.
      apply IH; assumption.
  - destruct Hin as [Hhead|Hin]; [inversion Hhead; subst; congruence|].
    apply IH; assumption.
Qed.

(** X16: when every entry of the templates directory that ends with [.md]
    can be read and the names [listTemplates] lists are all different, a
    template file is held by the generator under its listed name ([__proto__]
    left out), and [generatePrompt] with that name renders the text of the
    file, or the built-in template when the file is empty. *)
Theorem loadTemplates_lookup {rt : Runtime} (files : list (js_string * fsnode))
    (file text : js_string) (analysis : Analysis.t) (userQuestion : js_string) :
  (forall f n, In (f, n) files -> endsWith (js ".md") f = true ->
               exists t, readFileSync n = Normal t) ->
  NoDup (listTemplates path_basename_ext (Dir true files)) ->
  In (file, File (Some text)) files -> endsWith (js ".md") file = true ->
  path_basename_ext file (js ".md") <> js "__proto__" ->
  assoc_template (path_basename_ext file (js ".md"))
    (loadTemplates path_basename_ext (Dir true files)) = Some text
  /\ generatePrompt (new_PromptGenerator path_basename_ext (Dir true files))
       analysis userQuestion (path_basename_ext file (js ".md"))
     = Normal (populateTemplate (str_or text getDefaultTemplate) analysis userQuestion).
Proof.
  intros Hread Hnd Hin Hmd Hproto. rewrite listTemplates_names in Hnd.
  assert (H : assoc_template (path_basename_ext file (js ".md"))
                (loadTemplates path_basename_ext (Dir true files)) = Some text).
  { unfold loadTemplates. cbn [readdirSync]. apply load_lookup; assumption. }
  split; [exact H|].
  unfold generatePrompt, new_PromptGenerator. cbn [templates]. rewrite H. reflexivity.
Qed.

End TemplateFilesProperties.

Lemma loadTemplates_listed_witness :
  assoc_template (js "short") (loadTemplates entry_basename_ext templates_dir)
  = Some (js "{{projectName}}: {{totalFiles}} files")
  /\ In (js "short") (listTemplates entry_basename_ext templates_dir).
Proof.
  assert (H : assoc_template (js "short") (loadTemplates entry_basename_ext templates_dir)
              = Some (js "{{projectName}}: {{totalFiles}} files"))
    by (vm_compute; reflexivity).
  split; [exact H | exact (loadTemplates_listed entry_basename_ext templates_dir _ _ H)].
Defined.

Lemma loadTemplates_stops_witness :
  map fst (loadTemplates entry_basename_ext templates_dir) = map js ["default"; "short"]
  /\ listTemplates entry_basename_ext templates_dir
     = map js ["default"; "short"; "notes"; "zen"].
Proof.
  destruct (loadTemplates_stops entry_basename_ext (js "notes.md") (Dir true [])
              (SystemError (js "EISDIR"))
              [(js "README.txt", File (Some (js "Templates live here.")));
               (js "default.md", File (Some default_md));
               (js "short.md", File (Some (js "{{projectName}}: {{totalFiles}} files")))]
              [(js "zen.md", File (Some (js "{{technology.framework}}")))]
              eq_refl eq_refl) as [Hload Hlist].
  split.
  - etransitivity; [apply (f_equal (map fst)); exact Hload | vm_compute; reflexivity].
  - etransitivity; [exact Hlist | vm_compute; reflexivity].
Defined.

Lemma loadTemplates_lookup_witness :
  @generatePrompt plain_runtime
    (new_PromptGenerator entry_basename_ext
       (Dir true [(js "short.md", File (Some (js "{{projectName}}: {{totalFiles}} files")));
                  (js "empty.md", File (Some []))]))
    (empty_analysis (js "shop")) [] (js "short")
  = Normal (js "shop: 0 files").
Proof.
  destruct (@loadTemplates_lookup entry_basename_ext plain_runtime
              [(js "short.md", File (Some (js "{{projectName}}: {{totalFiles}} files")));
               (js "empty.md", File (Some []))]
              (js "short.md") (js "{{projectName}}: {{totalFiles}} files")
              (empty_analysis (js "shop")) []) as [_ H].
  - intros f n [H|[H|[]]]; inversion H; subst; intros _; eexists; reflexivity.
  - vm_compute. repeat constructor; simpl; intuition discriminate.
  - left. reflexivity.
  - vm_compute. reflexivity.
  - vm_compute. discriminate.
  - etransitivity; [exact H | vm_compute; reflexivity].
Defined.

(** ** Templates and placeholders *)

Lemma js_cons (c : ascii) (s : string) :
  (N_of_ascii c <? 128)%N = true -> js (String c s) = N_of_ascii c :: js s.
Proof.
  intros Hc. unfold js. cbn [list_ascii_of_string map utf8_decode]. rewrite Hc.
  cbn [flat_map]. unfold utf16_encode at 1.
  replace (N_of_ascii c <? 65536)%N with true; [reflexivity|].
  symmetry. apply N.ltb_lt. apply N.ltb_lt in Hc. lia.
Qed.

Lemma string_of_uint_digits (d : Decimal.uint) :
  forallb is_digit (js (NilEmpty.string_of_uint d)) = true.
Proof.
  induction d; cbn [NilEmpty.string_of_uint]; [reflexivity|..];
    rewrite js_cons by reflexivity; cbn [forallb]; rewrite IHd; reflexivity.
Qed.

Lemma ToString_nat_digits (n : nat) : forallb is_digit (ToString_nat n) = true.
Proof.
  unfold ToString_nat, NilZero.string_of_uint.
  destruct (Nat.to_uint n) as [|u|u|u|u|u|u|u|u|u|u]; [reflexivity|..].
  all: apply string_of_uint_digits.
Qed.

Lemma digits_free_of (h : code_unit) (s : js_string) :
  is_digit h = false -> forallb is_digit s = true -> free_of h s = true.
Proof.
  intros Hh Hs. unfold free_of. apply forallb_forall. intros c Hc.
  pose proof (proj1 (forallb_forall _ _) Hs c Hc) as Hd.
  destruct (unit_eqb h c) eqn:E; [|reflexivity].
  apply N.eqb_eq in E. subst c. congruence.
Qed.

Lemma ToString_nat_plain (n : nat) :
  free_of dollar (ToString_nat n) = true /\ free_of lbrace (ToString_nat n) = true.
Proof.
  split; apply digits_free_of; [reflexivity | apply ToString_nat_digits
                               | reflexivity | apply ToString_nat_digits].
Qed.

Lemma opens_head_lit (re : regex) : opens_placeholder re = true -> head_lit re = Some lbrace.
Proof.
  destruct re as [|[a|] [|[b|] re']]; try discriminate.
  simpl. intros H. apply andb_true_iff in H. destruct H as [Ha _].
  apply N.eqb_eq in Ha. subst a. reflexivity.
Qed.

Lemma opens_no_match (re : regex) (s : js_string) :
  opens_placeholder re = true -> includes (js "{{") s = false ->
  matches_somewhere re s = false.
Proof.
  destruct re as [|[a|] [|[b|] re']]; try discriminate.
  simpl opens_placeholder. intros H. apply andb_true_iff in H. destruct H as [Ha Hb].
  apply N.eqb_eq in Ha, Hb. subst a b.
  change (js "{{") with [lbrace; lbrace].
  induction s as [|c s IH]; intros Hs; [reflexivity|].
  cbn [includes] in Hs. apply orb_false_iff in Hs. destruct Hs as [Hhere Hrest].
  cbn [matches_somewhere]. rewrite (IH Hrest), orb_false_r.
  destruct s as [|d s]; cbn [match_here accepts startsWith] in *.
  - apply andb_false_r.
  - destruct (unit_eqb lbrace c); [|reflexivity].
    destruct (unit_eqb lbrace d); [discriminate | reflexivity].
Qed.

Lemma free_of_no_braces (s : js_string) :
  free_of lbrace s = true -> includes (js "{{") s = false.
Proof.
  change (js "{{") with [lbrace; lbrace].
  induction s as [|c s IH]; intros H; [reflexivity|].
  cbn [free_of forallb] in H. apply andb_true_iff in H. destruct H as [Hc Hs].
  cbn [includes startsWith]. apply negb_true_iff in Hc. rewrite Hc.
  apply IH, Hs.
Qed.

Lemma apply_step_idle (st : step) (s : js_string) :
  fst st <> [] -> matches_somewhere (fst st) s = false -> apply_step s st = s.
Proof. intros Hne H. unfold apply_step, replace. apply scan_no_match; assumption. Qed.

(** Patterns that open with two braces leave a text without two braces in a
    row as it is. *)
Lemma run_without_braces (steps : list step) (s : js_string) :
  Forall (fun st => opens_placeholder (fst st) = true) steps ->
  includes (js "{{") s = false -> run steps s = s.
Proof.
  intros Hopen Hs. induction Hopen as [|st rest Hst _ IH]; [reflexivity|].
  rewrite run_cons, apply_step_idle; [exact IH | |].
  - apply (head_lit_nonempty _ lbrace), opens_head_lit, Hst.
  - apply opens_no_match; assumption.
Qed.

Section PlaceholderProperties.

Context {rt : Runtime}.

Lemma technology_steps_open (technology : Technology.t) :
  Forall (fun st => opens_placeholder (fst st) = true) (technology_steps technology).
Proof. unfold technology_steps. repeat constructor. Qed.

Lemma structure_steps_open (structure : Structure.t) :
  Forall (fun st => opens_placeholder (fst st) = true) (structure_steps structure).
Proof. unfold structure_steps. repeat constructor. Qed.

Lemma fileTypes_steps_open (fileTypes : buckets Category.t) :
  Forall (fun st => opens_placeholder (fst st) = true) (fileTypes_steps fileTypes).
Proof. unfold fileTypes_steps, Category.keys. cbn [map]. repeat constructor. Qed.

Lemma importantFiles_steps_open (importantFiles : buckets Role.t) :
  Forall (fun st => opens_placeholder (fst st) = true) (importantFiles_steps importantFiles).
Proof. unfold importantFiles_steps, Role.keys. cbn [map]. repeat constructor. Qed.

Lemma dependencies_steps_open (dependencies : Dependencies.t) :
  Forall (fun st => opens_placeholder (fst st) = true) (dependencies_steps dependencies).
Proof. unfold dependencies_steps. repeat constructor. Qed.

Lemma section_steps_open {A} (steps_of : A -> list step) (section : option A) :
  (forall x, Forall (fun st => opens_placeholder (fst st) = true) (steps_of x)) ->
  Forall (fun st => opens_placeholder (fst st) = true) (section_steps steps_of section).
Proof. intros H. destruct section; [apply H | constructor]. Qed.

Lemma steps_rest_open (analysis : Analysis.t) :
  Forall (fun st => opens_placeholder (fst st) = true)
    (section_steps technology_steps (Analysis.technology analysis)
     ++ section_steps structure_steps (Analysis.structure analysis)
     ++ section_steps fileTypes_steps (Analysis.fileTypes analysis)
     ++ section_steps importantFiles_steps (Analysis.importantFiles analysis)
     ++ section_steps dependencies_steps (Analysis.dependencies analysis)).
Proof.
  apply Forall_app; split; [apply section_steps_open, technology_steps_open|].
  apply Forall_app; split; [apply section_steps_open, structure_steps_open|].
  apply Forall_app; split; [apply section_steps_open, fileTypes_steps_open|].
  apply Forall_app; split; [apply section_steps_open, importantFiles_steps_open|].
  apply section_steps_open, dependencies_steps_open.
Qed.

Lemma steps_open (analysis : Analysis.t) (userQuestion : js_string) :
  Forall (fun st => opens_placeholder (fst st) = true) (steps analysis userQuestion).
Proof.
  unfold steps. apply Forall_app. split; [repeat constructor | apply steps_rest_open].
Qed.

(** X17: a template in which no two opening braces follow each other has
    no placeholder, and [populateTemplate] returns it as it is, whatever the
    analysis and the question are. *)
Theorem populateTemplate_without_braces (template : js_string) (analysis : Analysis.t)
    (userQuestion : js_string) :
  includes (js "{{") template = false ->
  populateTemplate template analysis userQuestion = template.
Proof.
  intros H. rewrite populateTemplate_steps.
  apply run_without_braces; [apply steps_open | exact H].
Qed.

End PlaceholderProperties.

Lemma populateTemplate_without_braces_witness :
  includes (js "{{") (js "Review {this} project: $& {x}{") = false
  /\ exists a,
       @analyzeCodebase shop_runtime (js "/work/shop-frontend") shop = Normal a
       /\ @populateTemplate shop_runtime (js "Review {this} project: $& {x}{") a
            (js "Add a wishlist")
          = js "Review {this} project: $& {x}{".
Proof.
  split; [vm_compute; reflexivity|].
  eexists. split; [vm_compute; reflexivity|].
  apply (@populateTemplate_without_braces shop_runtime). vm_compute. reflexivity.
Defined.

(** ** What the first three replacements do to the built-in template *)

Lemma run_nil (s : js_string) : run [] s = s.
Proof. reflexivity. Qed.

Lemma matches_free (re : regex) (h : code_unit) (a : js_string) :
  head_lit re = Some h -> free_of h a = true -> matches_somewhere re a = false.
Proof.
  intros Hh. destruct re as [|[h'|] re']; try discriminate. inversion Hh; subst h'.
  induction a as [|x a IH]; intros Ha; [reflexivity|].
  cbn [free_of forallb] in Ha. apply andb_true_iff in Ha. destruct Ha as [Hx Ha].
  cbn [matches_somewhere match_here accepts]. apply negb_true_iff in Hx. rewrite Hx.
  apply IH, Ha.
Qed.

(** A match lies within a line. *)
Lemma matches_line (re : regex) (e s : js_string) :
  re <> [] -> refuses re newline = true ->
  matches_somewhere re (e ++ newline :: s)
  = matches_somewhere re e || matches_somewhere re s.
Proof.
  intros Hne Hnl.
  assert (Hend : match_here re [] = false) by (destruct re; [contradiction | reflexivity]).
  induction e as [|x e IH].
  - cbn [app matches_somewhere]. rewrite Hend. cbn [orb].
    destruct (match_here re (newline :: s)) eqn:E; [|reflexivity].
    apply (match_here_refused re [] s newline Hnl) in E. simpl in E.
    destruct re; [contradiction | simpl in E; lia].
  - cbn [app matches_somewhere]. rewrite IH, orb_assoc. f_equal. f_equal.
    change (x :: e ++ newline :: s) with ((x :: e) ++ newline :: s).
    destruct (le_lt_dec (List.length re) (List.length (x :: e))) as [Hle|Hlt].
    + apply match_here_within, Hle.
    + destruct (match_here re ((x :: e) ++ newline :: s)) eqn:E1.
      * apply (match_here_refused re (x :: e) s newline Hnl) in E1. lia.
      * destruct (match_here re (x :: e)) eqn:E2; [|reflexivity].
        apply match_here_length in E2. lia.
Qed.

Lemma apply_step_line (st : step) (a b : js_string) :
  head_lit (fst st) = Some lbrace -> refuses (fst st) newline = true ->
  free_of dollar (snd st) = true \/ matches_somewhere (fst st) b = false ->
  free_of lbrace a = true ->
  apply_step (a ++ newline :: b) st = a ++ newline :: apply_step b st.
Proof.
  intros Hlit Hnl Htail Ha.
  exact (run_exact [st] b (conj Hlit (conj Hnl (conj Htail I))) a Ha).
Qed.

Lemma matches_placeholder_line (re : regex) (a p tail : js_string) :
  head_lit re = Some lbrace -> refuses re newline = true ->
  matches_somewhere re (a ++ p) = false -> matches_somewhere re tail = false ->
  matches_somewhere re (a ++ p ++ newline :: tail) = false.
Proof.
  intros Hlit Hnl Hap Htail. rewrite app_assoc, matches_line, Hap, Htail;
    [reflexivity | apply (head_lit_nonempty _ _ Hlit) | exact Hnl].
Qed.

(** The first three replacements on a template that starts as the built-in
    one, when the question has no placeholder of its own after the second
    line: the name and the number are filled in and the question is not. *)
Lemma first_replacements (shown digits userQuestion tail : js_string) :
  free_of dollar shown = true -> free_of lbrace shown = true ->
  free_of dollar digits = true -> free_of lbrace digits = true ->
  matches_somewhere (escaped "{{projectName}}") tail = false ->
  matches_somewhere (escaped "{{totalFiles}}") tail = false ->
  matches_somewhere (escaped "{{userQuestion}}") tail = false ->
  run [(escaped "{{projectName}}", shown); (escaped "{{totalFiles}}", digits);
       (escaped "{{userQuestion}}", userQuestion)]
    (prompt_head ++ js "{{projectName}}" ++ newline
       :: total_line ++ js "{{totalFiles}}" ++ newline :: tail)
  = prompt_head ++ shown ++ newline :: total_line ++ digits ++ newline :: tail.
Proof.
  intros Hsd Hsb Hdd Hdb H1 H2 H3.
  set (st1 := (escaped "{{projectName}}", shown)).
  set (st2 := (escaped "{{totalFiles}}", digits)).
  set (st3 := (escaped "{{userQuestion}}", userQuestion)).
  assert (Hh : free_of lbrace prompt_head = true) by (vm_compute; reflexivity).
  assert (Ht : free_of lbrace total_line = true) by (vm_compute; reflexivity).
  assert (L1 : head_lit (fst st1) = Some lbrace) by reflexivity.
  assert (L2 : head_lit (fst st2) = Some lbrace) by reflexivity.
  assert (L3 : head_lit (fst st3) = Some lbrace) by reflexivity.
  assert (N1 : refuses (fst st1) newline = true) by (vm_compute; reflexivity).
  assert (N2 : refuses (fst st2) newline = true) by (vm_compute; reflexivity).
  assert (N3 : refuses (fst st3) newline = true) by (vm_compute; reflexivity).
  rewrite !run_cons, run_nil.
  (* the project name *)
  rewrite (replace_placeholder st1 prompt_head (js "{{projectName}}")
             (total_line ++ js "{{totalFiles}}" ++ newline :: tail) L1 N1 Hh)
    by (first [exact Hsd | vm_compute; reflexivity]).
  rewrite (apply_step_idle st1 (total_line ++ js "{{totalFiles}}" ++ newline :: tail))
    by (first [apply (head_lit_nonempty _ _ L1)
              |apply matches_placeholder_line;
               [exact L1 | exact N1 | vm_compute; reflexivity | exact H1]]).
  cbn [snd st1].
  (* the number of files *)
  rewrite (app_assoc prompt_head shown).
  rewrite (apply_step_line st2 (prompt_head ++ shown)) by
    (first [exact L2 | exact N2 | left; exact Hdd
           |rewrite free_of_app, Hh, Hsb; reflexivity]).
  rewrite (replace_placeholder st2 total_line (js "{{totalFiles}}") tail L2 N2 Ht)
    by (first [exact Hdd | vm_compute; reflexivity]).
  rewrite (apply_step_idle st2 tail) by
    (first [apply (head_lit_nonempty _ _ L2) | exact H2]).
  cbn [snd st2].
  (* the question *)
  rewrite apply_step_idle; [rewrite <- app_assoc; reflexivity
                           |apply (head_lit_nonempty _ _ L3)|].
  rewrite matches_line by (first [apply (head_lit_nonempty _ _ L3) | exact N3]).
  rewrite (matches_free _ lbrace (prompt_head ++ shown) L3)
    by (rewrite free_of_app, Hh, Hsb; reflexivity).
  cbn [orb]. rewrite app_assoc.
  rewrite matches_line by (first [apply (head_lit_nonempty _ _ L3) | exact N3]).
  rewrite (matches_free _ lbrace (total_line ++ digits) L3)
    by (rewrite free_of_app, Ht, Hdb; reflexivity).
  exact H3.
Qed.

Section QuestionProperties.

Context {rt : Runtime}.

Lemma question_dropped (template tail : js_string) (analysis : Analysis.t)
    (userQuestion : js_string) :
  template = prompt_head ++ js "{{projectName}}" ++ newline
               :: total_line ++ js "{{totalFiles}}" ++ newline :: tail ->
  matches_somewhere (escaped "{{projectName}}") tail = false ->
  matches_somewhere (escaped "{{totalFiles}}") tail = false ->
  matches_somewhere (escaped "{{userQuestion}}") tail = false ->
  plain (Analysis.projectName analysis) = true ->
  populateTemplate template analysis userQuestion
  = run (section_steps technology_steps (Analysis.technology analysis)
         ++ section_steps structure_steps (Analysis.structure analysis)
         ++ section_steps fileTypes_steps (Analysis.fileTypes analysis)
         ++ section_steps importantFiles_steps (Analysis.importantFiles analysis)
         ++ section_steps dependencies_steps (Analysis.dependencies analysis))
      (prompt_head ++ str_or (Analysis.projectName analysis) (js "Unknown") ++ newline
         :: total_line ++ ToString_nat (Analysis.totalFiles analysis) ++ newline :: tail).
Proof.
  intros -> H1 H2 H3 Hplain. rewrite populateTemplate_steps. unfold steps.
  rewrite run_app.
  destruct (plain_str_or _ Hplain) as [Hsd Hsb].
  destruct (ToString_nat_plain (Analysis.totalFiles analysis)) as [Hdd Hdb].
  rewrite first_replacements by assumption. reflexivity.
Qed.

(** X18: with the built-in template, and with the template of
    [src/templates/default.md], the prompt does not depend on the question:
    for every analysis whose project name has no dollar sign and no opening
    brace, any two questions give the same prompt.  (The placeholder of
    these templates is [{{userQuestion || '...'}}], which the pattern of the
    question does not match.) *)
Theorem default_templates_drop_question (analysis : Analysis.t)
    (question1 question2 : js_string) :
  plain (Analysis.projectName analysis) = true ->
  populateTemplate getDefaultTemplate analysis question1
  = populateTemplate getDefaultTemplate analysis question2
  /\ populateTemplate default_md analysis question1
     = populateTemplate default_md analysis question2.
Proof.
  intros Hplain.
  assert (Hb : getDefaultTemplate
               = prompt_head ++ js "{{projectName}}" ++ newline
                   :: total_line ++ js "{{totalFiles}}" ++ newline
                   :: after_total getDefaultTemplate) by (vm_compute; reflexivity).
  assert (Hm : default_md
               = prompt_head ++ js "{{projectName}}" ++ newline
                   :: total_line ++ js "{{totalFiles}}" ++ newline
                   :: after_total default_md) by (vm_compute; reflexivity).
  split.
  - rewrite (question_dropped getDefaultTemplate (after_total getDefaultTemplate)
               analysis question1 Hb)
      by (first [exact Hplain | vm_compute; reflexivity]).
    rewrite (question_dropped getDefaultTemplate (after_total getDefaultTemplate)
               analysis question2 Hb)
      by (first [exact Hplain | vm_compute; reflexivity]).
    reflexivity.
  - rewrite (question_dropped default_md (after_total default_md)
               analysis question1 Hm)
      by (first [exact Hplain | vm_compute; reflexivity]).
    rewrite (question_dropped default_md (after_total default_md)
               analysis question2 Hm)
      by (first [exact Hplain | vm_compute; reflexivity]).
    reflexivity.
Qed.

End QuestionProperties.

Lemma default_templates_drop_question_witness :
  exists a,
    @analyzeCodebase shop_runtime (js "/work/shop-frontend") shop = Normal a
    /\ plain (Analysis.projectName a) = true
    /\ @populateTemplate shop_runtime default_md a (js "Add a wishlist")
       = @populateTemplate shop_runtime default_md a []
    /\ includes (js "wishlist") (@populateTemplate shop_runtime default_md a
                                   (js "Add a wishlist")) = false.
Proof.
  eexists. split; [vm_compute; reflexivity|].
  split; [vm_compute; reflexivity|].
  split; [|vm_compute; reflexivity].
  apply (@default_templates_drop_question shop_runtime). vm_compute. reflexivity.
Defined.

(** ** A template that is one placeholder *)

Lemma match_here_somewhere (re : regex) (s : js_string) :
  match_here re s = true -> matches_somewhere re s = true.
Proof. intros H. destruct s; cbn [matches_somewhere]; rewrite H; reflexivity. Qed.

(** A pattern that matches the whole text turns it into the replacement. *)
Lemma replace_whole (st : step) (p : js_string) :
  fst st <> [] -> match_here (fst st) p = true ->
  List.length p = List.length (fst st) -> free_of dollar (snd st) = true ->
  apply_step p st = snd st.
Proof.
  intros Hne Hp Hlen Hplain. unfold apply_step, replace.
  destruct p as [|c p]; [destruct (fst st); [contradiction | discriminate]|].
  rewrite scan_match_here by assumption.
  rewrite GetSubstitution_plain by exact Hplain.
  replace (List.length (fst st) - 1) with (List.length p) by (simpl in Hlen; lia).
  pose proof (scan_skip (fst st) (snd st) p [] [c]) as Hskip.
  rewrite app_nil_r in Hskip. rewrite Hskip, scan_end by exact Hne.
  apply app_nil_r.
Qed.

(** The replacements on a text that one of them matches as a whole, the
    others not matching in it or giving the same text. *)
Lemma run_single (p text : js_string) (steps : list step) :
  free_of lbrace text = true -> free_of dollar text = true ->
  Forall (fun st => opens_placeholder (fst st) = true) steps ->
  Forall (fun st => matches_somewhere (fst st) p = false
                    \/ (match_here (fst st) p = true
                        /\ List.length p = List.length (fst st) /\ snd st = text)) steps ->
  Exists (fun st => match_here (fst st) p = true) steps ->
  run steps p = text.
Proof.
  intros Hb Hd Hopen. induction Hopen as [|st rest Hst Hrest IH]; intros Hcond Hex.
  - inversion Hex.
  - inversion Hcond as [|? ? Hhere Hcond']; subst.
    assert (Hne : fst st <> [])
      by (apply (head_lit_nonempty _ lbrace), opens_head_lit, Hst).
    rewrite run_cons. destruct Hhere as [Hnone|(Hp & Hlen & Htext)].
    + rewrite apply_step_idle by assumption. apply IH; [exact Hcond'|].
      inversion Hex as [? ? Hp|? ? Hex']; subst; [|exact Hex'].
      apply match_here_somewhere in Hp. congruence.
    + rewrite replace_whole by (first [assumption | rewrite Htext; exact Hd]).
      rewrite Htext. apply run_without_braces; [exact Hrest|].
      apply free_of_no_braces, Hb.
Qed.

Lemma plain_join (names : list js_string) :
  forallb plain names = true -> plain (join (js ", ") names) = true.
Proof.
  assert (Happ : forall a b, plain a = true -> plain b = true -> plain (a ++ b) = true).
  { unfold plain. intros a b Ha Hb. apply andb_true_iff in Ha, Hb.
    destruct Ha as [Ha1 Ha2], Hb as [Hb1 Hb2].
    rewrite !free_of_app, Ha1, Ha2, Hb1, Hb2. reflexivity. }
  induction names as [|x names IH]; intros H; [reflexivity|].
  cbn [forallb] in H. apply andb_true_iff in H. destruct H as [Hx Hrest].
  destruct names as [|y names]; [exact Hx|].
  change (join (js ", ") (x :: y :: names))
    with (x ++ js ", " ++ join (js ", ") (y :: names)).
  apply Happ; [exact Hx|]. apply Happ; [reflexivity | apply IH, Hrest].
Qed.

Ltac idle_steps :=
  repeat (constructor; [cbn [fst snd]; left; vm_compute; reflexivity|]);
  constructor.

Ltac single_steps :=
  repeat (constructor;
          [cbn [fst snd];
           first [left; vm_compute; reflexivity
                 |right; split; [vm_compute; reflexivity
                                |split; [vm_compute; reflexivity | reflexivity]]]|]);
  constructor.

Section SinglePlaceholder.

Context {rt : Runtime}.

(** X19: a template that is the placeholder of a role,
    [{{importantFiles.components}}] and the like, is rendered as the base
    names of the files of the role, joined by a comma and a blank, all of
    them, and as [None found] when the role has no file; this when no base
    name has a dollar sign or an opening brace in it. *)
Theorem role_placeholder (analysis : Analysis.t) (importantFiles : buckets Role.t)
    (userQuestion : js_string) (role : Role.t) :
  Analysis.importantFiles analysis = Some importantFiles ->
  forallb plain (map path_basename (importantFiles role)) = true ->
  populateTemplate (js "{{importantFiles." ++ Role.name role ++ js "}}")
    analysis userQuestion
  = str_or (join (js ", ") (map path_basename (importantFiles role))) (js "None found").
Proof.
  intros Himp Hnames. rewrite populateTemplate_steps.
  set (text := str_or (join (js ", ") (map path_basename (importantFiles role)))
                 (js "None found")).
  assert (Hplain : plain text = true).
  { unfold text. pose proof (plain_join _ Hnames) as H.
    destruct (join (js ", ") (map path_basename (importantFiles role)));
      [reflexivity | exact H]. }
  unfold plain in Hplain. apply andb_true_iff in Hplain. destruct Hplain as [Hd Hb].
  apply (run_single _ text); [exact Hb | exact Hd | apply steps_open | |].
  - unfold steps. rewrite Himp. cbn [section_steps].
    apply Forall_app. split; [destruct role; idle_steps|].
    apply Forall_app. split.
    { destruct (Analysis.technology analysis); cbn [section_steps]; [|constructor].
      unfold technology_steps. destruct role; idle_steps. }
    apply Forall_app. split.
    { destruct (Analysis.structure analysis); cbn [section_steps]; [|constructor].
      unfold structure_steps. destruct role; idle_steps. }
    apply Forall_app. split.
    { destruct (Analysis.fileTypes analysis); cbn [section_steps]; [|constructor].
      unfold fileTypes_steps, Category.keys. cbn [map]. destruct role; idle_steps. }
    apply Forall_app. split.
    { unfold importantFiles_steps, Role.keys. cbn [map]. unfold text.
      destruct role; single_steps. }
    destruct (Analysis.dependencies analysis); cbn [section_steps]; [|constructor].
    unfold dependencies_steps. destruct role; idle_steps.
  - apply Exists_exists.
    exists (RegExp (js "{{importantFiles." ++ Role.name role ++ js "}}"), text).
    split; [|cbn [fst]; destruct role; vm_compute; reflexivity].
    unfold steps. rewrite Himp. cbn [section_steps].
    apply in_or_app. right. apply in_or_app. right. apply in_or_app. right.
    apply in_or_app. right. apply in_or_app. left.
    refine (in_map (fun category =>
                      (RegExp (js "{{importantFiles." ++ Role.name category ++ js "}}"),
                       str_or (join (js ", ") (map path_basename (importantFiles category)))
                         (js "None found")))
              Role.keys role _).
    destruct role; cbn; auto 10.
Qed.

(** X20: a template that is the placeholder of a count,
    [{{fileTypes.react.length}}] and the like, for any of the twelve
    buckets, is rendered as the number of files of the bucket, in decimal
    digits. *)
Theorem count_placeholder (analysis : Analysis.t) (fileTypes : buckets Category.t)
    (userQuestion : js_string) (type : Category.t) :
  Analysis.fileTypes analysis = Some fileTypes ->
  populateTemplate (js "{{fileTypes." ++ Category.name type ++ js ".length}}")
    analysis userQuestion
  = ToString_nat (List.length (fileTypes type)).
Proof.
  intros Hft. rewrite populateTemplate_steps.
  set (text := ToString_nat (List.length (fileTypes type))).
  destruct (ToString_nat_plain (List.length (fileTypes type))) as [Hd Hb].
  apply (run_single _ text); [exact Hb | exact Hd | apply steps_open | |].
  - unfold steps. rewrite Hft. cbn [section_steps].
    apply Forall_app. split; [destruct type; idle_steps|].
    apply Forall_app. split.
    { destruct (Analysis.technology analysis); cbn [section_steps]; [|constructor].
      unfold technology_steps. destruct type; idle_steps. }
    apply Forall_app. split.
    { destruct (Analysis.structure analysis); cbn [section_steps]; [|constructor].
      unfold structure_steps. destruct type; idle_steps. }
    apply Forall_app. split.
    { unfold fileTypes_steps, Category.keys. cbn [map]. unfold text.
      destruct type; single_steps. }
    apply Forall_app. split.
    { destruct (Analysis.importantFiles analysis); cbn [section_steps]; [|constructor].
      unfold importantFiles_steps, Role.keys. cbn [map]. destruct type; idle_steps. }
    destruct (Analysis.dependencies analysis); cbn [section_steps]; [|constructor].
    unfold dependencies_steps. destruct type; idle_steps.
  - apply Exists_exists.
    exists (RegExp (js "{{fileTypes." ++ Category.name type ++ js ".length}}"), text).
    split; [|cbn [fst]; destruct type; vm_compute; reflexivity].
    unfold steps. rewrite Hft. cbn [section_steps].
    apply in_or_app. right. apply in_or_app. right. apply in_or_app. right.
    apply in_or_app. left.
    refine (in_map (fun type =>
                      (RegExp (js "{{fileTypes." ++ Category.name type ++ js ".length}}"),
                       ToString_nat (List.length (fileTypes type))))
              Category.keys type _).
    destruct type; cbn; auto 15.
Qed.

End SinglePlaceholder.

Lemma role_placeholder_witness :
  exists a imp,
    @analyzeCodebase shop_runtime (js "/work/shop-frontend") shop = Normal a
    /\ Analysis.importantFiles a = Some imp
    /\ forallb plain (map posix_basename (imp Role.styles)) = true
    /\ @populateTemplate shop_runtime
         (js "{{importantFiles." ++ Role.name Role.styles ++ js "}}") a []
       = js "index.css"
    /\ @populateTemplate shop_runtime
         (js "{{importantFiles." ++ Role.name Role.api ++ js "}}") a []
       = js "None found".
Proof.
  do 2 eexists. split; [vm_compute; reflexivity|]. split; [reflexivity|].
  split; [vm_compute; reflexivity|]. split.
  - etransitivity;
      [apply (@role_placeholder shop_runtime); [reflexivity | vm_compute; reflexivity]
      |vm_compute; reflexivity].
  - etransitivity;
      [apply (@role_placeholder shop_runtime); [reflexivity | vm_compute; reflexivity]
      |vm_compute; reflexivity].
Defined.

Lemma count_placeholder_witness :
  exists a ft,
    @analyzeCodebase shop_runtime (js "/work/shop-frontend") shop = Normal a
    /\ Analysis.fileTypes a = Some ft
    /\ @populateTemplate shop_runtime
         (js "{{fileTypes." ++ Category.name Category.react ++ js ".length}}") a []
       = js "3"
    /\ @populateTemplate shop_runtime
         (js "{{fileTypes." ++ Category.name Category.other ++ js ".length}}") a []
       = js "0".
Proof.
  do 2 eexists. split; [vm_compute; reflexivity|]. split; [reflexivity|]. split.
  - etransitivity;
      [apply (@count_placeholder shop_runtime); reflexivity | vm_compute; reflexivity].
  - etransitivity;
      [apply (@count_placeholder shop_runtime); reflexivity | vm_compute; reflexivity].
Defined.

(** ** The configuration and the saving of the prompt *)

Section SavingProperties.

Context {rt : Runtime}.

Variable dir_exists : js_string -> bool.
Variable mkdirSync : js_string -> completion unit.
Variable writeFileSync : js_string -> js_string -> completion unit.




End SavingProperties.


Example savePrompt_examples :
  @savePrompt plain_runtime (fun _ => false) (fun _ => Normal tt) (fun _ _ => Normal tt)
    1700000000000 (js "prompt") VUndefined
  = Normal (Some (js "output/ai-prompt-1700000000000.md"))
  /\ @savePrompt plain_runtime (fun _ => false) (fun _ => Throw (SystemError (js "EACCES")))
       (fun _ _ => Normal tt) 1700000000000 (js "prompt") (VStr (js "/root/out"))
     = Normal None
  /\ @savePrompt plain_runtime (fun _ => true) (fun _ => Normal tt) (fun _ _ => Normal tt)
       1700000000000 (js "prompt") (VNum 7)
     = Throw TypeError.
Proof. vm_compute. repeat split. Qed.

(** ** Lines of a template *)

Lemma startsWith_app (p b : js_string) : startsWith p (p ++ b) = true.
Proof.
  induction p as [|x p IH]; [reflexivity|].
  cbn [app startsWith]. unfold unit_eqb. rewrite N.eqb_refl. exact IH.
Qed.

Lemma startsWith_split (p s : js_string) :
  startsWith p s = true -> exists b, s = p ++ b.
Proof.
  revert s. induction p as [|x p IH]; intros s H; [exists s; reflexivity|].
  destruct s as [|y s]; [discriminate|]. cbn [startsWith] in H.
  apply andb_true_iff in H. destruct H as [Hx Hp]. apply N.eqb_eq in Hx. subst y.
  destruct (IH s Hp) as [b ->]. exists b. reflexivity.
Qed.

Lemma includes_app (p a b : js_string) : includes p (a ++ p ++ b) = true.
Proof.
  induction a as [|x a IH].
  - cbn [app]. destruct (p ++ b) eqn:E; cbn [includes]; rewrite <- E, startsWith_app;
      reflexivity.
  - cbn [app includes]. rewrite IH. apply orb_true_r.
Qed.

Lemma includes_split (p s : js_string) :
  includes p s = true -> exists a b, s = a ++ p ++ b.
Proof.
  induction s as [|x s IH]; cbn [includes]; intros H.
  - rewrite orb_false_r in H. apply startsWith_split in H. destruct H as [b Hb].
    exists [], b. exact Hb.
  - apply orb_true_iff in H. destruct H as [H|H].
    + apply startsWith_split in H. destruct H as [b Hb]. exists [], b. exact Hb.
    + destruct (IH H) as (a & b & ->). exists (x :: a), b. reflexivity.
Qed.

Lemma framed_split (line s : js_string) :
  includes (framed line) s = true -> exists a b, s = a ++ newline :: line ++ newline :: b.
Proof.
  intros H. apply includes_split in H. destruct H as (a & b & ->).
  exists a, b. unfold framed. cbn [app]. rewrite <- app_assoc. reflexivity.
Qed.

Lemma framed_includes (line a b : js_string) :
  includes (framed line) (a ++ newline :: line ++ newline :: b) = true.
Proof.
  replace (a ++ newline :: line ++ newline :: b) with (a ++ framed line ++ b).
  - apply includes_app.
  - unfold framed. cbn [app]. rewrite <- app_assoc. reflexivity.
Qed.

(** A replacement leaves a line in which its pattern does not match as it
    is. *)
Lemma step_spares_line (st : step) (line : js_string) :
  fst st <> [] -> refuses (fst st) newline = true ->
  matches_somewhere (fst st) line = false ->
  forall a b, exists a' b',
    apply_step (a ++ newline :: line ++ newline :: b) st
    = a' ++ newline :: line ++ newline :: b'.
Proof.
  intros Hne Hnl Hline a b. unfold apply_step, replace.
  destruct (scan_segment (fst st) (snd st) Hne newline (line ++ newline :: b) Hnl a 0 []
              (Nat.le_0_l _)) as [a' Ha'].
  rewrite Ha'. rewrite (scan_protected (fst st) (snd st) Hne newline b Hnl line _ Hline).
  eexists. eexists. reflexivity.
Qed.

Lemma run_spares_line (line : js_string) (steps : list step) :
  Forall (fun st => fst st <> [] /\ refuses (fst st) newline = true
                    /\ matches_somewhere (fst st) line = false) steps ->
  forall a b, exists a' b',
    run steps (a ++ newline :: line ++ newline :: b)
    = a' ++ newline :: line ++ newline :: b'.
Proof.
  induction 1 as [|st rest (Hne & Hnl & Hline) _ IH]; intros a b.
  - exists a, b. reflexivity.
  - rewrite run_cons.
    destruct (step_spares_line st line Hne Hnl Hline a b) as (a1 & b1 & ->).
    apply IH.
Qed.

Lemma forall_fst (P : regex -> Prop) (l1 l2 : list step) :
  map fst l1 = map fst l2 -> Forall P (map fst l2) -> Forall (fun st => P (fst st)) l1.
Proof. intros <- H. exact (proj1 (Forall_map fst P l1) H). Qed.

Lemma technology_patterns (technology : Technology.t) :
  map fst (technology_steps technology) = map fst (technology_steps empty_technology).
Proof. unfold technology_steps. cbn [map fst]. reflexivity. Qed.

Lemma structure_patterns (structure : Structure.t) :
  map fst (structure_steps structure) = map fst (structure_steps empty_structure).
Proof. unfold structure_steps. cbn [map fst]. reflexivity. Qed.

Lemma fileTypes_patterns (fileTypes : buckets Category.t) :
  map fst (fileTypes_steps fileTypes) = map fst (fileTypes_steps no_buckets).
Proof. unfold fileTypes_steps, Category.keys. cbn [map fst]. reflexivity. Qed.

Lemma dependencies_patterns (dependencies : Dependencies.t) :
  map fst (dependencies_steps dependencies) = map fst (dependencies_steps no_dependencies).
Proof. unfold dependencies_steps. cbn [map fst]. reflexivity. Qed.

Section LineProperties.

Context {rt : Runtime}.

(** What holds of every pattern holds of the pattern of every replacement. *)
Lemma steps_patterns (P : regex -> Prop) :
  Forall P renderer_patterns ->
  forall analysis userQuestion,
    Forall (fun st => P (fst st)) (steps analysis userQuestion).
Proof.
  unfold renderer_patterns. intros H analysis userQuestion.
  apply Forall_app in H. destruct H as [H0 H].
  apply Forall_app in H. destruct H as [H1 H].
  apply Forall_app in H. destruct H as [H2 H].
  apply Forall_app in H. destruct H as [H3 H].
  apply Forall_app in H. destruct H as [H4 H5].
  unfold steps.
  apply Forall_app. split.
  { inversion H0 as [|? ? Ha H0']; subst. inversion H0' as [|? ? Hb H0'']; subst.
    inversion H0'' as [|? ? Hc _]; subst. repeat constructor; assumption. }
  apply Forall_app. split.
  { destruct (Analysis.technology analysis) as [t|]; [|constructor].
    exact (forall_fst P _ _ (technology_patterns t) H1). }
  apply Forall_app. split.
  { destruct (Analysis.structure analysis) as [s|]; [|constructor].
    exact (forall_fst P _ _ (structure_patterns s) H2). }
  apply Forall_app. split.
  { destruct (Analysis.fileTypes analysis) as [ft|]; [|constructor].
    exact (forall_fst P _ _ (fileTypes_patterns ft) H3). }
  apply Forall_app. split.
  { destruct (Analysis.importantFiles analysis) as [imp|]; [|constructor].
    cbn [section_steps]. unfold importantFiles_steps.
    apply (proj2 (Forall_map _ (fun st => P (fst st)) Role.keys)).
    exact (proj1 (Forall_map _ P Role.keys) H4). }
  destruct (Analysis.dependencies analysis) as [d|]; [|constructor].
  exact (forall_fst P _ _ (dependencies_patterns d) H5).
Qed.

Lemma spared_line_kept (line template : js_string) (analysis : Analysis.t)
    (userQuestion : js_string) :
  spared line = true -> includes (framed line) template = true ->
  includes (framed line) (populateTemplate template analysis userQuestion) = true.
Proof.
  intros Hspared Hline. rewrite populateTemplate_steps.
  apply framed_split in Hline. destruct Hline as (a & b & ->).
  destruct (run_spares_line line (steps analysis userQuestion)) with (a := a) (b := b)
    as (a' & b' & ->); [|apply framed_includes].
  apply (steps_patterns (fun re => re <> [] /\ refuses re newline = true
                                   /\ matches_somewhere re line = false)).
  unfold spared in Hspared.
  apply Forall_forall. intros re Hre.
  pose proof (proj1 (forallb_forall _ _) Hspared re Hre) as H.
  apply andb_true_iff in H. destruct H as [H Hm].
  apply andb_true_iff in H. destruct H as [Hne Hnl].
  split; [destruct re; [discriminate | intros E; discriminate]|].
  split; [exact Hnl | apply negb_true_iff, Hm].
Qed.

(** X22: the lines of the built-in template, and of [default.md], whose
    placeholder is an expression (the four flags of the technology, the five
    of the structure, the five roles, the two lists of dependencies and the
    question) stand in every prompt made from these templates as they stand
    in the template, whatever the analysis and the question are. *)
Theorem expression_lines_kept (analysis : Analysis.t) (userQuestion line : js_string) :
  In line expression_lines ->
  includes (framed line) (populateTemplate getDefaultTemplate analysis userQuestion) = true
  /\ includes (framed line) (populateTemplate default_md analysis userQuestion) = true.
Proof.
  intros Hline.
  assert (Hall : forallb (fun line => spared line
                                      && includes (framed line) getDefaultTemplate
                                      && includes (framed line) default_md)
                   expression_lines = true) by (vm_compute; reflexivity).
  pose proof (proj1 (forallb_forall _ _) Hall line Hline) as H.
  apply andb_true_iff in H. destruct H as [H Hm].
  apply andb_true_iff in H. destruct H as [Hs Hb].
  split; apply spared_line_kept; assumption.
Qed.

End LineProperties.

Lemma expression_lines_kept_witness :
  exists a,
    @analyzeCodebase shop_runtime (js "/work/shop-frontend") shop = Normal a
    /\ includes
         (framed (js "{{userQuestion || '[Please specify what you need help with]'}}"))
         (@populateTemplate shop_runtime getDefaultTemplate a (js "Add a wishlist"))
       = true.
Proof.
  destruct (@analyzeCodebase shop_runtime (js "/work/shop-frontend") shop) as [a|e] eqn:E;
    [|vm_compute in E; discriminate].
  exists a. split; [reflexivity|].
  assert (Hline : In (js "{{userQuestion || '[Please specify what you need help with]'}}")
                    expression_lines).
  { unfold expression_lines. cbn [map In]. do 16 right. left. reflexivity. }
  exact (proj1 (@expression_lines_kept shop_runtime a (js "Add a wishlist") _ Hline)).
Defined.

(** ** Lines that the renderer fills in *)

Lemma matches_after (re : regex) (a s : js_string) :
  matches_somewhere re s = true -> matches_somewhere re (a ++ s) = true.
Proof.
  intros H. induction a as [|x a IH]; [exact H|].
  cbn [app matches_somewhere]. rewrite IH. apply orb_true_r.
Qed.

(** A replacement by a text without dollar sign fills in the placeholder
    that ends a line. *)
Lemma step_fills_line (st : step) (pre p : js_string) :
  head_lit (fst st) = Some lbrace -> refuses (fst st) newline = true ->
  free_of lbrace pre = true ->
  match_here (fst st) p = true -> List.length p = List.length (fst st) ->
  free_of dollar (snd st) = true ->
  forall a b, exists a' b',
    apply_step (a ++ newline :: (pre ++ p) ++ newline :: b) st
    = a' ++ newline :: (pre ++ snd st) ++ newline :: b'.
Proof.
  intros Hlit Hnl Hpre Hp Hlen Hplain a b.
  pose proof (head_lit_nonempty _ _ Hlit) as Hne.
  unfold apply_step, replace.
  destruct (scan_segment (fst st) (snd st) Hne newline ((pre ++ p) ++ newline :: b) Hnl
              a 0 [] (Nat.le_0_l _)) as [a' Ha'].
  rewrite Ha'. rewrite <- (app_assoc pre p).
  rewrite scan_prefix with (h := lbrace) by assumption.
  destruct p as [|c p]; [destruct (fst st); [contradiction | discriminate]|].
  cbn [app]. rewrite scan_match_here; [|exact Hne|].
  - rewrite GetSubstitution_plain by exact Hplain.
    replace (List.length (fst st) - 1) with (List.length p) by (simpl in Hlen; lia).
    rewrite scan_skip. rewrite scan_refused by assumption.
    assert (H : forall rest : js_string,
              a' ++ newline :: pre ++ snd st ++ newline :: rest
              = a' ++ newline :: (pre ++ snd st) ++ newline :: rest).
    { intros rest. rewrite <- app_assoc. reflexivity. }
    eexists. eexists. apply H.
  - change (c :: p ++ newline :: b) with ((c :: p) ++ newline :: b).
    rewrite match_here_within by lia. exact Hp.
Qed.

Lemma braced_spec (re : regex) :
  braced re = true -> head_lit re = Some lbrace /\ refuses re newline = true.
Proof.
  unfold braced. intros H. apply andb_true_iff in H. destruct H as [Hh Hnl].
  split; [|exact Hnl]. destruct (head_lit re) as [h|]; [|discriminate].
  apply N.eqb_eq in Hh. subst h. reflexivity.
Qed.

(** The replacements on a line that ends with a placeholder: one of them
    fills it in, the others do not match in the line. *)
Lemma run_fills_line (pre p text : js_string) (steps : list step) :
  free_of lbrace pre = true -> free_of lbrace text = true -> free_of dollar text = true ->
  Forall (fun st => braced (fst st) = true) steps ->
  Forall (fun st => matches_somewhere (fst st) (pre ++ p) = false
                    \/ (match_here (fst st) p = true
                        /\ List.length p = List.length (fst st) /\ snd st = text)) steps ->
  Exists (fun st => match_here (fst st) p = true) steps ->
  forall a b, exists a' b',
    run steps (a ++ newline :: (pre ++ p) ++ newline :: b)
    = a' ++ newline :: (pre ++ text) ++ newline :: b'.
Proof.
  intros Hpre Hb Hd Hbraced. induction Hbraced as [|st rest Hst Hrest IH];
    intros Hcond Hex a b.
  - inversion Hex.
  - inversion Hcond as [|? ? Hhere Hcond']; subst.
    destruct (braced_spec _ Hst) as [Hlit Hnl].
    pose proof (head_lit_nonempty _ _ Hlit) as Hne.
    rewrite run_cons. destruct Hhere as [Hnone|(Hp & Hlen & Htext)].
    + destruct (step_spares_line st (pre ++ p) Hne Hnl Hnone a b) as (a1 & b1 & ->).
      apply IH; [exact Hcond'|].
      inversion Hex as [? ? Hp|? ? Hex']; subst; [|exact Hex'].
      apply match_here_somewhere in Hp. apply (matches_after _ pre) in Hp. congruence.
    + destruct (step_fills_line st pre p Hlit Hnl Hpre Hp Hlen) with (a := a) (b := b)
        as (a1 & b1 & ->); [rewrite Htext; exact Hd|].
      rewrite Htext. apply run_spares_line.
      apply Forall_forall. intros st' Hin.
      destruct (braced_spec _ (proj1 (Forall_forall _ _) Hrest st' Hin)) as [Hlit' Hnl'].
      split; [apply (head_lit_nonempty _ _ Hlit')|]. split; [exact Hnl'|].
      apply (matches_free _ lbrace); [exact Hlit'|].
      rewrite free_of_app, Hpre, Hb. reflexivity.
Qed.

Ltac cond_section :=
  lazymatch goal with
  | |- Forall _ (section_steps _ (Some _)) => cbn [section_steps]
  | |- Forall _ (section_steps _ ?s) => destruct s; cbn [section_steps]; [|constructor]
  | _ => idtac
  end;
  unfold technology_steps, structure_steps, fileTypes_steps, importantFiles_steps,
    dependencies_steps, Category.keys, Role.keys;
  cbn [map]; single_steps.

Ltac cond_steps :=
  try unfold steps;
  apply Forall_app; split; [single_steps|];
  apply Forall_app; split; [cond_section|];
  apply Forall_app; split; [cond_section|];
  apply Forall_app; split; [cond_section|];
  apply Forall_app; split; [cond_section|];
  cond_section.

Section RenderedLines.

Context {rt : Runtime}.

Lemma steps_braced (analysis : Analysis.t) (userQuestion : js_string) :
  Forall (fun st => braced (fst st) = true) (steps analysis userQuestion).
Proof.
  apply (steps_patterns (fun re => braced re = true)).
  apply Forall_forall. apply forallb_forall. vm_compute. reflexivity.
Qed.

(** A line of a template that ends with a placeholder is, in the prompt, the
    line with the text in place of the placeholder. *)
Lemma line_rendered (pre p text template : js_string) (analysis : Analysis.t)
    (userQuestion : js_string) :
  free_of lbrace pre = true -> plain text = true ->
  Forall (fun st => matches_somewhere (fst st) (pre ++ p) = false
                    \/ (match_here (fst st) p = true
                        /\ List.length p = List.length (fst st) /\ snd st = text))
    (steps analysis userQuestion) ->
  Exists (fun st => match_here (fst st) p = true) (steps analysis userQuestion) ->
  includes (framed (pre ++ p)) template = true ->
  includes (framed (pre ++ text)) (populateTemplate template analysis userQuestion) = true.
Proof.
  intros Hpre Hplain Hcond Hex Hline. rewrite populateTemplate_steps.
  unfold plain in Hplain. apply andb_true_iff in Hplain. destruct Hplain as [Hd Hb].
  apply framed_split in Hline. destruct Hline as (a & b & ->).
  destruct (run_fills_line pre p text (steps analysis userQuestion) Hpre Hb Hd
              (steps_braced analysis userQuestion) Hcond Hex a b) as (a' & b' & ->).
  apply framed_includes.
Qed.

Lemma total_line_rendered (template : js_string) (analysis : Analysis.t)
    (userQuestion : js_string) :
  In template shipped_templates ->
  includes (framed (total_line ++ ToString_nat (Analysis.totalFiles analysis)))
    (populateTemplate template analysis userQuestion) = true.
Proof.
  intros Htemplate.
  apply (line_rendered total_line (js "{{totalFiles}}")).
  - vm_compute. reflexivity.
  - unfold plain. destruct (ToString_nat_plain (Analysis.totalFiles analysis)) as [-> ->].
    reflexivity.
  - cond_steps.
  - apply Exists_cons_tl, Exists_cons_hd. vm_compute. reflexivity.
  - destruct Htemplate as [<-|[<-|[]]]; vm_compute; reflexivity.
Qed.

Lemma breakdown_line_rendered (template : js_string) (analysis : Analysis.t)
    (fileTypes : buckets Category.t) (userQuestion : js_string) (type : Category.t)
    (label : string) :
  In template shipped_templates -> Analysis.fileTypes analysis = Some fileTypes ->
  In (type, label) breakdown_lines ->
  includes (framed (js label ++ ToString_nat (List.length (fileTypes type))))
    (populateTemplate template analysis userQuestion) = true.
Proof.
  intros Htemplate Hft Hline.
  apply (line_rendered (js label)
           (js "{{fileTypes." ++ Category.name type ++ js ".length}}")).
  - unfold breakdown_lines in Hline. cbn [In] in Hline.
    repeat (destruct Hline as [Hline|Hline];
            [inversion Hline; subst; vm_compute; reflexivity|]).
    destruct Hline.
  - unfold plain. destruct (ToString_nat_plain (List.length (fileTypes type))) as [-> ->].
    reflexivity.
  - unfold steps. rewrite Hft. unfold breakdown_lines in Hline. cbn [In] in Hline.
    repeat (destruct Hline as [Hline|Hline];
            [inversion Hline; subst; cond_steps|]).
    destruct Hline.
  - apply Exists_exists.
    exists (RegExp (js "{{fileTypes." ++ Category.name type ++ js ".length}}"),
            ToString_nat (List.length (fileTypes type))).
    split; [|cbn [fst]; destruct type; vm_compute; reflexivity].
    unfold steps. rewrite Hft. cbn [section_steps].
    apply in_or_app. right. apply in_or_app. right. apply in_or_app. right.
    apply in_or_app. left.
    refine (in_map (fun type =>
                      (RegExp (js "{{fileTypes." ++ Category.name type ++ js ".length}}"),
                       ToString_nat (List.length (fileTypes type))))
              Category.keys type _).
    destruct type; cbn; auto 15.
  - unfold breakdown_lines in Hline. cbn [In] in Hline.
    repeat (destruct Hline as [Hline|Hline];
            [inversion Hline; subst;
             destruct Htemplate as [<-|[<-|[]]]; vm_compute; reflexivity|]).
    destruct Hline.
Qed.

(** X23: in every prompt made from one of the two templates the program
    comes with, whatever the analysis and the question are, the line of the
    number of files shows [totalFiles], and each of the ten lines of the file
    breakdown shows the size of its bucket, in decimal digits. *)
Theorem count_lines_rendered (template : js_string) (analysis : Analysis.t)
    (fileTypes : buckets Category.t) (userQuestion : js_string) :
  In template shipped_templates -> Analysis.fileTypes analysis = Some fileTypes ->
  includes (framed (total_line ++ ToString_nat (Analysis.totalFiles analysis)))
    (populateTemplate template analysis userQuestion) = true
  /\ forall type label,
       In (type, label) breakdown_lines ->
       includes (framed (js label ++ ToString_nat (List.length (fileTypes type))))
         (populateTemplate template analysis userQuestion) = true.
Proof.
  intros Htemplate Hft. split; [apply total_line_rendered, Htemplate|].
  intros type label Hline. apply breakdown_line_rendered; assumption.
Qed.

End RenderedLines.

Lemma count_lines_rendered_witness :
  exists a,
    @analyzeCodebase shop_runtime (js "/work/shop-frontend") shop = Normal a
    /\ includes (js "
- **Total Files**: 5
") (@populateTemplate shop_runtime default_md a (js "Add a wishlist")) = true
    /\ includes (js "
- **React Components**: 3
") (@populateTemplate shop_runtime default_md a (js "Add a wishlist")) = true.
Proof.
  destruct (@analyzeCodebase shop_runtime (js "/work/shop-frontend") shop) as [a|e] eqn:E;
    [|vm_compute in E; discriminate].
  exists a.
  destruct (Analysis.fileTypes a) as [ft|] eqn:Hft;
    [|exfalso; vm_compute in E; inversion E; subst; discriminate].
  assert (Htemplate : In default_md shipped_templates) by (right; left; reflexivity).
  destruct (@count_lines_rendered shop_runtime default_md a ft (js "Add a wishlist")
              Htemplate Hft) as [Htotal Hcounts].
  split; [reflexivity|].
  assert (Ea : Analysis.totalFiles a = 5)
    by (vm_compute in E; inversion E; subst; reflexivity).
  assert (Er : List.length (ft Category.react) = 3).
  { vm_compute in E. inversion E; subst. inversion Hft; subst. reflexivity. }
  split.
  - rewrite Ea in Htotal. exact Htotal.
  - pose proof (Hcounts Category.react "- **React Components**: ") as H.
    rewrite Er in H. apply H. unfold breakdown_lines. cbn [In]. do 2 right. left. reflexivity.
Defined.

(** ** The overview of a project *)

Section OverviewProperties.

Context {rt : Runtime}.

Lemma plain_or_unknown (text : js_string) :
  plain text = true -> plain (str_or text (js "Unknown")) = true.
Proof.
  intros H. destruct (plain_str_or text H) as [Hd Hb]. unfold plain.
  rewrite Hd, Hb. reflexivity.
Qed.

Lemma overview_line_rendered (template : js_string) (analysis : Analysis.t)
    (technology : Technology.t) (userQuestion : js_string) (pre : string)
    (label : Technology.t -> js_string) :
  In template shipped_templates -> Analysis.technology analysis = Some technology ->
  In (pre, label) overview_lines -> plain (label technology) = true ->
  includes (framed (js pre ++ str_or (label technology) (js "Unknown")))
    (populateTemplate template analysis userQuestion) = true.
Proof.
  intros Htemplate Htech Hline Hplain. apply plain_or_unknown in Hplain.
  assert (Hin : forall st, In st (technology_steps technology) ->
                           In st (steps analysis userQuestion)).
  { intros st Hst. unfold steps. rewrite Htech. cbn [section_steps].
    apply in_or_app. right. apply in_or_app. left. exact Hst. }
  unfold overview_lines in Hline. cbn [In] in Hline.
  destruct Hline as [Hline|[Hline|[Hline|[Hline|[Hline|[]]]]]];
    inversion Hline; subst pre label; clear Hline.
  - apply (line_rendered _ (js "{{technology.framework}}"));
      [vm_compute; reflexivity | exact Hplain | unfold steps; rewrite Htech; cond_steps
      | |destruct Htemplate as [<-|[<-|[]]]; vm_compute; reflexivity].
    apply Exists_exists. eexists. split; [apply Hin; left; reflexivity|].
    vm_compute. reflexivity.
  - apply (line_rendered _ (js "{{technology.language}}"));
      [vm_compute; reflexivity | exact Hplain | unfold steps; rewrite Htech; cond_steps
      | |destruct Htemplate as [<-|[<-|[]]]; vm_compute; reflexivity].
    apply Exists_exists. eexists. split; [apply Hin; right; left; reflexivity|].
    vm_compute. reflexivity.
  - apply (line_rendered _ (js "{{technology.styling}}"));
      [vm_compute; reflexivity | exact Hplain | unfold steps; rewrite Htech; cond_steps
      | |destruct Htemplate as [<-|[<-|[]]]; vm_compute; reflexivity].
    apply Exists_exists. eexists. split; [apply Hin; do 2 right; left; reflexivity|].
    vm_compute. reflexivity.
  - apply (line_rendered _ (js "{{technology.bundler}}"));
      [vm_compute; reflexivity | exact Hplain | unfold steps; rewrite Htech; cond_steps
      | |destruct Htemplate as [<-|[<-|[]]]; vm_compute; reflexivity].
    apply Exists_exists. eexists. split; [apply Hin; do 3 right; left; reflexivity|].
    vm_compute. reflexivity.
  - apply (line_rendered _ (js "{{technology.testing}}"));
      [vm_compute; reflexivity | exact Hplain | unfold steps; rewrite Htech; cond_steps
      | |destruct Htemplate as [<-|[<-|[]]]; vm_compute; reflexivity].
    apply Exists_exists. eexists. split; [apply Hin; do 4 right; left; reflexivity|].
    vm_compute. reflexivity.
Qed.

Lemma name_line_rendered (template : js_string) (analysis : Analysis.t)
    (userQuestion : js_string) :
  In template shipped_templates -> plain (Analysis.projectName analysis) = true ->
  includes (framed (js "- **Project Name**: "
                      ++ str_or (Analysis.projectName analysis) (js "Unknown")))
    (populateTemplate template analysis userQuestion) = true.
Proof.
  intros Htemplate Hplain. apply plain_or_unknown in Hplain.
  apply (line_rendered _ (js "{{projectName}}"));
    [vm_compute; reflexivity | exact Hplain | cond_steps
    |apply Exists_cons_hd; vm_compute; reflexivity
    |destruct Htemplate as [<-|[<-|[]]]; vm_compute; reflexivity].
Qed.

(** The labels of [detectTechnology] are among a few words, none of them
    empty or with a dollar sign or a brace. *)
Lemma detectTechnology_labels (fileTypes : buckets Category.t)
    (dependencies : Dependencies.t) (pre : string) (label : Technology.t -> js_string) :
  In (pre, label) overview_lines ->
  plain (label (detectTechnology fileTypes dependencies)) = true
  /\ str_or (label (detectTechnology fileTypes dependencies)) (js "Unknown")
     = label (detectTechnology fileTypes dependencies).
Proof.
  intros Hline. unfold overview_lines in Hline. cbn [In] in Hline.
  unfold detectTechnology.
  destruct Hline as [Hline|[Hline|[Hline|[Hline|[Hline|[]]]]]];
    inversion Hline; subst pre label; clear Hline;
    cbn [Technology.framework Technology.language Technology.styling
         Technology.bundler Technology.testing];
    unfold detectFramework, detectLanguage, detectStyling, detectBundler, detectTesting;
    repeat match goal with
           | |- context [if ?c then _ else _] => destruct c
           end;
    split; vm_compute; reflexivity.
Qed.

(** X24: for every project, whatever is at its path, and every question,
    the prompt made from one of the two templates the program comes with
    shows, in the lines of the overview, the labels the analysis found for
    the framework, the language, the styling, the bundler and the testing
    tool; and it shows the name of the project when the name has no dollar
    sign and no opening brace in it. *)
Theorem overview_rendered (template projectPath : js_string) (root : fsnode)
    (userQuestion : js_string) :
  In template shipped_templates ->
  exists a technology,
    analyzeCodebase projectPath root = Normal a
    /\ Analysis.technology a = Some technology
    /\ (forall pre label,
          In (pre, label) overview_lines ->
          includes (framed (js pre ++ label technology))
            (populateTemplate template a userQuestion) = true)
    /\ (plain (path_basename projectPath) = true ->
        includes (framed (js "- **Project Name**: "
                            ++ str_or (path_basename projectPath) (js "Unknown")))
          (populateTemplate template a userQuestion) = true).
Proof.
  intros Htemplate. unfold analyzeCodebase.
  destruct (analyzeDependencies_returns projectPath root) as [d Hd].
  rewrite Hd. cbn [bind]. eexists. eexists.
  split; [reflexivity|]. split; [reflexivity|]. split.
  - intros pre label Hline.
    destruct (detectTechnology_labels (categorizeFiles (findAllFiles projectPath root)) d
                pre label Hline) as [Hplain Hlabel].
    rewrite <- Hlabel. apply overview_line_rendered; [exact Htemplate | reflexivity | |];
      assumption.
  - intros Hplain.
    match goal with
    | |- context [populateTemplate template ?a userQuestion] =>
        exact (name_line_rendered template a userQuestion Htemplate Hplain)
    end.
Qed.

End OverviewProperties.

Lemma overview_rendered_witness :
  exists a,
    @analyzeCodebase shop_runtime (js "/work/shop-frontend") shop = Normal a
    /\ includes (js "
- **Main Framework**: React
") (@populateTemplate shop_runtime getDefaultTemplate a []) = true
    /\ includes (js "
- **Testing**: Jest
") (@populateTemplate shop_runtime getDefaultTemplate a []) = true.
Proof.
  assert (Htemplate : In getDefaultTemplate shipped_templates) by (left; reflexivity).
  destruct (@overview_rendered shop_runtime getDefaultTemplate (js "/work/shop-frontend")
              shop [] Htemplate) as (a & t & Ha & Ht & Hlines & _).
  exists a. split; [exact Ha|].
  assert (Et : Technology.framework t = js "React" /\ Technology.testing t = js "Jest").
  { vm_compute in Ha. inversion Ha; subst a. inversion Ht; subst t.
    split; vm_compute; reflexivity. }
  destruct Et as [Ef Etest]. split.
  - pose proof (Hlines "- **Main Framework**: " Technology.framework) as H.
    rewrite Ef in H. apply H. left. reflexivity.
  - pose proof (Hlines "- **Testing**: " Technology.testing) as H.
    rewrite Etest in H. apply H. do 4 right. left. reflexivity.
Defined.

(** ** Test files *)

Section TestFiles.

Context {rt : Runtime}.

(** X25: a file whose base name has [.test.] or [.spec.] in it is never in
    the buckets [javascript] and [typescript]; when its extension is [.js]
    or [.ts], in any case of the letters, it is in the bucket [tests]. *)
Theorem test_files (file : js_string) :
  includes (js ".test.") (path_basename file) = true
  \/ includes (js ".spec.") (path_basename file) = true ->
  category_of file <> Category.javascript
  /\ category_of file <> Category.typescript
  /\ (toLowerCase (path_extname file) = js ".js"
      \/ toLowerCase (path_extname file) = js ".ts" ->
      category_of file = Category.tests).
Proof.
  intros Hname.
  assert (Hmark : includes (js ".test.") (path_basename file)
                  || includes (js ".spec.") (path_basename file) = true).
  { destruct Hname as [H|H]; rewrite H; [reflexivity | apply orb_true_r]. }
  assert (Hnot : negb (includes (js ".test.") (path_basename file))
                 && negb (includes (js ".spec.") (path_basename file)) = false).
  { destruct Hname as [H|H]; rewrite H; [reflexivity | apply andb_false_r]. }
  assert (Hconfig : arr_includes (map js ["package.json"; "package-lock.json"; ".env";
                                          "tsconfig.json"; "webpack.config.js"])
                      (path_basename file) = false).
  { destruct (arr_includes _ (path_basename file)) eqn:E; [|reflexivity].
    apply arr_includes_In in E. cbn [map In] in E.
    repeat (destruct E as [E|E];
            [rewrite <- E in Hmark; vm_compute in Hmark; discriminate|]).
    destruct E. }
  unfold category_of. cbv zeta beta.
  rewrite <- !andb_assoc, Hnot, !andb_false_r.
  split; [|split].
  - repeat match goal with
           | |- (if ?c then _ else _) <> _ => destruct c
           end; discriminate.
  - repeat match goal with
           | |- (if ?c then _ else _) <> _ => destruct c
           end; discriminate.
  - rewrite Hconfig, Hmark.
    intros [Hext|Hext]; rewrite Hext; vm_compute; reflexivity.
Qed.

End TestFiles.

Lemma test_files_witness :
  @category_of plain_runtime (js "/p/src/cart.spec.TS") = Category.tests
  /\ @category_of plain_runtime (js "/p/src/Cart.test.tsx") <> Category.typescript.
Proof.
  split.
  - apply (@test_files plain_runtime (js "/p/src/cart.spec.TS"));
      [right; vm_compute; reflexivity | right; vm_compute; reflexivity].
  - apply (@test_files plain_runtime (js "/p/src/Cart.test.tsx")).
    left. vm_compute. reflexivity.
Defined.

(** ** Flags and lists of dependencies in a template of one placeholder *)

Section FlagsAndLists.

Context {rt : Runtime}.




Lemma dependencies_step_in (analysis : Analysis.t) (dependencies : Dependencies.t)
    (userQuestion : js_string) (st : step) :
  Analysis.dependencies analysis = Some dependencies ->
  In st (dependencies_steps dependencies) -> In st (steps analysis userQuestion).
Proof.
  intros Hdeps Hst. unfold steps. rewrite Hdeps. cbn [section_steps].
  do 5 (apply in_or_app; right). exact Hst.
Qed.


(** X27: a template that is the placeholder of a list of dependencies,
    spelled as the pattern of the renderer spells it (two apostrophes on each
    side of the separator of [join]), is rendered as the first ten names of
    the list, joined by a comma and a blank, and as [None] when the list has
    no name; this when none of the ten names has a dollar sign or an opening
    brace in it. *)
Theorem dependencies_placeholder_rendered (analysis : Analysis.t)
    (dependencies : Dependencies.t) (userQuestion : js_string) (name : string)
    (field : Dependencies.t -> value) :
  Analysis.dependencies analysis = Some dependencies ->
  In (name, field) dependency_lists ->
  forallb plain (slice0 10 (Object_keys (value_or (field dependencies) (VObj [])))) = true ->
  populateTemplate (dependencies_placeholder name) analysis userQuestion
  = str_or (join (js ", ")
              (slice0 10 (Object_keys (value_or (field dependencies) (VObj [])))))
      (js "None").
Proof.
  intros Hdeps Hlist Hnames. rewrite populateTemplate_steps.
  set (text := str_or (join (js ", ")
                         (slice0 10 (Object_keys (value_or (field dependencies) (VObj [])))))
                 (js "None")).
  assert (Hplain : plain text = true).
  { unfold text. pose proof (plain_join _ Hnames) as H.
    destruct (join (js ", ") _); [reflexivity | exact H]. }
  unfold plain in Hplain. apply andb_true_iff in Hplain. destruct Hplain as [Hd Hb].
  unfold dependency_lists in Hlist. cbn [In] in Hlist. unfold text in *. clear text.
  destruct Hlist as [H|[H|[]]]; inversion H; subst name field; clear H;
    (apply (run_single _ (str_or (join (js ", ") _) (js "None")));
     [exact Hb | exact Hd | apply steps_open
     |unfold steps; rewrite Hdeps; cond_steps
     |apply Exists_exists; eexists; split;
      [apply (dependencies_step_in _ _ _ _ Hdeps); unfold dependencies_steps; cbn [In]
      |]]).
  - left. reflexivity.
  - vm_compute. reflexivity.
  - right. left. reflexivity.
  - vm_compute. reflexivity.
Qed.

End FlagsAndLists.


Lemma dependencies_placeholder_rendered_witness :
  let d := Dependencies.mk
             (VObj [(js "react", VStr (js "^18.2.0")); (js "express", VStr (js "^4.18.2"))])
             (VObj []) (VObj []) (VStr (js "commonjs")) in
  let a := Analysis.mk (js "shop") 0 None None (Some d) None None in
  @populateTemplate plain_runtime (dependencies_placeholder "dependencies") a []
  = js "react, express"
  /\ @populateTemplate plain_runtime (dependencies_placeholder "devDependencies") a []
     = js "None".
Proof.
  intros d a. split.
  - etransitivity;
      [apply (@dependencies_placeholder_rendered plain_runtime a d [] "dependencies"
                Dependencies.dependencies eq_refl);
       [left; reflexivity | vm_compute; reflexivity]
      |vm_compute; reflexivity].
  - etransitivity;
      [apply (@dependencies_placeholder_rendered plain_runtime a d [] "devDependencies"
                Dependencies.devDependencies eq_refl);
       [right; left; reflexivity | vm_compute; reflexivity]
      |vm_compute; reflexivity].
Defined.
